(** * go-xls: a BIFF8 record stream inside a CFB (OLE2) container

    Shallow embedding of [cfb.go] and of the BIFF8 writer of
    github.com/tkuchiki/go-xls, and the properties of its specification.

    Modelling conventions.
    - A Go [[]byte] is a [list Z] whose elements are octets; a Go [string] is
      a [string], that is, a sequence of octets (Go strings are byte
      sequences, decoded as UTF-8 only by [[]rune(s)] and by the transcoder).
    - A Go [int] is a [Z]: lengths of in-memory slices and the counters of the
      shared string table stay far below 2^63.  Every explicit conversion of
      the source ([uint16(x)], [uint32(x)], [byte(x)]) is written out as a
      reduction modulo 2^16, 2^32, 2^8.
    - An [io.Writer] is the list of bytes written to it so far; the sinks the
      program uses ([bytes.Buffer], and the file behind [SaveAs]) are taken to
      accept every write, so a write appends.  A procedure that writes ends
      by returning [nil], by returning an error, or by a panic.
    - An index outside a slice panics in Go; [set_index] makes that visible. *)

From Stdlib Require Import ZArith Lia Ascii String.
From stdpp Require Import base option list strings gmap.

Local Open Scope Z_scope.

(** ** Integers, slices, little-endian stores *)

Definition uint8 (x : Z) : Z := x mod 2 ^ 8.
Definition uint16 (x : Z) : Z := x mod 2 ^ 16.
Definition uint32 (x : Z) : Z := x mod 2 ^ 32.
Definition uint64 (x : Z) : Z := x mod 2 ^ 64.

(** [len(s)] *)
Definition len {A} (s : list A) : Z := Z.of_nat (length s).

(** [make([]T, n)]: [n] zero values. *)
Definition make (n : Z) : list Z := replicate (Z.to_nat n) 0.

(** [copy(dst[lo:hi], src)]: copies [min (hi - lo) (len src)] elements. *)
Definition copy (dst : list Z) (lo hi : nat) (src : list Z) : list Z :=
  let n := Nat.min (hi - lo) (length src) in
  take lo dst ++ take n src ++ drop (lo + n) dst.

(** [s[i] = v]; Go panics when [i] is outside [0 .. len(s)-1]. *)
Definition set_index (s : list Z) (i : Z) (v : Z) : option (list Z) :=
  if (0 <=? i) && (i <? len s) then Some (<[Z.to_nat i := v]> s) else None.

(** [binary.LittleEndian.PutUint16(b[off:], v)] and its wider siblings. *)
Definition PutUint16 (b : list Z) (off : nat) (v : Z) : list Z :=
  <[(off + 1)%nat := uint8 (Z.shiftr v 8)]> (<[off := uint8 v]> b).

Definition PutUint32 (b : list Z) (off : nat) (v : Z) : list Z :=
  <[(off + 3)%nat := uint8 (Z.shiftr v 24)]>
    (<[(off + 2)%nat := uint8 (Z.shiftr v 16)]>
      (<[(off + 1)%nat := uint8 (Z.shiftr v 8)]> (<[off := uint8 v]> b))).

Definition PutUint64 (b : list Z) (off : nat) (v : Z) : list Z :=
  PutUint32 (PutUint32 b off v) (off + 4) (Z.shiftr v 32).

(** Readers of the stored fields (the inverse direction, used to state what a
    field of an emitted record holds). *)
Definition Uint16 (b : list Z) (off : nat) : Z :=
  b !!! off + 2 ^ 8 * b !!! (off + 1)%nat.

Definition Uint32 (b : list Z) (off : nat) : Z :=
  b !!! off + 2 ^ 8 * b !!! (off + 1)%nat + 2 ^ 16 * b !!! (off + 2)%nat
  + 2 ^ 24 * b !!! (off + 3)%nat.

(** ** UTF-8 decoding: [[]rune(s)] *)

Definition RuneError : Z := 0xFFFD.

Definition byte_of (c : ascii) : Z := Z.of_N (N_of_ascii c).

(** Number of bytes announced by a leading byte; 0 for a byte that cannot
    start a sequence. *)
Definition utf8_size (b0 : Z) : Z :=
  if b0 <? 0x80 then 1
  else if b0 <? 0xC2 then 0
  else if b0 <? 0xE0 then 2
  else if b0 <? 0xF0 then 3
  else if b0 <? 0xF5 then 4
  else 0.

(** Accepted range of the second byte (excludes overlong forms, surrogates
    and values above U+10FFFF). *)
Definition accept_lo (b0 : Z) : Z :=
  if b0 =? 0xE0 then 0xA0 else if b0 =? 0xF0 then 0x90 else 0x80.
Definition accept_hi (b0 : Z) : Z :=
  if b0 =? 0xED then 0x9F else if b0 =? 0xF4 then 0x8F else 0xBF.

Definition accepted (b0 b1 : Z) : bool :=
  (2 <=? utf8_size b0) && (accept_lo b0 <=? b1) && (b1 <=? accept_hi b0).
Definition continuation (b : Z) : bool := (0x80 <=? b) && (b <=? 0xBF).

Definition maskx (b : Z) : Z := Z.land b 0x3F.

(** [[]rune(s)]: every ill-formed byte yields U+FFFD and is skipped alone. *)
Fixpoint runes (s : string) : list Z :=
  match s with
  | EmptyString => []
  | String c0 s1 =>
    let b0 := byte_of c0 in
    if b0 <? 0x80 then b0 :: runes s1 else
    match s1 with
    | EmptyString => [RuneError]
    | String c1 s2 =>
      let b1 := byte_of c1 in
      if negb (accepted b0 b1) then RuneError :: runes s1
      else if utf8_size b0 =? 2 then
        Z.lor (Z.shiftl (Z.land b0 0x1F) 6) (maskx b1) :: runes s2
      else
      match s2 with
      | EmptyString => RuneError :: runes s1
      | String c2 s3 =>
        let b2 := byte_of c2 in
        if negb (continuation b2) then RuneError :: runes s1
        else if utf8_size b0 =? 3 then
          Z.lor (Z.lor (Z.shiftl (Z.land b0 0x0F) 12) (Z.shiftl (maskx b1) 6))
                (maskx b2) :: runes s3
        else
        match s3 with
        | EmptyString => RuneError :: runes s1
        | String c3 s4 =>
          let b3 := byte_of c3 in
          if negb (continuation b3) then RuneError :: runes s1
          else
            Z.lor (Z.lor (Z.lor (Z.shiftl (Z.land b0 0x07) 18)
                                (Z.shiftl (maskx b1) 12))
                         (Z.shiftl (maskx b2) 6))
                  (maskx b3) :: runes s4
        end
      end
    end
  end.

(** A string given by its octets. *)
Definition string_of_bytes (l : list Z) : string :=
  foldr (fun b s => String (ascii_of_N (Z.to_N b)) s) EmptyString l.

(** [for i, r := range runes { binary.LittleEndian.PutUint16(buf[i*2:], uint16(r)) }],
    from index [i] on. *)
Fixpoint putRunes (buf : list Z) (i : nat) (runes : list Z) : list Z :=
  match runes with
  | [] => buf
  | r :: runes' => putRunes (PutUint16 buf (i * 2) (uint16 r)) (S i) runes'
  end.

(** [stringToUTF16LE] (cfb.go): two bytes per rune, [uint16(r)] each. *)
Definition stringToUTF16LE (s : string) : list Z :=
  let runes := runes s in
  let buf := make (len runes * 2) in
  putRunes buf 0 runes.

(** ** Writers

    A procedure that writes to an [io.Writer] takes the bytes written so far
    and gives them back with the way it ended: it returned [nil], it returned
    an error, or it panicked. *)

Inductive outcome : Set := Ok | Err | Panic.

Definition Wr : Type := list Z -> list Z * outcome.

(** [w.Write(p)] on a sink that accepts the write. *)
Definition Write (p : list Z) : Wr := fun w => (w ++ p, Ok).
Definition skip : Wr := fun w => (w, Ok).
Definition raise (o : outcome) : Wr := fun w => (w, o).

(** [if err := a; err != nil { return err }; b] *)
Definition andThen (a b : Wr) : Wr :=
  fun w => match a w with
           | (w', Ok) => b w'
           | r => r
           end.
Notation "a >>> b" := (andThen a b) (at level 62, right associativity).

(** [for i := 0; i < n; i++ { if err := a; err != nil { return err } }] *)
Fixpoint times (n : nat) (a : Wr) : Wr :=
  match n with
  | O => skip
  | S n' => a >>> times n' a
  end.

(** ** cfb.go *)

Definition cfbHeaderSize : Z := 512.
Definition cfbSectorSize : Z := 512.
Definition cfbMiniSectorSize : Z := 64.
Definition cfbDIFATSize : Z := 109.
Definition cfbMaxRegSector : Z := 0xFFFFFFFA.
Definition cfbFATSector : Z := 0xFFFFFFFD.
Definition cfbEndOfChain : Z := 0xFFFFFFFE.
Definition cfbFreeSector : Z := 0xFFFFFFFF.

(** [for i, v := range vs { binary.LittleEndian.PutUint32(b[off+i*4:], v) }] *)
Fixpoint PutUint32s (b : list Z) (off : nat) (vs : list Z) : list Z :=
  match vs with
  | [] => b
  | v :: vs' => PutUint32s (PutUint32 b off v) (off + 4) vs'
  end.

Module CFBHeader.
Record t : Type := mk {
  Signature : list Z;
  CLSID : list Z;
  MinorVersion : Z;
  MajorVersion : Z;
  ByteOrder : Z;
  SectorShift : Z;
  MiniSectorShift : Z;
  Reserved : list Z;
  TotalSectors : Z;
  FATSectors : Z;
  FirstDirSector : Z;
  TransactionSig : Z;
  MiniStreamCutoff : Z;
  FirstMiniFATSector : Z;
  MiniFATSectors : Z;
  FirstDIFATSector : Z;
  DIFATSectors : Z;
  DIFAT : list Z
}.

Definition buffer (h : t) : list Z :=
  let buf := make cfbHeaderSize in
  let buf := copy buf 0 8 (Signature h) in
  let buf := copy buf 8 24 (CLSID h) in
  let buf := PutUint16 buf 24 (MinorVersion h) in
  let buf := PutUint16 buf 26 (MajorVersion h) in
  let buf := PutUint16 buf 28 (ByteOrder h) in
  let buf := PutUint16 buf 30 (SectorShift h) in
  let buf := PutUint16 buf 32 (MiniSectorShift h) in
  let buf := copy buf 34 40 (Reserved h) in
  let buf := PutUint32 buf 40 (TotalSectors h) in
  let buf := PutUint32 buf 44 (FATSectors h) in
  let buf := PutUint32 buf 48 (FirstDirSector h) in
  let buf := PutUint32 buf 52 (TransactionSig h) in
  let buf := PutUint32 buf 56 (MiniStreamCutoff h) in
  let buf := PutUint32 buf 60 (FirstMiniFATSector h) in
  let buf := PutUint32 buf 64 (MiniFATSectors h) in
  let buf := PutUint32 buf 68 (FirstDIFATSector h) in
  let buf := PutUint32 buf 72 (DIFATSectors h) in
  PutUint32s buf 76 (DIFAT h).

(** [func (h *CFBHeader) WriteTo(w io.Writer) error] *)
Definition WriteTo (h : t) : Wr := Write (buffer h).
End CFBHeader.

Definition NewCFBHeader : CFBHeader.t :=
  {| CFBHeader.Signature := [0xD0; 0xCF; 0x11; 0xE0; 0xA1; 0xB1; 0x1A; 0xE1];
     CFBHeader.CLSID := make 16;
     CFBHeader.MinorVersion := 0x003E;
     CFBHeader.MajorVersion := 0x0003;
     CFBHeader.ByteOrder := 0xFFFE;
     CFBHeader.SectorShift := 0x0009;
     CFBHeader.MiniSectorShift := 0x0006;
     CFBHeader.Reserved := make 6;
     CFBHeader.TotalSectors := 0;
     CFBHeader.FATSectors := 0;
     CFBHeader.FirstDirSector := 0;
     CFBHeader.TransactionSig := 0;
     CFBHeader.MiniStreamCutoff := 0x00001000;
     CFBHeader.FirstMiniFATSector := cfbEndOfChain;
     CFBHeader.MiniFATSectors := 0;
     CFBHeader.FirstDIFATSector := cfbEndOfChain;
     CFBHeader.DIFATSectors := 0;
     CFBHeader.DIFAT := (fun _ => cfbFreeSector) <$> make cfbDIFATSize |}.

Module CFBDirectoryEntry.
Record t : Type := mk {
  Name : list Z;
  NameLength : Z;
  ObjectType : Z;
  ColorFlag : Z;
  LeftSiblingDID : Z;
  RightSiblingDID : Z;
  ChildDID : Z;
  CLSID : list Z;
  StateBits : Z;
  CreationTime : Z;
  ModifiedTime : Z;
  StartSector : Z;
  StreamSize : Z
}.

Definition buffer (e : t) : list Z :=
  let buf := make 128 in
  let buf := copy buf 0 64 (Name e) in
  let buf := PutUint16 buf 64 (NameLength e) in
  let buf := <[66%nat := ObjectType e]> buf in
  let buf := <[67%nat := ColorFlag e]> buf in
  let buf := PutUint32 buf 68 (LeftSiblingDID e) in
  let buf := PutUint32 buf 72 (RightSiblingDID e) in
  let buf := PutUint32 buf 76 (ChildDID e) in
  let buf := copy buf 80 96 (CLSID e) in
  let buf := PutUint32 buf 96 (StateBits e) in
  let buf := PutUint64 buf 100 (CreationTime e) in
  let buf := PutUint64 buf 108 (ModifiedTime e) in
  let buf := PutUint32 buf 116 (StartSector e) in
  PutUint64 buf 120 (StreamSize e).
End CFBDirectoryEntry.

(** [bufferWriter{buf: dst[lo:hi]}] followed by one [Write(p)]: the slice
    shares its storage with [dst], so the bytes land in [dst]. *)
Definition bufferWriter_Write (dst : list Z) (lo hi : nat) (p : list Z) : list Z :=
  copy dst lo hi p.

(** The [Name] array of a directory entry: [copy(e.Name[:], name)] and the
    two zero bytes stored after it.  Both names of the source are shorter
    than the array, so the two stores are in range. *)
Definition entryName (name : list Z) : list Z :=
  <[(length name + 1)%nat := 0]> (<[length name := 0]> (copy (make 64) 0 64 name)).

(** The loop [for i := 0; i < dataSectors; i++] of [WriteCFB]; [n] counts the
    iterations left. *)
Fixpoint chainFAT (n : nat) (i dataSectors : Z) (fat : list Z) : option (list Z) :=
  match n with
  | O => Some fat
  | S n' =>
    fat' ← set_index fat i
             (if i =? dataSectors - 1 then cfbEndOfChain else uint32 (i + 1));
    chainFAT n' (i + 1) dataSectors fat'
  end.

(** The FAT of [WriteCFB], or [None] when filling it panics. *)
Definition buildFAT (dataSectors : Z) : option (list Z) :=
  let fatSector := dataSectors in
  let dirSector := dataSectors + 1 in
  let fat := (fun _ => cfbFreeSector) <$> make (cfbSectorSize / 4) in
  fat ← chainFAT (Z.to_nat dataSectors) 0 dataSectors fat;
  fat ← set_index fat fatSector cfbFATSector;
  set_index fat dirSector cfbEndOfChain.

(** [len(workbookData)], raised to 4096. *)
Definition dataSizeOf (workbookData : list Z) : Z :=
  if len workbookData <? 4096 then 4096 else len workbookData.

(** Operands are non-negative, so Go's truncating [/] is [Z.div]. *)
Definition dataSectorsOf (workbookData : list Z) : Z :=
  (dataSizeOf workbookData + cfbSectorSize - 1) / cfbSectorSize.

Definition directorySector (dataSize : Z) : list Z :=
  let dirBuf := make cfbSectorSize in
  let rootName := stringToUTF16LE "Root Entry" in
  let root :=
    {| CFBDirectoryEntry.Name := entryName rootName;
       CFBDirectoryEntry.NameLength := uint16 (len rootName + 2);
       CFBDirectoryEntry.ObjectType := 5;
       CFBDirectoryEntry.ColorFlag := 1;
       CFBDirectoryEntry.LeftSiblingDID := cfbFreeSector;
       CFBDirectoryEntry.RightSiblingDID := cfbFreeSector;
       CFBDirectoryEntry.ChildDID := 1;
       CFBDirectoryEntry.CLSID := make 16;
       CFBDirectoryEntry.StateBits := 0;
       CFBDirectoryEntry.CreationTime := 0;
       CFBDirectoryEntry.ModifiedTime := 0;
       CFBDirectoryEntry.StartSector := cfbEndOfChain;
       CFBDirectoryEntry.StreamSize := 0 |} in
  let wbName := stringToUTF16LE "Workbook" in
  let workbook :=
    {| CFBDirectoryEntry.Name := entryName wbName;
       CFBDirectoryEntry.NameLength := uint16 (len wbName + 2);
       CFBDirectoryEntry.ObjectType := 2;
       CFBDirectoryEntry.ColorFlag := 1;
       CFBDirectoryEntry.LeftSiblingDID := cfbFreeSector;
       CFBDirectoryEntry.RightSiblingDID := cfbFreeSector;
       CFBDirectoryEntry.ChildDID := cfbFreeSector;
       CFBDirectoryEntry.CLSID := make 16;
       CFBDirectoryEntry.StateBits := 0;
       CFBDirectoryEntry.CreationTime := 0;
       CFBDirectoryEntry.ModifiedTime := 0;
       CFBDirectoryEntry.StartSector := 0;
       CFBDirectoryEntry.StreamSize := uint64 dataSize |} in
  let empty :=
    {| CFBDirectoryEntry.Name := make 64;
       CFBDirectoryEntry.NameLength := 0;
       CFBDirectoryEntry.ObjectType := 0;
       CFBDirectoryEntry.ColorFlag := 0;
       CFBDirectoryEntry.LeftSiblingDID := cfbFreeSector;
       CFBDirectoryEntry.RightSiblingDID := cfbFreeSector;
       CFBDirectoryEntry.ChildDID := cfbFreeSector;
       CFBDirectoryEntry.CLSID := make 16;
       CFBDirectoryEntry.StateBits := 0;
       CFBDirectoryEntry.CreationTime := 0;
       CFBDirectoryEntry.ModifiedTime := 0;
       CFBDirectoryEntry.StartSector := cfbEndOfChain;
       CFBDirectoryEntry.StreamSize := 0 |} in
  let tmpBuf := make 128 in
  let dirBuf := bufferWriter_Write dirBuf 0 128 (CFBDirectoryEntry.buffer root) in
  let dirBuf := bufferWriter_Write dirBuf 128 256 (CFBDirectoryEntry.buffer workbook) in
  let tmpBuf := bufferWriter_Write tmpBuf 0 128 (CFBDirectoryEntry.buffer empty) in
  let dirBuf := copy dirBuf 256 384 tmpBuf in
  let tmpBuf := bufferWriter_Write tmpBuf 0 128 (CFBDirectoryEntry.buffer empty) in
  copy dirBuf 384 512 tmpBuf.

(** [func WriteCFB(w io.Writer, workbookData []byte) error] *)
Definition WriteCFB (workbookData : list Z) : Wr :=
  let dataSize := dataSizeOf workbookData in
  let dataSectors := dataSectorsOf workbookData in
  let fatSector := dataSectors in
  let dirSector := dataSectors + 1 in
  let header := NewCFBHeader in
  let header :=
    CFBHeader.mk
      (CFBHeader.Signature header) (CFBHeader.CLSID header)
      (CFBHeader.MinorVersion header) (CFBHeader.MajorVersion header)
      (CFBHeader.ByteOrder header) (CFBHeader.SectorShift header)
      (CFBHeader.MiniSectorShift header) (CFBHeader.Reserved header)
      (CFBHeader.TotalSectors header)
      1                                   (* header.FATSectors = 1 *)
      (uint32 dirSector)                  (* header.FirstDirSector *)
      (CFBHeader.TransactionSig header) (CFBHeader.MiniStreamCutoff header)
      (CFBHeader.FirstMiniFATSector header) (CFBHeader.MiniFATSectors header)
      (CFBHeader.FirstDIFATSector header) (CFBHeader.DIFATSectors header)
      (<[0%nat := uint32 fatSector]> (CFBHeader.DIFAT header)) in
  CFBHeader.WriteTo header >>>
  (let paddedData := make (dataSectors * cfbSectorSize) in
   let paddedData := copy paddedData 0 (length paddedData) workbookData in
   Write paddedData) >>>
  match buildFAT dataSectors with
  | None => raise Panic
  | Some fat =>
    (let fatBuf := make cfbSectorSize in
     let fatBuf := PutUint32s fatBuf 0 fat in
     Write fatBuf) >>>
    Write (directorySector dataSize)
  end.

(** The bytes [WriteCFB] leaves in a fresh sink, and how it ended. *)
Definition cfbOutput (workbookData : list Z) : list Z := (WriteCFB workbookData []).1.
Definition cfbOutcome (workbookData : list Z) : outcome := (WriteCFB workbookData []).2.

(** ** BIFF8 record types *)

Definition recTypeBOF : Z := 0x0809.
Definition recTypeEOF : Z := 0x000A.
Definition recTypeDIMENSIONS : Z := 0x0200.
Definition recTypeROW : Z := 0x0208.
Definition recTypeLABEL : Z := 0x0204.
Definition recTypeNUMBER : Z := 0x0203.
Definition recTypeBOOLERR : Z := 0x0205.
Definition recTypeSST : Z := 0x00FC.
Definition recTypeEXTSST : Z := 0x00FF.
Definition recTypeLABELSST : Z := 0x00FD.
Definition recTypeCODEPAGE : Z := 0x0042.
Definition recTypeFONT : Z := 0x0031.
Definition recTypeFORMAT : Z := 0x041E.
Definition recTypeXF : Z := 0x00E0.
Definition recTypeSTYLE : Z := 0x0293.
Definition recTypeBOUNDSHEET : Z := 0x0085.
Definition recTypeWINDOW1 : Z := 0x003D.
Definition recTypeWINDOW2 : Z := 0x023E.
Definition recTypeDEFAULTROWHEIGHT : Z := 0x0225.
Definition recTypeDEFCOLWIDTH : Z := 0x0055.
Definition recTypeWSBOOL : Z := 0x0081.
Definition recTypeBOOKBOOL : Z := 0x00DA.
Definition recTypeINTERFACEHDR : Z := 0x00E1.
Definition recTypeMMS : Z := 0x00C1.
Definition recTypeINTERFACEEND : Z := 0x00E2.
Definition recTypeWRITEACCESS : Z := 0x005C.
Definition recTypeDATEMODE : Z := 0x0022.
Definition recTypePRECISION : Z := 0x000E.
Definition recTypeREFRESHALL : Z := 0x01B7.
Definition recTypeCALCMODE : Z := 0x000D.
Definition recTypeCALCCOUNT : Z := 0x000C.
Definition recTypeREFMODE : Z := 0x000F.
Definition recTypeITERATION : Z := 0x0011.
Definition recTypeDELTA : Z := 0x0010.
Definition recTypeSAVERECALC : Z := 0x005F.
Definition recTypePRINTHEADERS : Z := 0x002A.
Definition recTypePRINTGRIDLINES : Z := 0x002B.
Definition recTypePROTECT : Z := 0x0012.
Definition recTypePASSWORD : Z := 0x0013.
Definition recTypeBACKUP : Z := 0x0040.
Definition recTypeHIDEOBJ : Z := 0x008D.
Definition recTypeWINDOWPROTECT : Z := 0x0019.
Definition recTypeDSF : Z := 0x0161.
Definition recTypePROT4REV : Z := 0x01AF.
Definition recTypePASSWORDREV4 : Z := 0x01BC.
Definition recTypeFNGROUPCOUNT : Z := 0x013D.
Definition recTypeUSESELFS : Z := 0x0160.
Definition recTypeUNKNOWN9C : Z := 0x009C.
Definition recTypeLEFTMARGIN : Z := 0x0026.
Definition recTypeRIGHTMARGIN : Z := 0x0027.
Definition recTypeTOPMARGIN : Z := 0x0028.
Definition recTypeBOTTOMMARGIN : Z := 0x0029.
Definition recTypeHCENTER : Z := 0x0083.
Definition recTypeVCENTER : Z := 0x0084.
Definition recTypeSETUP : Z := 0x00A1.
Definition recTypeGRIDSET : Z := 0x0082.
Definition recTypeGUTS : Z := 0x0080.
Definition recTypeOBJPROTECT : Z := 0x0063.
Definition recTypeSCENPROTECT : Z := 0x00DD.
Definition recTypeHBREAK : Z := 0x001B.
Definition recTypeVBREAK : Z := 0x001A.
Definition recTypeHEADER : Z := 0x0014.
Definition recTypeFOOTER : Z := 0x0015.

Definition biffVersion : Z := 0x0600.
Definition bofWorkbook : Z := 0x0005.
Definition bofWorksheet : Z := 0x0010.

(** IEEE-754 binary64 patterns of the three float constants of the source:
    [math.Float64bits(0.001)], [(0.75)] and [(1.0)]. *)
Definition Float64bits_0_001 : Z := 0x3F50624DD2F1A9FC.
Definition Float64bits_0_75 : Z := 0x3FE8000000000000.
Definition Float64bits_1_0 : Z := 0x3FF0000000000000.

(** ** Cell values and the writer *)

(** The dynamic type of an [interface{}] cell, as the type switch of
    [writeCell] sees it.  The twelve integer and floating kinds all take the
    same arm, [writeNumber(.., float64(v))]; the conversion is IEEE arithmetic
    and is not modelled, so a numeric cell carries
    [math.Float64bits(float64(v))].  A cell of any other dynamic type carries
    what [fmt.Sprintf("%v", v)] returns for it. *)
Inductive value : Type :=
| VString (s : string)
| VNumber (bits : Z)
| VBool (b : bool)
| VOther (formatted : string).

Record Writer : Type := mkWriter {
  data : list (list value);
  sheetName : string
}.

(** [New()] *)
Definition New : Writer := {| data := []; sheetName := "Sheet1" |}.

(** ** The shared string table *)

Record sharedStringTable : Type := mkSST {
  strings : list string;
  stringMap : gmap string Z;
  uniqueCount : Z;
  totalCount : Z
}.

Definition newSST : sharedStringTable :=
  {| strings := []; stringMap := ∅; uniqueCount := 0; totalCount := 0 |}.

Definition addString (s : string) (sst : sharedStringTable) : sharedStringTable :=
  let totalCount' := totalCount sst + 1 in
  match stringMap sst !! s with
  | Some _ =>
    {| strings := strings sst; stringMap := stringMap sst;
       uniqueCount := uniqueCount sst; totalCount := totalCount' |}
  | None =>
    {| strings := strings sst ++ [s];
       stringMap := <[s := uniqueCount sst]> (stringMap sst);
       uniqueCount := uniqueCount sst + 1;
       totalCount := totalCount' |}
  end.

(** [sst.stringMap[s]]: the zero value when [s] is absent. *)
Definition getIndex (sst : sharedStringTable) (s : string) : Z :=
  default 0 (stringMap sst !! s).

(** The pre-walk at the head of [writeBIFF8]: only cells whose dynamic type is
    [string] reach [addString]. *)
Definition buildSST (data : list (list value)) : sharedStringTable :=
  foldl (fun sst row =>
           foldl (fun sst cell =>
                    match cell with
                    | VString str => addString str sst
                    | _ => sst
                    end) sst row)
        newSST data.

(** ** String encoders *)

(** [[]byte(s)] *)
Definition bytesOf (s : string) : list Z := byte_of <$> list_ascii_of_string s.

(** [utf16.EncodeRune]: the surrogate pair of a supplementary code point. *)
Definition EncodeRune (r : Z) : Z * Z :=
  if (r <? 0x10000) || (0x10FFFF <? r) then (RuneError, RuneError)
  else
    let r := r - 0x10000 in
    (0xD800 + Z.land (Z.shiftr r 10) 0x3FF, 0xDC00 + Z.land r 0x3FF).

(** Modelled from the spec: the transcoder
    [unicode.UTF16(unicode.LittleEndian, unicode.IgnoreBOM).NewEncoder()] of
    golang.org/x/text, an external package whose code is not part of the
    repository.  Specification sections 4.2.6 and 9: the SST strings are
    UTF-16LE, the character count is the number of code points, and a
    character outside the Basic Multilingual Plane takes a surrogate pair, so
    more than two bytes.  Like the package, it decodes the input rune by rune
    (ill-formed bytes become U+FFFD), writes no byte-order mark and never
    fails. *)
Definition utf16leEncoder_String (s : string) : option (list Z) :=
  Some (r ← runes s;
        if r <=? 0xFFFF then [uint8 r; uint8 (Z.shiftr r 8)]
        else
          let '(r1, r2) := EncodeRune r in
          [uint8 r1; uint8 (Z.shiftr r1 8); uint8 r2; uint8 (Z.shiftr r2 8)]).

(** [encodeString]: length byte, flag, a zero byte, UTF-16LE. *)
Definition encodeString (s : string) : option (list Z) :=
  utf16 ← utf16leEncoder_String s;
  let result := make (3 + len utf16) in
  let result := <[0%nat := uint8 (len (runes s))]> result in
  let result := <[1%nat := 0x01]> result in
  let result := <[2%nat := 0x00]> result in
  Some (copy result 3 (length result) utf16).

(** [encodeStringForSST]: 16-bit character count, flag, UTF-16LE. *)
Definition encodeStringForSST (s : string) : option (list Z) :=
  utf16 ← utf16leEncoder_String s;
  let result := make (3 + len utf16) in
  let result := PutUint16 result 0 (uint16 (len (runes s))) in
  let result := <[2%nat := 0x01]> result in
  Some (copy result 3 (length result) utf16).

(** ** BIFF8 records *)

(** [writeRecord]: the four-byte header, then the payload when it is not
    empty. *)
Definition writeRecord (recType : Z) (data : list Z) : Wr :=
  let header := make 4 in
  let header := PutUint16 header 0 recType in
  let header := PutUint16 header 2 (uint16 (len data)) in
  Write header >>>
  (if 0 <? len data then Write data else skip).

Definition writeBOF (subType : Z) : Wr :=
  let data := make 16 in
  let data := PutUint16 data 0 biffVersion in
  let data := PutUint16 data 2 subType in
  let data := PutUint16 data 4 0x0DBB in
  let data := PutUint16 data 6 0x07CC in
  let data := PutUint32 data 8 0x00000000 in
  let data := PutUint32 data 12 0x00000006 in
  writeRecord recTypeBOF data.

Definition writeEOF : Wr := writeRecord recTypeEOF [].

Definition writeCodePage : Wr :=
  let data := make 2 in
  let data := PutUint16 data 0 0x04B0 in
  writeRecord recTypeCODEPAGE data.

Definition writeDefaultFont : Wr :=
  let fontName := "Arial" in
  let data := make (14 + 1 + 1 + len (bytesOf fontName)) in
  let data := PutUint16 data 0 200 in
  let data := PutUint16 data 2 0 in
  let data := PutUint16 data 4 0x7FFF in
  let data := PutUint16 data 6 400 in
  let data := PutUint16 data 8 0 in
  let data := <[10%nat := 0]> data in
  let data := <[11%nat := 0]> data in
  let data := <[12%nat := 1]> data in
  let data := <[13%nat := 0]> data in
  let data := <[14%nat := uint8 (len (bytesOf fontName))]> data in
  let data := <[15%nat := 0x00]> data in
  let data := copy data 16 (length data) (bytesOf fontName) in
  writeRecord recTypeFONT data.

Definition writeFormat : Wr :=
  let formatString := "General" in
  let data := make (2 + 2 + 1 + len (bytesOf formatString)) in
  let data := PutUint16 data 0 0x00A4 in
  let data := PutUint16 data 2 (uint16 (len (bytesOf formatString))) in
  let data := <[4%nat := 0x00]> data in
  let data := copy data 5 (length data) (bytesOf formatString) in
  writeRecord recTypeFORMAT data.

Definition writeXF (isStyleXF : bool) (fontIndex : Z) : Wr :=
  let data := make 20 in
  let data :=
    if isStyleXF then
      let data := PutUint16 data 0 fontIndex in
      let data := PutUint16 data 2 0x00A4 in
      let data := PutUint16 data 4 0xFFF5 in
      let data := PutUint16 data 6 0x0020 in
      let data := PutUint32 data 8 0x0000F400 in
      let data := PutUint32 data 12 0x00000000 in
      PutUint32 data 16 0x20C00000
    else
      let data := PutUint16 data 0 fontIndex in
      let data := PutUint16 data 2 0x00A4 in
      let data := PutUint16 data 4 0x0001 in
      let data := PutUint16 data 6 0x0020 in
      let data := PutUint32 data 8 0x0000F800 in
      let data := PutUint32 data 12 0x00000000 in
      PutUint32 data 16 0x20C00000 in
  writeRecord recTypeXF data.

Definition writeDefaultStyle : Wr :=
  let data := make 4 in
  let data := PutUint16 data 0 0x8000 in
  let data := <[2%nat := 0]> data in
  let data := <[3%nat := 0xFF]> data in
  writeRecord recTypeSTYLE data.

Definition writeWindow1 : Wr :=
  let data := make 18 in
  let data := PutUint16 data 0 0 in
  let data := PutUint16 data 2 0 in
  let data := PutUint16 data 4 0x4000 in
  let data := PutUint16 data 6 0x3000 in
  let data := PutUint16 data 8 0x0038 in
  let data := PutUint16 data 10 0 in
  let data := PutUint16 data 12 0 in
  let data := PutUint16 data 14 1 in
  let data := PutUint16 data 16 600 in
  writeRecord recTypeWINDOW1 data.

Definition writeWindow2 : Wr :=
  let data := make 18 in
  let data := PutUint16 data 0 0x06B6 in
  let data := PutUint16 data 2 0 in
  let data := PutUint16 data 4 0 in
  let data := PutUint16 data 6 0x0040 in
  let data := PutUint16 data 8 0 in
  let data := PutUint16 data 10 0 in
  let data := PutUint32 data 12 0 in
  let data := PutUint16 data 16 0 in
  writeRecord recTypeWINDOW2 data.

Definition writeDefColWidth : Wr :=
  let data := make 2 in
  let data := PutUint16 data 0 8 in
  writeRecord recTypeDEFCOLWIDTH data.

Definition writeDefaultRowHeight : Wr :=
  let data := make 4 in
  let data := PutUint16 data 0 0x0000 in
  let data := PutUint16 data 2 0x00FF in
  writeRecord recTypeDEFAULTROWHEIGHT data.

Definition writeWSBool : Wr :=
  let data := make 2 in
  let data := PutUint16 data 0 0x04C1 in
  writeRecord recTypeWSBOOL data.

Definition writeBookBool : Wr :=
  let data := make 2 in
  let data := PutUint16 data 0 0 in
  writeRecord recTypeBOOKBOOL data.

Definition writeInterfaceHdr : Wr :=
  let data := make 2 in
  let data := PutUint16 data 0 0x04B0 in
  writeRecord recTypeINTERFACEHDR data.

Definition writeMMS : Wr :=
  let data := make 2 in
  let data := PutUint16 data 0 0 in
  writeRecord recTypeMMS data.

Definition writeInterfaceEnd : Wr := writeRecord recTypeINTERFACEEND [].

Definition writeWriteAccess : Wr :=
  let data := make 112 in
  let username := "Go XLS Writer" in
  let data := copy data 0 (length data) (bytesOf username) in
  let data :=
    foldl (fun data i => <[i := 0x20]> data) data
          (seq (length (bytesOf username)) (112 - length (bytesOf username))) in
  writeRecord recTypeWRITEACCESS data.

Definition writeDateMode : Wr :=
  let data := make 2 in
  let data := PutUint16 data 0 0 in
  writeRecord recTypeDATEMODE data.

Definition writePrecision : Wr :=
  let data := make 2 in
  let data := PutUint16 data 0 1 in
  writeRecord recTypePRECISION data.

Definition writeRefreshAll : Wr :=
  let data := make 2 in
  let data := PutUint16 data 0 0 in
  writeRecord recTypeREFRESHALL data.

Definition writeCalcMode : Wr :=
  let data := make 2 in
  let data := PutUint16 data 0 1 in
  writeRecord recTypeCALCMODE data.

Definition writeCalcCount : Wr :=
  let data := make 2 in
  let data := PutUint16 data 0 100 in
  writeRecord recTypeCALCCOUNT data.

Definition writeRefMode : Wr :=
  let data := make 2 in
  let data := PutUint16 data 0 1 in
  writeRecord recTypeREFMODE data.

Definition writeIteration : Wr :=
  let data := make 2 in
  let data := PutUint16 data 0 0 in
  writeRecord recTypeITERATION data.

Definition writeDelta : Wr :=
  let data := make 8 in
  let data := PutUint64 data 0 Float64bits_0_001 in
  writeRecord recTypeDELTA data.

Definition writeSaveRecalc : Wr :=
  let data := make 2 in
  let data := PutUint16 data 0 1 in
  writeRecord recTypeSAVERECALC data.

Definition writePrintHeaders : Wr :=
  let data := make 2 in
  let data := PutUint16 data 0 0 in
  writeRecord recTypePRINTHEADERS data.

Definition writePrintGridlines : Wr :=
  let data := make 2 in
  let data := PutUint16 data 0 0 in
  writeRecord recTypePRINTGRIDLINES data.

Definition writeProtect : Wr :=
  let data := make 2 in
  let data := PutUint16 data 0 0 in
  writeRecord recTypePROTECT data.

Definition writePassword : Wr :=
  let data := make 2 in
  let data := PutUint16 data 0 0 in
  writeRecord recTypePASSWORD data.

Definition writeBackup : Wr :=
  let data := make 2 in
  let data := PutUint16 data 0 0 in
  writeRecord recTypeBACKUP data.

Definition writeHideObj : Wr :=
  let data := make 2 in
  let data := PutUint16 data 0 0 in
  writeRecord recTypeHIDEOBJ data.

Definition writeWindowProtect : Wr :=
  let data := make 2 in
  let data := PutUint16 data 0 0 in
  writeRecord recTypeWINDOWPROTECT data.

Definition writeDSF : Wr :=
  let data := make 2 in
  let data := PutUint16 data 0 0 in
  writeRecord recTypeDSF data.

Definition writeFnGroupCount : Wr :=
  let data := make 2 in
  let data := PutUint16 data 0 0x0001 in
  writeRecord recTypeFNGROUPCOUNT data.

Definition writeUnknown9C : Wr :=
  let data := make 2 in
  let data := PutUint16 data 0 0x000E in
  writeRecord recTypeUNKNOWN9C data.

Definition writeUseSelfs : Wr :=
  let data := make 2 in
  let data := PutUint16 data 0 1 in
  writeRecord recTypeUSESELFS data.

Definition writeProt4Rev : Wr :=
  let data := make 2 in
  let data := PutUint16 data 0 0 in
  writeRecord recTypePROT4REV data.

Definition writePasswordRev4 : Wr :=
  let data := make 2 in
  let data := PutUint16 data 0 0 in
  writeRecord recTypePASSWORDREV4 data.

Definition writeLeftMargin : Wr :=
  let data := make 8 in
  let data := PutUint64 data 0 Float64bits_0_75 in
  writeRecord recTypeLEFTMARGIN data.

Definition writeRightMargin : Wr :=
  let data := make 8 in
  let data := PutUint64 data 0 Float64bits_0_75 in
  writeRecord recTypeRIGHTMARGIN data.

Definition writeTopMargin : Wr :=
  let data := make 8 in
  let data := PutUint64 data 0 Float64bits_1_0 in
  writeRecord recTypeTOPMARGIN data.

Definition writeBottomMargin : Wr :=
  let data := make 8 in
  let data := PutUint64 data 0 Float64bits_1_0 in
  writeRecord recTypeBOTTOMMARGIN data.

Definition writeHCenter : Wr :=
  let data := make 2 in
  let data := PutUint16 data 0 0 in
  writeRecord recTypeHCENTER data.

Definition writeVCenter : Wr :=
  let data := make 2 in
  let data := PutUint16 data 0 0 in
  writeRecord recTypeVCENTER data.

Definition writeSetup : Wr :=
  let data := make 34 in
  let data := PutUint16 data 0 1 in
  let data := PutUint16 data 2 100 in
  let data := PutUint16 data 4 1 in
  let data := PutUint16 data 6 1 in
  let data := PutUint16 data 8 1 in
  let data := PutUint16 data 10 0x0000 in
  let data := PutUint16 data 12 600 in
  let data := PutUint16 data 14 600 in
  let data := PutUint16 data 16 1 in
  writeRecord recTypeSETUP data.

Definition writeGridSet : Wr :=
  let data := make 2 in
  let data := PutUint16 data 0 1 in
  writeRecord recTypeGRIDSET data.

Definition writeGuts : Wr :=
  let data := make 8 in
  let data := PutUint16 data 0 0 in
  let data := PutUint16 data 2 0 in
  let data := PutUint16 data 4 0 in
  let data := PutUint16 data 6 0 in
  writeRecord recTypeGUTS data.

Definition writeObjProtect : Wr :=
  let data := make 2 in
  let data := PutUint16 data 0 0 in
  writeRecord recTypeOBJPROTECT data.

Definition writeScenProtect : Wr :=
  let data := make 2 in
  let data := PutUint16 data 0 0 in
  writeRecord recTypeSCENPROTECT data.

Definition writeHBreak : Wr :=
  let data := make 2 in
  let data := PutUint16 data 0 0 in
  writeRecord recTypeHBREAK data.

Definition writeVBreak : Wr :=
  let data := make 2 in
  let data := PutUint16 data 0 0 in
  writeRecord recTypeVBREAK data.

Definition writeHeader : Wr :=
  let data := make 5 in
  let data := PutUint16 data 0 0 in
  let data := <[2%nat := 0x00]> data in
  let data := <[3%nat := 0x00]> data in
  let data := <[4%nat := 0x00]> data in
  writeRecord recTypeHEADER data.

Definition writeFooter : Wr :=
  let data := make 5 in
  let data := PutUint16 data 0 0 in
  let data := <[2%nat := 0x00]> data in
  let data := <[3%nat := 0x00]> data in
  let data := <[4%nat := 0x00]> data in
  writeRecord recTypeFOOTER data.

(** The payload of BOUNDSHEET: offset, two zero bytes, [byte(nameLen)], the
    Unicode flag, the name. *)
Definition boundSheetData (offset : Z) (sheetName : string) : list Z :=
  let nameBytes := stringToUTF16LE sheetName in
  let nameLen := len (runes sheetName) in
  let data := make (6 + 1 + 1 + len nameBytes) in
  let data := PutUint32 data 0 offset in
  let data := <[4%nat := 0]> data in
  let data := <[5%nat := 0]> data in
  let data := <[6%nat := uint8 nameLen]> data in
  let data := <[7%nat := 0x01]> data in
  copy data 8 (length data) nameBytes.

Definition writeBoundSheet (offset : Z) (sheetName : string) : Wr :=
  writeRecord recTypeBOUNDSHEET (boundSheetData offset sheetName).

(** The payload of DIMENSIONS. *)
Definition dimensionsData (w : Writer) : list Z :=
  let rowCount := uint32 (len (data w)) in
  let colCount :=
    foldl (fun colCount row =>
             if colCount <? uint16 (len row) then uint16 (len row) else colCount)
          (uint16 0) (data w) in
  let data := make 14 in
  let data := PutUint32 data 0 0 in
  let data := PutUint32 data 4 rowCount in
  let data := PutUint16 data 8 0 in
  let data := PutUint16 data 10 colCount in
  PutUint16 data 12 0.

Definition writeDimensions (w : Writer) : Wr :=
  writeRecord recTypeDIMENSIONS (dimensionsData w).

(** The payload of ROW. *)
Definition rowData (rowIndex colCount : Z) : list Z :=
  let data := make 16 in
  let data := PutUint16 data 0 rowIndex in
  let data := PutUint16 data 2 0 in
  let data := PutUint16 data 4 colCount in
  let data := PutUint16 data 6 0x00FF in
  let data := PutUint16 data 8 0 in
  let data := PutUint16 data 10 0 in
  PutUint32 data 12 0x000F0000.

Definition writeRow (rowIndex colCount : Z) : Wr :=
  writeRecord recTypeROW (rowData rowIndex colCount).

(** The payloads of the three cell records. *)
Definition labelSSTData (row col : Z) (value : string) (sst : sharedStringTable) : list Z :=
  let sstIndex := getIndex sst value in
  let data := make 10 in
  let data := PutUint16 data 0 row in
  let data := PutUint16 data 2 col in
  let data := PutUint16 data 4 0 in
  PutUint32 data 6 (uint32 sstIndex).

Definition numberData (row col : Z) (bits : Z) : list Z :=
  let data := make 14 in
  let data := PutUint16 data 0 row in
  let data := PutUint16 data 2 col in
  let data := PutUint16 data 4 0 in
  PutUint64 data 6 bits.

Definition boolData (row col : Z) (value : bool) : list Z :=
  let data := make 8 in
  let data := PutUint16 data 0 row in
  let data := PutUint16 data 2 col in
  let data := PutUint16 data 4 0 in
  let data := if value then <[6%nat := 1]> data else <[6%nat := 0]> data in
  <[7%nat := 0]> data.

Definition writeLabelSST (row col : Z) (value : string) (sst : sharedStringTable) : Wr :=
  writeRecord recTypeLABELSST (labelSSTData row col value sst).

Definition writeNumber (row col : Z) (bits : Z) : Wr :=
  writeRecord recTypeNUMBER (numberData row col bits).

Definition writeBool (row col : Z) (value : bool) : Wr :=
  writeRecord recTypeBOOLERR (boolData row col value).

(** The type switch of [writeCell]. *)
Definition writeCell (row col : Z) (v : value) (sst : sharedStringTable) : Wr :=
  match v with
  | VString v => writeLabelSST row col v sst
  | VNumber bits => writeNumber row col bits
  | VBool v => writeBool row col v
  | VOther formatted => writeLabelSST row col formatted sst
  end.

(** [for colIndex, cell := range row], from [colIndex] on. *)
Fixpoint writeCells (rowIndex colIndex : Z) (row : list value)
    (sst : sharedStringTable) : Wr :=
  match row with
  | [] => skip
  | cell :: row' =>
    writeCell (uint16 rowIndex) (uint16 colIndex) cell sst >>>
    writeCells rowIndex (colIndex + 1) row' sst
  end.

(** [for rowIndex, row := range w.data], from [rowIndex] on. *)
Fixpoint writeRows (rowIndex : Z) (rows : list (list value))
    (sst : sharedStringTable) : Wr :=
  match rows with
  | [] => skip
  | row :: rows' =>
    writeRow (uint16 rowIndex) (uint16 (len row)) >>>
    writeCells rowIndex 0 row sst >>>
    writeRows (rowIndex + 1) rows' sst
  end.

Definition writeRowsAndCells (w : Writer) (sst : sharedStringTable) : Wr :=
  writeRows 0 (data w) sst.

(** [for _, str := range sst.strings { ...; data = append(data, strData...) }];
    [None] when a string cannot be transcoded. *)
Fixpoint appendStrings (data : list Z) (strs : list string) : option (list Z) :=
  match strs with
  | [] => Some data
  | str :: strs' =>
    strData ← encodeStringForSST str;
    appendStrings (data ++ strData) strs'
  end.

(** The payload of SST: both counters, then every string of the table. *)
Definition sstData (sst : sharedStringTable) : option (list Z) :=
  let data := make 8 in
  let data := PutUint32 data 0 (uint32 (totalCount sst)) in
  let data := PutUint32 data 4 (uint32 (uniqueCount sst)) in
  appendStrings data (strings sst).

Definition writeSST (sst : sharedStringTable) : Wr :=
  match sstData sst with
  | None => raise Err
  | Some data => writeRecord recTypeSST data
  end.

(** ** [writeBIFF8] *)

(** Workbook globals up to USESELFS: everything written before the
    worksheet offset is computed. *)
Definition writeGlobalsHead : Wr :=
  writeBOF bofWorkbook >>>
  writeInterfaceHdr >>>
  writeMMS >>>
  writeInterfaceEnd >>>
  writeWriteAccess >>>
  writeCodePage >>>
  writeDSF >>>
  writeFnGroupCount >>>
  writeUnknown9C >>>
  writeWindowProtect >>>
  writeProtect >>>
  writeObjProtect >>>
  writePassword >>>
  writeProt4Rev >>>
  writePasswordRev4 >>>
  writeBackup >>>
  writeHideObj >>>
  writeWindow1 >>>
  writeDateMode >>>
  writePrecision >>>
  writeRefreshAll >>>
  writeBookBool >>>
  times 7 writeDefaultFont >>>
  writeFormat >>>
  times 16 (writeXF true 6) >>>
  writeXF false 6 >>>
  writeXF false 7 >>>
  writeDefaultStyle >>>
  writeUseSelfs.

(** The worksheet substream, from its BOF to its EOF. *)
Definition writeWorksheet (w : Writer) (sst : sharedStringTable) : Wr :=
  writeBOF bofWorksheet >>>
  writeCalcMode >>>
  writeCalcCount >>>
  writeRefMode >>>
  writeIteration >>>
  writeDelta >>>
  writeSaveRecalc >>>
  writeGuts >>>
  writeDefaultRowHeight >>>
  writeWSBool >>>
  writeDimensions w >>>
  writePrintHeaders >>>
  writePrintGridlines >>>
  writeGridSet >>>
  writeHBreak >>>
  writeVBreak >>>
  writeHeader >>>
  writeFooter >>>
  writeHCenter >>>
  writeVCenter >>>
  writeLeftMargin >>>
  writeRightMargin >>>
  writeTopMargin >>>
  writeBottomMargin >>>
  writeSetup >>>
  writeProtect >>>
  writeScenProtect >>>
  writeWindowProtect >>>
  writeObjProtect >>>
  writePassword >>>
  writeRowsAndCells w sst >>>
  writeWindow2 >>>
  writeEOF.

(** The offset stored in BOUNDSHEET, from the length of the buffer at that
    point and the length of the scratch buffer holding the SST record. *)
Definition worksheetOffsetOf (w : Writer) (bufLen sstBufLen : Z) : Z :=
  let sheetNameBytes := stringToUTF16LE (sheetName w) in
  let boundsheetSize := 4 + 6 + 1 + len sheetNameBytes + 1 in
  bufLen + sstBufLen + boundsheetSize + 4.

(** [func (w *Writer) writeBIFF8(buf *bytes.Buffer) error].  The SST record
    goes to the scratch buffer [sstBuf] first; the offset is computed from
    [buf.Len()] and [sstBuf.Len()]; only then are the scratch bytes, the
    BOUNDSHEET record and the EOF record appended to [buf]. *)
Definition writeBIFF8 (w : Writer) : Wr :=
  let sst := buildSST (data w) in
  writeGlobalsHead >>>
  (fun buf =>
     match writeSST sst [] with
     | (sstBuf, Ok) =>
       let worksheetOffset := worksheetOffsetOf w (len buf) (len sstBuf) in
       (Write sstBuf >>>
        writeBoundSheet (uint32 worksheetOffset) (sheetName w) >>>
        writeEOF >>>
        writeWorksheet w sst) buf
     | (_, o) => (buf, o)
     end).

(** [SaveAs], without the file system: the BIFF8 stream is built in a fresh
    buffer and handed to [WriteCFB]. *)
Definition SaveAs (w : Writer) : Wr :=
  match writeBIFF8 w [] with
  | (buf, Ok) => WriteCFB buf
  | (_, o) => raise o
  end.

(** ** The rest of the writer's interface *)

(** [func (w *Writer) SetSheetName(name string)] *)
Definition SetSheetName (name : string) (w : Writer) : Writer :=
  {| data := data w; sheetName := name |}.

(** [func (w *Writer) Write(data [][]interface{}) error], under another name
    since [Write] is the sink's: the table is stored, the error is always
    [nil]. *)
Definition Writer_Write (d : list (list value)) (w : Writer) : Writer * outcome :=
  ({| data := d; sheetName := sheetName w |}, Ok).

(** [func (w *Writer) Close() error] *)
Definition Close (w : Writer) : Writer * outcome := (w, Ok).

(** [type Option]: a function on a pointer to a writer; an option changes
    the writer it is given. *)
Definition Option : Type := Writer -> Writer.

(** [func WithSheetName(name string) Option] *)
Definition WithSheetName (name : string) : Option :=
  fun w => {| data := data w; sheetName := name |}.

(** [func WriteToFile(filename string, data [][]interface{}, opts ...Option)
    error], without the file system, as [SaveAs]: a new writer, the options
    in order, [Write], [SaveAs]; the deferred [Close] has no effect. *)
Definition WriteToFile (d : list (list value)) (opts : list Option) : Wr :=
  let w := New in
  let w := foldl (fun w opt => opt w) w opts in
  match Writer_Write d w with
  | (w, Ok) => SaveAs w
  | (_, o) => raise o
  end.

(** ** Vocabulary of the statements *)

(** What a procedure writes into an empty sink. *)
Definition output (a : Wr) : list Z := (a []).1.

(** A procedure that returns [nil] after appending, whatever the sink held. *)
Definition appends (a : Wr) : Prop := forall w, a w = (w ++ output a, Ok).

(** A record as it lies in the stream: type, 16-bit length, payload. *)
Definition recordBytes (recType : Z) (data : list Z) : list Z :=
  [uint8 recType; uint8 (Z.shiftr recType 8);
   uint8 (uint16 (len data)); uint8 (Z.shiftr (uint16 (len data)) 8)] ++ data.

(** A run of [addString] calls, oldest first. *)
Definition addStrings (calls : list string) (sst : sharedStringTable) : sharedStringTable :=
  foldl (fun sst s => addString s sst) sst calls.

(** The distinct strings of a run of calls, in the order of their first
    occurrence. *)
Definition firstOccurrences (calls : list string) : list string :=
  foldl (fun acc s => if decide (s ∈ acc) then acc else acc ++ [s]) [] calls.

(** The strings of the cells whose dynamic type is [string], row by row. *)
Definition textCells (data : list (list value)) : list string :=
  row ← data; cell ← row;
  match cell with VString s => [s] | _ => [] end.

(** What holds of every table reached from [newSST] by [addString]. *)
Record sst_wf (sst : sharedStringTable) : Prop := mk_sst_wf {
  wf_size : Z.of_nat (size (stringMap sst)) = uniqueCount sst;
  wf_length : len (strings sst) = uniqueCount sst;
  wf_lookup : forall s i,
    stringMap sst !! s = Some i <->
    exists n : nat, i = Z.of_nat n /\ strings sst !! n = Some s;
  wf_nodup : NoDup (strings sst);
  wf_total : uniqueCount sst <= totalCount sst
}.

(** Where the BOUNDSHEET record lies in the stream of [writeBIFF8]: after the
    head of the globals and the SST record. *)
Definition boundSheetPosition (w : Writer) : Z :=
  len (output writeGlobalsHead) + len (output (writeSST (buildSST (data w)))).

(** Its offset field, read back from the stream: the four bytes after the
    record header. *)
Definition boundSheetOffsetField (w : Writer) : Z :=
  Uint32 (output (writeBIFF8 w)) (Z.to_nat (boundSheetPosition w) + 4).

(** Where the worksheet substream, hence its BOF record, begins in the
    stream of [writeBIFF8]. *)
Definition worksheetPosition (w : Writer) : Z :=
  len (output (writeBIFF8 w))
  - len (output (writeWorksheet w (buildSST (data w)))).

(** Walking a stream record by record: read the type and the 16-bit length,
    take the payload, skip to the next header.  [None] when a header or a
    payload runs past the end. *)
Fixpoint walkRecords (fuel : nat) (b : list Z) : option (list (Z * list Z)) :=
  match b with
  | [] => Some []
  | _ :: _ =>
    match fuel with
    | O => None
    | S fuel' =>
      let n := Z.to_nat (Uint16 b 2) in
      if decide (4 + n <= length b)%nat then
        rest ← walkRecords fuel' (drop (4 + n) b);
        Some ((Uint16 b 0, take n (drop 4 b)) :: rest)
      else None
    end
  end.

Definition records (b : list Z) : option (list (Z * list Z)) :=
  walkRecords (length b) b.

(** The record types that carry rows and cells. *)
Definition rowAndCellTypes : list Z :=
  [recTypeROW; recTypeLABELSST; recTypeNUMBER; recTypeBOOLERR; recTypeLABEL].

(** Where the records of one row lie in the output of [writeRowsAndCells]:
    after the records of the rows before it come the ROW record of row [i],
    with payload [rowPayload], then the records of its cells, then the
    records of the rows after it. *)
Definition rowRecordIn (w : Writer) (sst : sharedStringTable) (i : nat)
    (row : list value) (rowPayload : list Z) : Prop :=
  output (writeRowsAndCells w sst)
  = output (writeRows 0 (take i (data w)) sst)
    ++ recordBytes recTypeROW rowPayload
    ++ output (writeCells (Z.of_nat i) 0 row sst)
    ++ output (writeRows (Z.of_nat (S i)) (drop (S i) (data w)) sst).

(** Where the record of one cell lies among the cell records of row [i]:
    after the records of the cells before it comes the record of cell [j],
    of type [recType] and payload [payload], then those of the cells after
    it. *)
Definition cellRecordIn (sst : sharedStringTable) (i : nat) (row : list value)
    (j : nat) (recType : Z) (payload : list Z) : Prop :=
  output (writeCells (Z.of_nat i) 0 row sst)
  = output (writeCells (Z.of_nat i) 0 (take j row) sst)
    ++ recordBytes recType payload
    ++ output (writeCells (Z.of_nat i) (Z.of_nat (S j)) (drop (S j) row) sst).

(** A name of [n] letters "a". *)
Definition asciiName (n : Z) : string :=
  string_of_bytes (replicate (Z.to_nat n) 0x61).

(** ** Reading a compound file back *)

(** [binary.LittleEndian.Uint64] *)
Definition Uint64 (b : list Z) (off : nat) : Z :=
  Uint32 b off + 2 ^ 32 * Uint32 b (off + 4).

(** [n] consecutive little-endian 32-bit values, from offset [off] on. *)
Definition Uint32s (b : list Z) (off n : nat) : list Z :=
  (fun i => Uint32 b (off + 4 * i)) <$> seq 0 n.

(** A value that fits an unsigned type of [bits] bits. *)
Definition fits (bits : Z) (v : Z) : bool := (0 <=? v) && (v <? 2 ^ bits).

(** The header read field by field, at the offsets [CFBHeader.WriteTo]
    stores them. *)
Definition readCFBHeader (b : list Z) : CFBHeader.t :=
  {| CFBHeader.Signature := take 8 b;
     CFBHeader.CLSID := take 16 (drop 8 b);
     CFBHeader.MinorVersion := Uint16 b 24;
     CFBHeader.MajorVersion := Uint16 b 26;
     CFBHeader.ByteOrder := Uint16 b 28;
     CFBHeader.SectorShift := Uint16 b 30;
     CFBHeader.MiniSectorShift := Uint16 b 32;
     CFBHeader.Reserved := take 6 (drop 34 b);
     CFBHeader.TotalSectors := Uint32 b 40;
     CFBHeader.FATSectors := Uint32 b 44;
     CFBHeader.FirstDirSector := Uint32 b 48;
     CFBHeader.TransactionSig := Uint32 b 52;
     CFBHeader.MiniStreamCutoff := Uint32 b 56;
     CFBHeader.FirstMiniFATSector := Uint32 b 60;
     CFBHeader.MiniFATSectors := Uint32 b 64;
     CFBHeader.FirstDIFATSector := Uint32 b 68;
     CFBHeader.DIFATSectors := Uint32 b 72;
     CFBHeader.DIFAT := Uint32s b 76 109 |}.

(** What the Go types of the header's fields guarantee: the lengths of the
    arrays and the ranges of the integers. *)
Definition headerTyped (h : CFBHeader.t) : bool :=
  bool_decide (length (CFBHeader.Signature h) = 8%nat)
  && bool_decide (length (CFBHeader.CLSID h) = 16%nat)
  && fits 16 (CFBHeader.MinorVersion h)
  && fits 16 (CFBHeader.MajorVersion h)
  && fits 16 (CFBHeader.ByteOrder h)
  && fits 16 (CFBHeader.SectorShift h)
  && fits 16 (CFBHeader.MiniSectorShift h)
  && bool_decide (length (CFBHeader.Reserved h) = 6%nat)
  && fits 32 (CFBHeader.TotalSectors h)
  && fits 32 (CFBHeader.FATSectors h)
  && fits 32 (CFBHeader.FirstDirSector h)
  && fits 32 (CFBHeader.TransactionSig h)
  && fits 32 (CFBHeader.MiniStreamCutoff h)
  && fits 32 (CFBHeader.FirstMiniFATSector h)
  && fits 32 (CFBHeader.MiniFATSectors h)
  && fits 32 (CFBHeader.FirstDIFATSector h)
  && fits 32 (CFBHeader.DIFATSectors h)
  && bool_decide (length (CFBHeader.DIFAT h) = 109%nat)
  && forallb (fits 32) (CFBHeader.DIFAT h).

(** A directory entry read field by field, at the offsets
    [CFBDirectoryEntry.WriteTo] stores them. *)
Definition readCFBDirectoryEntry (b : list Z) : CFBDirectoryEntry.t :=
  {| CFBDirectoryEntry.Name := take 64 b;
     CFBDirectoryEntry.NameLength := Uint16 b 64;
     CFBDirectoryEntry.ObjectType := b !!! 66%nat;
     CFBDirectoryEntry.ColorFlag := b !!! 67%nat;
     CFBDirectoryEntry.LeftSiblingDID := Uint32 b 68;
     CFBDirectoryEntry.RightSiblingDID := Uint32 b 72;
     CFBDirectoryEntry.ChildDID := Uint32 b 76;
     CFBDirectoryEntry.CLSID := take 16 (drop 80 b);
     CFBDirectoryEntry.StateBits := Uint32 b 96;
     CFBDirectoryEntry.CreationTime := Uint64 b 100;
     CFBDirectoryEntry.ModifiedTime := Uint64 b 108;
     CFBDirectoryEntry.StartSector := Uint32 b 116;
     CFBDirectoryEntry.StreamSize := Uint64 b 120 |}.

Definition entryTyped (e : CFBDirectoryEntry.t) : bool :=
  bool_decide (length (CFBDirectoryEntry.Name e) = 64%nat)
  && fits 16 (CFBDirectoryEntry.NameLength e)
  && fits 32 (CFBDirectoryEntry.LeftSiblingDID e)
  && fits 32 (CFBDirectoryEntry.RightSiblingDID e)
  && fits 32 (CFBDirectoryEntry.ChildDID e)
  && bool_decide (length (CFBDirectoryEntry.CLSID e) = 16%nat)
  && fits 32 (CFBDirectoryEntry.StateBits e)
  && fits 64 (CFBDirectoryEntry.CreationTime e)
  && fits 64 (CFBDirectoryEntry.ModifiedTime e)
  && fits 32 (CFBDirectoryEntry.StartSector e)
  && fits 64 (CFBDirectoryEntry.StreamSize e).

(** The header [WriteCFB] sets up for a file of [dataSectors] data sectors:
    the constants of [NewCFBHeader], one FAT sector, the FAT in sector
    [dataSectors] and the directory in the sector after it. *)
Definition containerHeader (dataSectors : Z) : CFBHeader.t :=
  {| CFBHeader.Signature := [0xD0; 0xCF; 0x11; 0xE0; 0xA1; 0xB1; 0x1A; 0xE1];
     CFBHeader.CLSID := replicate 16 0;
     CFBHeader.MinorVersion := 0x003E;
     CFBHeader.MajorVersion := 0x0003;
     CFBHeader.ByteOrder := 0xFFFE;
     CFBHeader.SectorShift := 9;
     CFBHeader.MiniSectorShift := 6;
     CFBHeader.Reserved := replicate 6 0;
     CFBHeader.TotalSectors := 0;
     CFBHeader.FATSectors := 1;
     CFBHeader.FirstDirSector := (dataSectors + 1) mod 2 ^ 32;
     CFBHeader.TransactionSig := 0;
     CFBHeader.MiniStreamCutoff := 0x1000;
     CFBHeader.FirstMiniFATSector := 0xFFFFFFFE;
     CFBHeader.MiniFATSectors := 0;
     CFBHeader.FirstDIFATSector := 0xFFFFFFFE;
     CFBHeader.DIFATSectors := 0;
     CFBHeader.DIFAT := dataSectors mod 2 ^ 32 :: replicate 108 0xFFFFFFFF |}.

(** The entries of the directory sector: the root storage, the stream
    "Workbook" of [size] bytes that starts in sector 0, and an unused
    entry. *)
Definition rootEntry : CFBDirectoryEntry.t :=
  {| CFBDirectoryEntry.Name := stringToUTF16LE "Root Entry" ++ replicate 44 0;
     CFBDirectoryEntry.NameLength := 22;
     CFBDirectoryEntry.ObjectType := 5;
     CFBDirectoryEntry.ColorFlag := 1;
     CFBDirectoryEntry.LeftSiblingDID := 0xFFFFFFFF;
     CFBDirectoryEntry.RightSiblingDID := 0xFFFFFFFF;
     CFBDirectoryEntry.ChildDID := 1;
     CFBDirectoryEntry.CLSID := replicate 16 0;
     CFBDirectoryEntry.StateBits := 0;
     CFBDirectoryEntry.CreationTime := 0;
     CFBDirectoryEntry.ModifiedTime := 0;
     CFBDirectoryEntry.StartSector := 0xFFFFFFFE;
     CFBDirectoryEntry.StreamSize := 0 |}.

Definition workbookEntry (size : Z) : CFBDirectoryEntry.t :=
  {| CFBDirectoryEntry.Name := stringToUTF16LE "Workbook" ++ replicate 48 0;
     CFBDirectoryEntry.NameLength := 18;
     CFBDirectoryEntry.ObjectType := 2;
     CFBDirectoryEntry.ColorFlag := 1;
     CFBDirectoryEntry.LeftSiblingDID := 0xFFFFFFFF;
     CFBDirectoryEntry.RightSiblingDID := 0xFFFFFFFF;
     CFBDirectoryEntry.ChildDID := 0xFFFFFFFF;
     CFBDirectoryEntry.CLSID := replicate 16 0;
     CFBDirectoryEntry.StateBits := 0;
     CFBDirectoryEntry.CreationTime := 0;
     CFBDirectoryEntry.ModifiedTime := 0;
     CFBDirectoryEntry.StartSector := 0;
     CFBDirectoryEntry.StreamSize := size |}.

Definition unusedEntry : CFBDirectoryEntry.t :=
  {| CFBDirectoryEntry.Name := replicate 64 0;
     CFBDirectoryEntry.NameLength := 0;
     CFBDirectoryEntry.ObjectType := 0;
     CFBDirectoryEntry.ColorFlag := 0;
     CFBDirectoryEntry.LeftSiblingDID := 0xFFFFFFFF;
     CFBDirectoryEntry.RightSiblingDID := 0xFFFFFFFF;
     CFBDirectoryEntry.ChildDID := 0xFFFFFFFF;
     CFBDirectoryEntry.CLSID := replicate 16 0;
     CFBDirectoryEntry.StateBits := 0;
     CFBDirectoryEntry.CreationTime := 0;
     CFBDirectoryEntry.ModifiedTime := 0;
     CFBDirectoryEntry.StartSector := 0xFFFFFFFE;
     CFBDirectoryEntry.StreamSize := 0 |}.

(** Sector [id] of a file: 512 bytes, the header being 512 bytes long. *)
Definition sectorOf (file : list Z) (id : Z) : list Z :=
  take 512 (drop (Z.to_nat (cfbHeaderSize + id * cfbSectorSize)) file).

(** The chain of sectors that begins with sector [id]: the table gives the
    successor of each sector until the end-of-chain marker.  [None] when the
    chain leaves the table or does not end within [fuel] steps. *)
Fixpoint chainOf (fuel : nat) (fat : list Z) (id : Z) : option (list Z) :=
  match fuel with
  | O => None
  | S fuel' =>
    if decide (id = cfbEndOfChain) then Some []
    else
      next ← fat !! Z.to_nat id;
      rest ← chainOf fuel' fat next;
      Some (id :: rest)
  end.

(** Reading the stream [name] out of a compound file the way a reader of the
    format does: the header names the FAT sector and the directory sector,
    the root entry names its child, the child's entry gives the first sector
    and the size of the stream, and the FAT gives the sectors that follow.
    [None] when the child is not called [name] or its chain is broken. *)
Definition readStream (file : list Z) (name : string) : option (list Z) :=
  let header := readCFBHeader (take 512 file) in
  fatSector ← CFBHeader.DIFAT header !! 0%nat;
  let fat := Uint32s (sectorOf file fatSector) 0 128 in
  let dir := sectorOf file (CFBHeader.FirstDirSector header) in
  let root := readCFBDirectoryEntry (take 128 dir) in
  let child := Z.to_nat (CFBDirectoryEntry.ChildDID root) in
  let entry := readCFBDirectoryEntry (take 128 (drop (128 * child) dir)) in
  if decide (take (Z.to_nat (CFBDirectoryEntry.NameLength entry))
                  (CFBDirectoryEntry.Name entry)
             = stringToUTF16LE name ++ [0; 0])
  then
    ids ← chainOf 129 fat (CFBDirectoryEntry.StartSector entry);
    Some (take (Z.to_nat (CFBDirectoryEntry.StreamSize entry))
               (ids ≫= sectorOf file))
  else None.

(** ** Streams of records *)

(** The bytes of a list of records, one record after the other. *)
Definition recordsBytes (recs : list (Z * list Z)) : list Z :=
  r ← recs; recordBytes r.1 r.2.

(** One call of [writeRecord] per record, in order. *)
Definition writeRecords (recs : list (Z * list Z)) : Wr :=
  foldr (fun r rest => writeRecord r.1 r.2 >>> rest) skip recs.

(** A record whose type and whose payload length fit their 16-bit fields. *)
Definition framedRecord (r : Z * list Z) : bool :=
  fits 16 r.1 && (len r.2 <? 65536).

(** A byte string that is a sequence of such records, of the given types. *)
Definition holds (b : list Z) (types : list Z) : Prop :=
  exists recs,
    b = recordsBytes recs /\ recs.*1 = types /\ forallb framedRecord recs = true.

(** A procedure that returns [nil] after appending such a sequence. *)
Definition emits (a : Wr) (types : list Z) : Prop :=
  appends a /\ holds (output a) types.

(** The record type [writeCell] chooses for a value. *)
Definition cellType (v : value) : Z :=
  match v with
  | VString _ => recTypeLABELSST
  | VNumber _ => recTypeNUMBER
  | VBool _ => recTypeBOOLERR
  | VOther _ => recTypeLABELSST
  end.

(** The record types of the stream of [writeBIFF8], in the order of its
    calls: the workbook globals up to their EOF, *)
Definition globalsTypes : list Z :=
  [recTypeBOF; recTypeINTERFACEHDR; recTypeMMS; recTypeINTERFACEEND;
   recTypeWRITEACCESS; recTypeCODEPAGE; recTypeDSF; recTypeFNGROUPCOUNT;
   recTypeUNKNOWN9C; recTypeWINDOWPROTECT; recTypePROTECT; recTypeOBJPROTECT;
   recTypePASSWORD; recTypePROT4REV; recTypePASSWORDREV4; recTypeBACKUP;
   recTypeHIDEOBJ; recTypeWINDOW1; recTypeDATEMODE; recTypePRECISION;
   recTypeREFRESHALL; recTypeBOOKBOOL]
  ++ replicate 7 recTypeFONT
  ++ [recTypeFORMAT]
  ++ replicate 18 recTypeXF
  ++ [recTypeSTYLE; recTypeUSESELFS; recTypeSST; recTypeBOUNDSHEET; recTypeEOF].

(** and the worksheet: its settings, then for every row a ROW record
    followed by one record per cell, then WINDOW2 and EOF. *)
Definition worksheetTypes (rows : list (list value)) : list Z :=
  [recTypeBOF; recTypeCALCMODE; recTypeCALCCOUNT; recTypeREFMODE;
   recTypeITERATION; recTypeDELTA; recTypeSAVERECALC; recTypeGUTS;
   recTypeDEFAULTROWHEIGHT; recTypeWSBOOL; recTypeDIMENSIONS;
   recTypePRINTHEADERS; recTypePRINTGRIDLINES; recTypeGRIDSET; recTypeHBREAK;
   recTypeVBREAK; recTypeHEADER; recTypeFOOTER; recTypeHCENTER;
   recTypeVCENTER; recTypeLEFTMARGIN; recTypeRIGHTMARGIN; recTypeTOPMARGIN;
   recTypeBOTTOMMARGIN; recTypeSETUP; recTypePROTECT; recTypeSCENPROTECT;
   recTypeWINDOWPROTECT; recTypeOBJPROTECT; recTypePASSWORD]
  ++ (row ← rows; recTypeROW :: (cellType <$> row))
  ++ [recTypeWINDOW2; recTypeEOF].

(** ** Sizes *)

Definition sumZ (l : list Z) : Z := foldr Z.add 0 l.

(** The size of a string in the SST payload: a 16-bit count, a flag, two
    bytes per code point and two more for each one above U+FFFF. *)
Definition sstStringSize (s : string) : Z :=
  3 + 2 * len (runes s) + 2 * len (filter (fun r => 0xFFFF < r) (runes s)).

(** The size of the record of a cell, and of a row with its cells. *)
Definition cellSize (v : value) : Z :=
  match v with
  | VString _ => 14
  | VNumber _ => 18
  | VBool _ => 12
  | VOther _ => 14
  end.

Definition rowSize (row : list value) : Z := 20 + sumZ (cellSize <$> row).

(** The size of the stream of [writeBIFF8]: the fixed records, the sheet
    name, the distinct texts and the rows. *)
Definition streamSize (w : Writer) : Z :=
  1243
  + 2 * len (runes (sheetName w))
  + sumZ (sstStringSize <$> firstOccurrences (textCells (data w)))
  + sumZ (rowSize <$> data w).

(* ================================================================== *)
(** * Facts *)

#[local] Arguments uint8 : simpl never.
#[local] Arguments uint16 : simpl never.
#[local] Arguments uint32 : simpl never.
#[local] Arguments uint64 : simpl never.
#[local] Arguments len : simpl never.
#[local] Arguments Z.shiftr : simpl never.

(** ** UTF-8 decoding on samples *)

Example runes_ascii : runes "Hi" = [0x48; 0x69].
Proof. reflexivity. Qed.

Example runes_two_bytes : runes (string_of_bytes [0xC3; 0xA9]) = [0xE9].
Proof. reflexivity. Qed.

Example runes_three_bytes : runes (string_of_bytes [0xE3; 0x81; 0x82]) = [0x3042].
Proof. reflexivity. Qed.

Example runes_four_bytes :
  runes (string_of_bytes [0xF0; 0x9F; 0x98; 0x80]) = [0x1F600].
Proof. reflexivity. Qed.

Example runes_surrogate :
  runes (string_of_bytes [0xED; 0xA0; 0x80]) = [RuneError; RuneError; RuneError].
Proof. reflexivity. Qed.

Example runes_truncated :
  runes (string_of_bytes [0xE3; 0x81]) = [RuneError; RuneError].
Proof. reflexivity. Qed.

Example runes_overlong :
  runes (string_of_bytes [0xC0; 0x80]) = [RuneError; RuneError].
Proof. reflexivity. Qed.

(** ** Little-endian fields *)

Lemma uint8_range v : 0 <= uint8 v < 256.
Proof. unfold uint8. apply Z.mod_pos_bound. lia. Qed.

Lemma le16_value v : uint8 v + 2 ^ 8 * uint8 (Z.shiftr v 8) = v mod 2 ^ 16.
Proof.
  unfold uint8. rewrite Z.shiftr_div_pow2 by lia.
  change (2 ^ 8) with 256. change (2 ^ 16) with (256 * 256).
  rewrite Z.rem_mul_r by lia. lia.
Qed.

Lemma le32_value v :
  uint8 v + 2 ^ 8 * uint8 (Z.shiftr v 8) + 2 ^ 16 * uint8 (Z.shiftr v 16)
  + 2 ^ 24 * uint8 (Z.shiftr v 24) = v mod 2 ^ 32.
Proof.
  unfold uint8. rewrite !Z.shiftr_div_pow2 by lia.
  change (2 ^ 32) with (256 * (256 * (256 * 256))).
  rewrite !Z.rem_mul_r by lia.
  change (2 ^ 8) with 256. change (2 ^ 16) with (256 * 256).
  change (2 ^ 24) with (256 * (256 * 256)).
  rewrite <- !Z.div_div by lia. lia.
Qed.

Lemma len_app {A} (l k : list A) : len (l ++ k) = len l + len k.
Proof. unfold len. rewrite length_app. lia. Qed.

Lemma len_nonneg {A} (l : list A) : 0 <= len l.
Proof. unfold len. lia. Qed.

Lemma len_make n : 0 <= n -> len (make n) = n.
Proof. intros. unfold len, make. rewrite length_replicate. lia. Qed.

Lemma length_make n : length (make n) = Z.to_nat n.
Proof. apply length_replicate. Qed.

Lemma length_copy dst lo hi src :
  (lo <= hi <= length dst)%nat -> length (copy dst lo hi src) = length dst.
Proof.
  intros. unfold copy. rewrite !length_app, !length_take, length_drop. lia.
Qed.

Lemma length_PutUint16 b off v : length (PutUint16 b off v) = length b.
Proof. unfold PutUint16. by rewrite !length_insert. Qed.

Lemma length_PutUint32 b off v : length (PutUint32 b off v) = length b.
Proof. unfold PutUint32. by rewrite !length_insert. Qed.

Lemma length_PutUint64 b off v : length (PutUint64 b off v) = length b.
Proof. unfold PutUint64. by rewrite !length_PutUint32. Qed.

Lemma length_PutUint32s vs : forall b off, length (PutUint32s b off vs) = length b.
Proof.
  induction vs as [|v vs IH]; intros b off; simpl; [done|].
  by rewrite IH, length_PutUint32.
Qed.

(** ** Writers that append *)

Lemma appends_Write p : appends (Write p).
Proof. intros w. reflexivity. Qed.

Lemma appends_skip : appends skip.
Proof. intros w. unfold skip, output. simpl. by rewrite app_nil_r. Qed.

Lemma output_andThen a b :
  appends a -> appends b -> output (a >>> b) = output a ++ output b.
Proof.
  intros Ha Hb. unfold output at 1, andThen.
  rewrite (Ha []). simpl. by rewrite (Hb (output a)).
Qed.

Lemma appends_andThen a b : appends a -> appends b -> appends (a >>> b).
Proof.
  intros Ha Hb w. rewrite output_andThen by done.
  unfold andThen. rewrite (Ha w), (Hb (w ++ output a)). by rewrite app_assoc.
Qed.

Lemma appends_times n a : appends a -> appends (times n a).
Proof.
  intros Ha. induction n as [|n IH]; simpl.
  - apply appends_skip.
  - by apply appends_andThen.
Qed.

Lemma writeRecord_run recType data w :
  writeRecord recType data w = (w ++ recordBytes recType data, Ok).
Proof.
  unfold writeRecord, recordBytes, andThen, Write, skip. simpl.
  destruct (0 <? len data) eqn:E.
  - by rewrite <- app_assoc.
  - destruct data as [|x data]; [done|].
    apply Z.ltb_ge in E. unfold len in E. cbn [length] in E. lia.
Qed.

Lemma output_writeRecord recType data :
  output (writeRecord recType data) = recordBytes recType data.
Proof. unfold output. by rewrite writeRecord_run. Qed.

Lemma appends_writeRecord recType data : appends (writeRecord recType data).
Proof. intros w. by rewrite output_writeRecord, writeRecord_run. Qed.

(** ** The shared string table *)

Lemma sst_wf_new : sst_wf newSST.
Proof.
  split; simpl; try done.
  - intros s i. rewrite lookup_empty. split; [done|].
    intros (n & _ & Hn). by rewrite lookup_nil in Hn.
  - constructor.
Qed.

Lemma sst_absent sst s :
  sst_wf sst -> stringMap sst !! s = None <-> s ∉ strings sst.
Proof.
  intros Hwf. split.
  - intros Hnone Hin. apply list_elem_of_lookup in Hin as [n Hn].
    assert (stringMap sst !! s = Some (Z.of_nat n)) as Hs
      by (apply (wf_lookup _ Hwf); eauto).
    congruence.
  - intros Hnin. destruct (stringMap sst !! s) as [i|] eqn:E; [|done].
    apply (wf_lookup _ Hwf) in E as (n & _ & Hn).
    exfalso. apply Hnin. apply list_elem_of_lookup. eauto.
Qed.

Lemma sst_wf_add s sst : sst_wf sst -> sst_wf (addString s sst).
Proof.
  intros Hwf. unfold addString.
  destruct (stringMap sst !! s) as [i|] eqn:E.
  - destruct Hwf. split; simpl; try done. lia.
  - pose proof (proj1 (sst_absent sst s Hwf) E) as Hnin.
    destruct Hwf as [Hsize Hlen Hlook Hnd Htot]. split; simpl.
    + rewrite map_size_insert_None by done. lia.
    + rewrite len_app. unfold len at 2. simpl. lia.
    + intros t i. destruct (decide (s = t)) as [->|Hne].
      * rewrite lookup_insert_eq. split.
        -- intros [= <-]. exists (length (strings sst)). split.
           ++ unfold len in Hlen. lia.
           ++ by rewrite lookup_app_r, Nat.sub_diag by lia.
        -- intros (n & -> & Hn). f_equal.
           destruct (decide (n < length (strings sst))%nat) as [Hlt|Hge].
           ++ rewrite lookup_app_l in Hn by done.
              exfalso. apply Hnin. apply list_elem_of_lookup. eauto.
           ++ apply lookup_lt_Some in Hn. rewrite length_app in Hn.
              simpl in Hn. unfold len in Hlen. lia.
      * rewrite lookup_insert_ne by done. rewrite Hlook. split.
        -- intros (n & -> & Hn). exists n. split; [done|].
           apply lookup_app_l_Some. done.
        -- intros (n & -> & Hn). exists n. split; [done|].
           apply lookup_app_Some in Hn as [Hn|[Hge Hn]]; [done|].
           apply list_lookup_singleton_Some in Hn as [_ ?]. congruence.
    + apply NoDup_app. split; [done|]. split.
      * intros x Hx Hx'. apply list_elem_of_singleton in Hx'. by subst.
      * apply NoDup_singleton.
    + lia.
Qed.

Lemma sst_wf_adds calls : forall sst, sst_wf sst -> sst_wf (addStrings calls sst).
Proof.
  induction calls as [|s calls IH]; intros sst Hwf; simpl; [done|].
  apply IH. by apply sst_wf_add.
Qed.

Lemma addStrings_app l k sst :
  addStrings (l ++ k) sst = addStrings k (addStrings l sst).
Proof. unfold addStrings. apply foldl_app. Qed.

Lemma totalCount_adds calls :
  forall sst, totalCount (addStrings calls sst) = totalCount sst + len calls.
Proof.
  induction calls as [|s calls IH]; intros sst; simpl.
  - unfold len. simpl. lia.
  - rewrite IH. unfold len. simpl length.
    unfold addString. destruct (stringMap sst !! s); simpl; lia.
Qed.

(** An entry of the map survives every later call. *)
Lemma stringMap_add_stable s i t sst :
  stringMap sst !! s = Some i -> stringMap (addString t sst) !! s = Some i.
Proof.
  intros Hs. unfold addString.
  destruct (stringMap sst !! t) as [j|] eqn:E; simpl; [done|].
  rewrite lookup_insert_ne; [done|]. intros ->. congruence.
Qed.

Lemma stringMap_adds_stable s i later :
  forall sst, stringMap sst !! s = Some i ->
              stringMap (addStrings later sst) !! s = Some i.
Proof.
  induction later as [|t later IH]; intros sst Hs; simpl; [done|].
  apply IH. by apply stringMap_add_stable.
Qed.

Lemma stringMap_add_self s sst : is_Some (stringMap (addString s sst) !! s).
Proof.
  unfold addString. destruct (stringMap sst !! s) as [j|] eqn:E; simpl.
  - by rewrite E.
  - by rewrite lookup_insert_eq.
Qed.

Lemma strings_adds calls :
  forall sst, sst_wf sst ->
    strings (addStrings calls sst)
    = foldl (fun acc s => if decide (s ∈ acc) then acc else acc ++ [s])
            (strings sst) calls.
Proof.
  induction calls as [|s calls IH]; intros sst Hwf; simpl; [done|].
  rewrite IH by by apply sst_wf_add. f_equal.
  unfold addString. destruct (stringMap sst !! s) as [j|] eqn:E; simpl.
  - destruct (decide (s ∈ strings sst)) as [|Hnin]; [done|].
    apply (sst_absent _ _ Hwf) in Hnin. congruence.
  - destruct (decide (s ∈ strings sst)) as [Hin|]; [|done].
    apply (sst_absent _ _ Hwf) in E. done.
Qed.

Lemma adds_contains calls s :
  forall sst, In s calls -> is_Some (stringMap (addStrings calls sst) !! s).
Proof.
  induction calls as [|t calls IH]; intros sst Hin; simpl in *; [done|].
  destruct Hin as [->|Hin]; [|by apply IH].
  destruct (stringMap_add_self s sst) as [i Hi].
  exists i. by apply stringMap_adds_stable.
Qed.

Lemma fold_first_notin (calls : list string) (s : string) :
  forall acc : list string, s ∉ acc -> ~ In s calls ->
    s ∉ foldl (fun acc s => if decide (s ∈ acc) then acc else acc ++ [s])
              acc calls.
Proof.
  induction calls as [|t calls IH]; intros acc Hacc Hnin; simpl in *; [done|].
  apply IH; [|tauto].
  destruct (decide (t ∈ acc)); [done|].
  intros Hin. apply elem_of_app in Hin as [Hin|Hin]; [done|].
  apply list_elem_of_singleton in Hin. subst. tauto.
Qed.

Lemma adds_lookup_None calls s :
  ~ In s calls -> stringMap (addStrings calls newSST) !! s = None.
Proof.
  intros Hnin.
  pose proof (sst_wf_adds calls newSST sst_wf_new) as Hwf.
  apply (sst_absent _ _ Hwf). rewrite strings_adds by apply sst_wf_new.
  apply fold_first_notin; [|done]. simpl. apply not_elem_of_nil.
Qed.


Lemma totalCount_add s sst : totalCount (addString s sst) = totalCount sst + 1.
Proof. unfold addString. by destruct (stringMap sst !! s). Qed.

Lemma strings_add_again s sst :
  is_Some (stringMap sst !! s) -> strings (addString s sst) = strings sst.
Proof. intros [i Hi]. unfold addString. by rewrite Hi. Qed.

Lemma strings_first_occurrences calls :
  strings (addStrings calls newSST) = firstOccurrences calls.
Proof. by rewrite strings_adds by apply sst_wf_new. Qed.

Lemma getIndex_first_occurrence calls s :
  In s calls ->
  exists n : nat,
    getIndex (addStrings calls newSST) s = Z.of_nat n /\
    firstOccurrences calls !! n = Some s.
Proof.
  intros Hadded.
  pose proof (sst_wf_adds calls newSST sst_wf_new) as Hwf.
  destruct (adds_contains calls s newSST Hadded) as [i Hi].
  pose proof (proj1 (wf_lookup _ Hwf s i) Hi) as (n & -> & Hn).
  exists n. unfold getIndex. rewrite Hi. simpl.
  by rewrite <- strings_first_occurrences.
Qed.

Lemma getIndex_absent calls s :
  ~ In s calls -> getIndex (addStrings calls newSST) s = 0.
Proof.
  intros Hnin. unfold getIndex. by rewrite adds_lookup_None.
Qed.

(** C3. Calling [addString s] twice in a row appends nothing at the second
    call (the ordered list is the one after a single call) and raises
    [totalCount] by 2; and once [s] has been added, [getIndex s] is the
    0-based position of [s] in the list of first occurrences of the calls,
    which is the ordered string list of the table. *)
Theorem sst_add_twice_and_index (sst0 : sharedStringTable)
    (calls : list string) (s : string) (Hadded : In s calls) :
  let sst := addStrings calls newSST in
  strings (addString s (addString s sst0)) = strings (addString s sst0) /\
  len (strings (addString s (addString s sst0))) = len (strings (addString s sst0)) /\
  totalCount (addString s (addString s sst0)) = totalCount sst0 + 2 /\
  strings sst = firstOccurrences calls /\
  NoDup (firstOccurrences calls) /\
  exists n : nat,
    getIndex sst s = Z.of_nat n /\ firstOccurrences calls !! n = Some s.
Proof.
  intros sst.
  assert (strings (addString s (addString s sst0)) = strings (addString s sst0)
          /\ totalCount (addString s (addString s sst0)) = totalCount sst0 + 2)
    as [Hstr Htot].
  { split.
    - apply strings_add_again, stringMap_add_self.
    - rewrite !totalCount_add. lia. }
  pose proof (sst_wf_adds calls newSST sst_wf_new) as Hwf. fold sst in Hwf.
  assert (strings sst = firstOccurrences calls) as Hfirst
    by apply strings_first_occurrences.
  split; [exact Hstr|]. split; [by rewrite Hstr|]. split; [exact Htot|].
  split; [exact Hfirst|]. split.
  - rewrite <- Hfirst. apply Hwf.
  - by apply getIndex_first_occurrence.
Qed.

Lemma sst_add_twice_and_index_witness :
  In "World" ["Hello"; "World"; "Hello"] /\
  exists n : nat,
    getIndex (addStrings ["Hello"; "World"; "Hello"] newSST) "World" = Z.of_nat n /\
    firstOccurrences ["Hello"; "World"; "Hello"] !! n = Some "World".
Proof.
  assert (In "World" ["Hello"; "World"; "Hello"]) as H by (simpl; auto).
  split; [exact H|].
  apply (sst_add_twice_and_index newSST ["Hello"; "World"; "Hello"] "World" H).
Defined.

(** The table of the repository's own test: "Hello", "World", "Hello". *)
Example sst_of_test :
  let sst := addStrings ["Hello"; "World"; "Hello"] newSST in
  uniqueCount sst = 2 /\ totalCount sst = 3 /\
  getIndex sst "Hello" = 0 /\ getIndex sst "World" = 1.
Proof. vm_compute. done. Qed.

(** ** The record emitter *)

Lemma recordBytes_type recType data :
  Uint16 (recordBytes recType data) 0 = recType mod 2 ^ 16.
Proof. unfold Uint16, recordBytes. simpl. apply le16_value. Qed.

Lemma recordBytes_length recType data :
  Uint16 (recordBytes recType data) 2 = len data mod 2 ^ 16.
Proof.
  unfold Uint16, recordBytes. simpl. rewrite le16_value. unfold uint16.
  apply Z.mod_mod. lia.
Qed.

Lemma len_recordBytes recType data : len (recordBytes recType data) = 4 + len data.
Proof. unfold recordBytes. rewrite len_app. unfold len. simpl. lia. Qed.

(** C6, amended. [writeRecord] appends exactly the type as a little-endian
    u16, then the payload length reduced modulo 2^16 as a little-endian u16
    (the source stores [uint16(len(data))]), then the payload, and nothing
    else. *)
Theorem writeRecord_emits (recType : Z) (data w : list Z) :
  let rec := output (writeRecord recType data) in
  writeRecord recType data w = (w ++ rec, Ok) /\
  take 4 rec = [uint8 recType; uint8 (Z.shiftr recType 8);
                uint8 (uint16 (len data));
                uint8 (Z.shiftr (uint16 (len data)) 8)] /\
  drop 4 rec = data /\
  len rec = 4 + len data /\
  Uint16 rec 0 = recType mod 2 ^ 16 /\
  Uint16 rec 2 = len data mod 2 ^ 16.
Proof.
  intros rec. unfold rec. rewrite output_writeRecord.
  repeat split.
  - apply writeRecord_run.
  - apply len_recordBytes.
  - apply recordBytes_type.
  - apply recordBytes_length.
Qed.

(** A payload of 65536 bytes: the length field of the emitted record is 0. *)
Example writeRecord_65536_bytes :
  Uint16 (output (writeRecord recTypeSST (make 65536))) 2 = 0 /\
  len (make 65536) = 65536.
Proof.
  rewrite output_writeRecord, recordBytes_length, len_make by lia.
  split; reflexivity.
Qed.

(** ** Buffers filled field by field *)

Lemma PutUint16_app done x y rest v :
  PutUint16 (done ++ x :: y :: rest) (length done) v
  = done ++ uint8 v :: uint8 (Z.shiftr v 8) :: rest.
Proof.
  unfold PutUint16.
  rewrite !insert_app_r_alt by (rewrite ?length_insert; lia).
  rewrite Nat.sub_diag.
  by replace (length done + 1 - length done)%nat with 1%nat by lia.
Qed.

Lemma PutUint32_app done x0 x1 x2 x3 rest v :
  PutUint32 (done ++ x0 :: x1 :: x2 :: x3 :: rest) (length done) v
  = done ++ uint8 v :: uint8 (Z.shiftr v 8) :: uint8 (Z.shiftr v 16)
         :: uint8 (Z.shiftr v 24) :: rest.
Proof.
  unfold PutUint32.
  rewrite !insert_app_r_alt by (rewrite ?length_insert; lia).
  rewrite Nat.sub_diag.
  replace (length done + 1 - length done)%nat with 1%nat by lia.
  replace (length done + 2 - length done)%nat with 2%nat by lia.
  by replace (length done + 3 - length done)%nat with 3%nat by lia.
Qed.

(** A table of 32-bit values stored into a zeroed buffer of the right size
    is the concatenation of their little-endian forms. *)
Lemma PutUint32s_zeroes vs :
  forall done,
    PutUint32s (done ++ replicate (4 * length vs) 0) (length done) vs
    = done ++ (v ← vs; [uint8 v; uint8 (Z.shiftr v 8); uint8 (Z.shiftr v 16);
                        uint8 (Z.shiftr v 24)]).
Proof.
  induction vs as [|v vs IH]; intros done.
  - simpl. by rewrite app_nil_r.
  - cbn [PutUint32s length].
    replace (4 * S (length vs))%nat with (4 + 4 * length vs)%nat by lia.
    cbn [replicate Nat.add]. rewrite PutUint32_app.
    set (le := [uint8 v; uint8 (Z.shiftr v 8); uint8 (Z.shiftr v 16);
                uint8 (Z.shiftr v 24)]).
    change (done ++ uint8 v :: uint8 (Z.shiftr v 8) :: uint8 (Z.shiftr v 16)
              :: uint8 (Z.shiftr v 24) :: replicate (4 * length vs) 0)
      with (done ++ le ++ replicate (4 * length vs) 0).
    rewrite app_assoc.
    replace (length done + 4)%nat with (length (done ++ le))
      by (rewrite length_app; reflexivity).
    rewrite IH. by rewrite <- app_assoc.
Qed.

(** [stringToUTF16LE] in closed form: per rune, the two bytes of its low
    sixteen bits. *)
Lemma putRunes_zeroes rs :
  forall i done,
    length done = (i * 2)%nat ->
    putRunes (done ++ replicate (2 * length rs) 0) i rs
    = done ++ (r ← rs; [uint8 (uint16 r); uint8 (Z.shiftr (uint16 r) 8)]).
Proof.
  induction rs as [|r rs IH]; intros i done Hdone.
  - simpl. by rewrite app_nil_r.
  - cbn [putRunes length].
    replace (2 * S (length rs))%nat with (2 + 2 * length rs)%nat by lia.
    cbn [replicate Nat.add]. rewrite <- Hdone, PutUint16_app.
    set (le := [uint8 (uint16 r); uint8 (Z.shiftr (uint16 r) 8)]).
    change (done ++ uint8 (uint16 r) :: uint8 (Z.shiftr (uint16 r) 8)
              :: replicate (2 * length rs) 0)
      with (done ++ le ++ replicate (2 * length rs) 0).
    rewrite app_assoc, IH.
    + by rewrite <- app_assoc.
    + rewrite length_app. simpl. lia.
Qed.

Lemma stringToUTF16LE_runes s :
  stringToUTF16LE s
  = (r ← runes s; [uint8 (uint16 r); uint8 (Z.shiftr (uint16 r) 8)]).
Proof.
  unfold stringToUTF16LE.
  assert (make (len (runes s) * 2) = [] ++ replicate (2 * length (runes s)) 0) as ->.
  { unfold make, len. simpl. f_equal. lia. }
  by rewrite putRunes_zeroes.
Qed.

Lemma len_stringToUTF16LE s : len (stringToUTF16LE s) = 2 * len (runes s).
Proof.
  rewrite stringToUTF16LE_runes. unfold len.
  induction (runes s) as [|r rs IH]; [done|].
  rewrite bind_cons, length_app. cbn [length]. lia.
Qed.

(** ** The CFB container *)

Lemma set_index_Some s i v :
  0 <= i < len s -> set_index s i v = Some (<[Z.to_nat i := v]> s).
Proof.
  intros [H0 H1]. unfold set_index.
  apply Z.leb_le in H0. apply Z.ltb_lt in H1. by rewrite H0, H1.
Qed.

Lemma set_index_None s i v : len s <= i -> set_index s i v = None.
Proof.
  intros H. unfold set_index. apply Z.ltb_ge in H. rewrite H.
  by rewrite andb_false_r.
Qed.

(** The chain loop, when the table is large enough for it. *)
Lemma chainFAT_spec dataSectors n :
  forall i fat,
    0 <= i -> i + Z.of_nat n <= len fat ->
    exists fat',
      chainFAT n i dataSectors fat = Some fat' /\
      length fat' = length fat /\
      forall k : nat,
        fat' !! k
        = if decide (i <= Z.of_nat k < i + Z.of_nat n)
          then Some (if Z.of_nat k =? dataSectors - 1 then cfbEndOfChain
                     else uint32 (Z.of_nat k + 1))
          else fat !! k.
Proof.
  induction n as [|n IH]; intros i fat Hi Hlen.
  - exists fat. split; [done|]. split; [done|]. intros k.
    destruct (decide _); [lia|done].
  - cbn [chainFAT]. rewrite set_index_Some by lia. simpl.
    set (v := if i =? dataSectors - 1 then cfbEndOfChain else uint32 (i + 1)).
    destruct (IH (i + 1) (<[Z.to_nat i := v]> fat)) as (fat' & Hrun & Hl & Hk).
    { lia. }
    { unfold len in *. rewrite length_insert. lia. }
    exists fat'. split; [done|]. split.
    { by rewrite Hl, length_insert. }
    intros k. rewrite Hk.
    destruct (decide (i + 1 <= Z.of_nat k < i + 1 + Z.of_nat n)) as [Hin|Hout].
    + destruct (decide _); [done|lia].
    + destruct (decide (k = Z.to_nat i)) as [->|Hne].
      * rewrite list_lookup_insert_eq by (unfold len in Hlen; lia).
        destruct (decide _) as [_|Hno]; [|lia].
        rewrite Z2Nat.id by lia. done.
      * rewrite list_lookup_insert_ne by done.
        destruct (decide _); [lia|done].
Qed.

Lemma dataSectorsOf_max workbookData :
  dataSectorsOf workbookData = (Z.max (len workbookData) 4096 + 511) / 512.
Proof.
  unfold dataSectorsOf, dataSizeOf, cfbSectorSize.
  destruct (Z.ltb_spec (len workbookData) 4096); f_equal; lia.
Qed.

Lemma dataSectorsOf_ge workbookData : 8 <= dataSectorsOf workbookData.
Proof.
  rewrite dataSectorsOf_max. pose proof (len_nonneg workbookData).
  apply Z.div_le_lower_bound; lia.
Qed.

Lemma dataSectorsOf_fits workbookData :
  len workbookData <= 64512 -> dataSectorsOf workbookData <= 126.
Proof.
  intros H. rewrite dataSectorsOf_max.
  apply Z.lt_succ_r. apply Z.div_lt_upper_bound; lia.
Qed.

Lemma dataSectorsOf_large workbookData :
  64512 < len workbookData -> 127 <= dataSectorsOf workbookData.
Proof.
  intros H. rewrite dataSectorsOf_max. apply Z.div_le_lower_bound; lia.
Qed.

Lemma freeFAT_length :
  length ((fun _ => cfbFreeSector) <$> make (cfbSectorSize / 4)) = 128%nat.
Proof. reflexivity. Qed.

Lemma freeFAT_lookup (k : nat) :
  (k < 128)%nat ->
  ((fun _ => cfbFreeSector) <$> make (cfbSectorSize / 4)) !! k = Some cfbFreeSector.
Proof.
  intros Hk. change (make (cfbSectorSize / 4)) with (replicate 128 0).
  rewrite list_lookup_fmap, lookup_replicate_2 by done. done.
Qed.

(** The table [WriteCFB] builds when the three kinds of sector fit in it. *)
Lemma buildFAT_spec dataSectors :
  1 <= dataSectors <= 126 ->
  exists fat,
    buildFAT dataSectors = Some fat /\
    length fat = 128%nat /\
    (forall i, 0 <= i < dataSectors - 1 -> fat !! Z.to_nat i = Some (i + 1)) /\
    fat !! Z.to_nat (dataSectors - 1) = Some cfbEndOfChain /\
    fat !! Z.to_nat dataSectors = Some cfbFATSector /\
    fat !! Z.to_nat (dataSectors + 1) = Some cfbEndOfChain /\
    (forall i, dataSectors + 2 <= i < 128 -> fat !! Z.to_nat i = Some cfbFreeSector).
Proof.
  intros Hds. unfold buildFAT.
  set (fat0 := (fun _ => cfbFreeSector) <$> make (cfbSectorSize / 4)).
  assert (length fat0 = 128%nat) as Hl0 by apply freeFAT_length.
  destruct (chainFAT_spec dataSectors (Z.to_nat dataSectors) 0 fat0)
    as (fat1 & Hrun & Hl1 & Hk1).
  { lia. }
  { unfold len. lia. }
  rewrite Hrun. simpl.
  rewrite set_index_Some by (unfold len; lia). simpl.
  rewrite set_index_Some by (unfold len; rewrite length_insert; lia).
  eexists. split; [reflexivity|].
  assert (forall k : nat, (k < 128)%nat ->
            (<[Z.to_nat (dataSectors + 1) := cfbEndOfChain]>
               (<[Z.to_nat dataSectors := cfbFATSector]> fat1)) !! k
            = if decide (Z.of_nat k = dataSectors + 1) then Some cfbEndOfChain
              else if decide (Z.of_nat k = dataSectors) then Some cfbFATSector
              else if decide (Z.of_nat k = dataSectors - 1) then Some cfbEndOfChain
              else if decide (Z.of_nat k < dataSectors - 1)
                   then Some (Z.of_nat k + 1)
                   else Some cfbFreeSector) as Hall.
  { intros k Hk.
    destruct (decide (Z.of_nat k = dataSectors + 1)) as [E1|N1].
    { replace (Z.to_nat (dataSectors + 1)) with k by lia.
      apply list_lookup_insert_eq. rewrite length_insert. lia. }
    rewrite list_lookup_insert_ne by lia.
    destruct (decide (Z.of_nat k = dataSectors)) as [E2|N2].
    { replace (Z.to_nat dataSectors) with k by lia.
      apply list_lookup_insert_eq. lia. }
    rewrite list_lookup_insert_ne by lia.
    rewrite Hk1.
    destruct (decide (0 <= Z.of_nat k < 0 + Z.of_nat (Z.to_nat dataSectors)))
      as [Hin|Hout].
    - destruct (Z.eqb_spec (Z.of_nat k) (dataSectors - 1)) as [E3|N3].
      + destruct (decide _); [done|lia].
      + destruct (decide (Z.of_nat k = dataSectors - 1)); [lia|].
        destruct (decide _); [|lia].
        unfold uint32. rewrite Z.mod_small by lia. done.
    - destruct (decide (Z.of_nat k = dataSectors - 1)); [lia|].
      destruct (decide _); [lia|].
      by apply freeFAT_lookup. }
  split; [by rewrite !length_insert|].
  repeat split.
  - intros i Hi. rewrite Hall by lia. rewrite Z2Nat.id by lia.
    repeat (destruct (decide _); try lia). done.
  - rewrite Hall by lia. rewrite Z2Nat.id by lia.
    repeat (destruct (decide _); try lia). done.
  - rewrite Hall by lia. rewrite Z2Nat.id by lia.
    repeat (destruct (decide _); try lia). done.
  - rewrite Hall by lia. rewrite Z2Nat.id by lia.
    repeat (destruct (decide _); try lia). done.
  - intros i Hi. rewrite Hall by lia. rewrite Z2Nat.id by lia.
    repeat (destruct (decide _); try lia). done.
Qed.

(** Beyond 126 data sectors the table is too small: one of the three index
    expressions leaves it. *)
Lemma buildFAT_panics dataSectors : 127 <= dataSectors -> buildFAT dataSectors = None.
Proof.
  intros Hds. unfold buildFAT.
  set (fat0 := (fun _ => cfbFreeSector) <$> make (cfbSectorSize / 4)).
  assert (length fat0 = 128%nat) as Hl0 by apply freeFAT_length.
  destruct (chainFAT (Z.to_nat dataSectors) 0 dataSectors fat0) as [fat1|] eqn:E;
    [|done].
  simpl.
  assert (length fat1 = 128%nat) as Hl1.
  { clear Hds. revert E. generalize 0 at 1. generalize dataSectors at 2.
    revert Hl0. generalize fat0.
    induction (Z.to_nat dataSectors) as [|n IH]; intros f Hf d i E; simpl in E.
    - congruence.
    - unfold set_index in E at 1.
      destruct ((0 <=? i) && (i <? len f)); simpl in E; [|done].
      eapply IH; [|exact E]. by rewrite length_insert. }
  destruct (decide (dataSectors = 127)) as [->|Hne].
  - rewrite set_index_Some by (unfold len; lia). simpl.
    apply set_index_None. unfold len. rewrite length_insert. lia.
  - rewrite set_index_None by (unfold len; lia). done.
Qed.

Ltac buf_length :=
  repeat first
    [ rewrite length_PutUint32s
    | rewrite length_PutUint64
    | rewrite length_PutUint32
    | rewrite length_PutUint16
    | rewrite length_insert
    | rewrite length_copy by (buf_length; unfold cfbHeaderSize, cfbSectorSize; lia)
    | rewrite length_make ].

Lemma length_header_buffer h : length (CFBHeader.buffer h) = 512%nat.
Proof. unfold CFBHeader.buffer. buf_length. reflexivity. Qed.

Lemma length_entry_buffer e : length (CFBDirectoryEntry.buffer e) = 128%nat.
Proof. unfold CFBDirectoryEntry.buffer. buf_length. reflexivity. Qed.

Lemma length_directorySector dataSize : length (directorySector dataSize) = 512%nat.
Proof.
  unfold directorySector, bufferWriter_Write. cbv zeta. buf_length. reflexivity.
Qed.

Lemma length_fatBuf fat : length (PutUint32s (make cfbSectorSize) 0 fat) = 512%nat.
Proof. buf_length. reflexivity. Qed.

(** The FAT sector is the little-endian image of the table. *)
Lemma fatBuf_image fat :
  length fat = 128%nat ->
  PutUint32s (make cfbSectorSize) 0 fat
  = (v ← fat; [uint8 v; uint8 (Z.shiftr v 8); uint8 (Z.shiftr v 16);
               uint8 (Z.shiftr v 24)]).
Proof.
  intros Hl.
  change (make cfbSectorSize) with ([] ++ replicate (4 * 128) 0).
  rewrite <- Hl. change 0%nat with (length (@nil Z)) at 1.
  by rewrite PutUint32s_zeroes.
Qed.

(** The two ways [WriteCFB] ends on a sink that takes every write. *)
Lemma WriteCFB_run workbookData :
  exists hdr padded,
    len hdr = 512 /\
    take 8 hdr = [0xD0; 0xCF; 0x11; 0xE0; 0xA1; 0xB1; 0x1A; 0xE1] /\
    len padded = dataSectorsOf workbookData * 512 /\
    forall w,
      WriteCFB workbookData w
      = match buildFAT (dataSectorsOf workbookData) with
        | Some fat =>
          (w ++ hdr ++ padded ++ PutUint32s (make cfbSectorSize) 0 fat
             ++ directorySector (dataSizeOf workbookData), Ok)
        | None => (w ++ hdr ++ padded, Panic)
        end.
Proof.
  unfold WriteCFB. cbv zeta.
  match goal with |- context [CFBHeader.WriteTo ?h] => set (header := h) end.
  match goal with |- context [Write (copy ?d ?lo ?hi ?s)] =>
    set (paddedData := copy d lo hi s) end.
  exists (CFBHeader.buffer header), paddedData.
  split; [unfold len; by rewrite length_header_buffer|].
  split; [reflexivity|].
  split.
  { unfold paddedData, len. rewrite length_copy by lia. rewrite length_make.
    pose proof (dataSectorsOf_ge workbookData). unfold cfbSectorSize. lia. }
  intros w. unfold andThen, CFBHeader.WriteTo, Write, raise.
  destruct (buildFAT (dataSectorsOf workbookData)) as [fat|].
  - by rewrite <- !app_assoc.
  - by rewrite <- !app_assoc.
Qed.

Lemma WriteCFB_returns workbookData fat :
  buildFAT (dataSectorsOf workbookData) = Some fat ->
  exists hdr padded,
    len hdr = 512 /\
    take 8 hdr = [0xD0; 0xCF; 0x11; 0xE0; 0xA1; 0xB1; 0x1A; 0xE1] /\
    len padded = dataSectorsOf workbookData * 512 /\
    cfbOutcome workbookData = Ok /\
    cfbOutput workbookData
    = hdr ++ padded ++ PutUint32s (make cfbSectorSize) 0 fat
        ++ directorySector (dataSizeOf workbookData).
Proof.
  intros Hfat.
  destruct (WriteCFB_run workbookData) as (hdr & padded & Hh & Hsig & Hp & Hrun).
  exists hdr, padded. split; [done|]. split; [done|]. split; [done|].
  unfold cfbOutcome, cfbOutput. rewrite (Hrun []), Hfat.
  split; [reflexivity | apply app_nil_l].
Qed.

Lemma WriteCFB_panics workbookData :
  buildFAT (dataSectorsOf workbookData) = None ->
  exists hdr padded,
    len hdr = 512 /\
    len padded = dataSectorsOf workbookData * 512 /\
    cfbOutcome workbookData = Panic /\
    cfbOutput workbookData = hdr ++ padded.
Proof.
  intros Hfat.
  destruct (WriteCFB_run workbookData) as (hdr & padded & Hh & Hsig & Hp & Hrun).
  exists hdr, padded. split; [done|]. split; [done|].
  unfold cfbOutcome, cfbOutput. rewrite (Hrun []), Hfat.
  split; [reflexivity | apply app_nil_l].
Qed.

Lemma len_fatBuf fat : len (PutUint32s (make cfbSectorSize) 0 fat) = 512.
Proof. unfold len. by rewrite length_fatBuf. Qed.

Lemma len_directorySector dataSize : len (directorySector dataSize) = 512.
Proof. unfold len. by rewrite length_directorySector. Qed.

(** C5, amended. For every workbook of at most 64512 bytes (at most 126 data
    sectors, what the single 128-entry FAT sector can describe together with
    itself and the directory), [WriteCFB] returns [nil], its output begins
    with the eight signature bytes and is exactly [512 * (data_sectors + 3)]
    bytes long, where [data_sectors = ceil(max(len, 4096) / 512)]; hence the
    length is at least 5632 and a multiple of 512. *)
Theorem WriteCFB_length (workbookData : list Z)
    (Hfits : len workbookData <= 64512) :
  let dataSectors := (Z.max (len workbookData) 4096 + 511) / 512 in
  cfbOutcome workbookData = Ok /\
  take 8 (cfbOutput workbookData) = [0xD0; 0xCF; 0x11; 0xE0; 0xA1; 0xB1; 0x1A; 0xE1] /\
  len (cfbOutput workbookData) = 512 * (dataSectors + 3) /\
  5632 <= len (cfbOutput workbookData) /\
  len (cfbOutput workbookData) mod 512 = 0.
Proof.
  intros dataSectors. unfold dataSectors. rewrite <- dataSectorsOf_max.
  pose proof (dataSectorsOf_ge workbookData) as Hge.
  pose proof (dataSectorsOf_fits workbookData Hfits) as Hle.
  destruct (buildFAT_spec (dataSectorsOf workbookData)) as (fat & Hfat & _);
    [lia|].
  destruct (WriteCFB_returns workbookData fat Hfat)
    as (hdr & padded & Hh & Hsig & Hp & Hok & Hout).
  rewrite Hout.
  assert (len (hdr ++ padded ++ PutUint32s (make cfbSectorSize) 0 fat
                 ++ directorySector (dataSizeOf workbookData))
          = 512 * (dataSectorsOf workbookData + 3)) as Hlen.
  { rewrite !len_app, Hh, Hp, len_fatBuf, len_directorySector. lia. }
  split; [exact Hok|]. split.
  { rewrite take_app_le by (unfold len in Hh; lia). exact Hsig. }
  split; [exact Hlen|]. rewrite Hlen. split; [lia|].
  rewrite Z.mul_comm. apply Z.mod_mul. lia.
Qed.

Lemma WriteCFB_length_witness :
  len [1; 2; 3] <= 64512 /\ len (cfbOutput [1; 2; 3]) = 5632.
Proof.
  assert (len [1; 2; 3] <= 64512) as H by (vm_compute; discriminate).
  split; [exact H|].
  apply (WriteCFB_length [1; 2; 3] H).
Defined.

(** C5 as stated fails: a workbook of 64513 bytes needs 127 data sectors, the
    store [fat[dirSector]] then leaves the 128-entry table, and [WriteCFB]
    panics after the header and the data: 512 * (127 + 1) bytes, not
    512 * (127 + 3). *)
Lemma WriteCFB_length_large :
  dataSectorsOf (make 64513) = 127 /\
  cfbOutcome (make 64513) = Panic /\
  len (cfbOutput (make 64513)) = 512 * (127 + 1) /\
  len (cfbOutput (make 64513)) <> 512 * (dataSectorsOf (make 64513) + 3).
Proof.
  assert (dataSectorsOf (make 64513) = 127) as Hds.
  { rewrite dataSectorsOf_max, len_make by lia. reflexivity. }
  destruct (WriteCFB_panics (make 64513))
    as (hdr & padded & Hh & Hp & Hpanic & Hout).
  { apply buildFAT_panics. lia. }
  rewrite Hout, Hds, len_app, Hh, Hp, Hds.
  split; [reflexivity|]. split; [exact Hpanic|]. split; [reflexivity|]. lia.
Qed.

(** C4, amended. For every workbook of at most 64512 bytes (at most 126 data
    sectors), the FAT sector [WriteCFB] writes, the 512 bytes after the
    header and the padded data, is the little-endian image of a table of 128
    entries, free except that entry [i] is [i + 1] for [i] from 0 to
    [data_sectors - 2], entry [data_sectors - 1] is end-of-chain, entry
    [data_sectors] is the FAT-sector marker and entry [data_sectors + 1] is
    end-of-chain. *)
Theorem WriteCFB_fat (workbookData : list Z)
    (Hfits : len workbookData <= 64512) :
  let dataSectors := (Z.max (len workbookData) 4096 + 511) / 512 in
  exists fat : list Z,
    length fat = 128%nat /\
    take 512 (drop (Z.to_nat (512 * (1 + dataSectors))) (cfbOutput workbookData))
    = (v ← fat; [uint8 v; uint8 (Z.shiftr v 8); uint8 (Z.shiftr v 16);
                 uint8 (Z.shiftr v 24)]) /\
    (forall i, 0 <= i < dataSectors - 1 -> fat !! Z.to_nat i = Some (i + 1)) /\
    fat !! Z.to_nat (dataSectors - 1) = Some 0xFFFFFFFE /\
    fat !! Z.to_nat dataSectors = Some 0xFFFFFFFD /\
    fat !! Z.to_nat (dataSectors + 1) = Some 0xFFFFFFFE /\
    (forall i, dataSectors + 2 <= i < 128 -> fat !! Z.to_nat i = Some 0xFFFFFFFF).
Proof.
  intros dataSectors. unfold dataSectors. rewrite <- dataSectorsOf_max.
  pose proof (dataSectorsOf_ge workbookData) as Hge.
  pose proof (dataSectorsOf_fits workbookData Hfits) as Hle.
  destruct (buildFAT_spec (dataSectorsOf workbookData))
    as (fat & Hfat & Hl & H1 & H2 & H3 & H4 & H5); [lia|].
  destruct (WriteCFB_returns workbookData fat Hfat)
    as (hdr & padded & Hh & Hsig & Hp & Hok & Hout).
  exists fat. split; [exact Hl|]. split; [|done].
  rewrite Hout, (app_assoc hdr padded).
  rewrite drop_app_length'
    by (rewrite length_app; unfold len in Hh, Hp; lia).
  rewrite take_app_length' by (symmetry; apply length_fatBuf).
  by apply fatBuf_image.
Qed.

Lemma WriteCFB_fat_witness :
  len [1; 2; 3] <= 64512 /\
  exists fat : list Z,
    length fat = 128%nat /\
    take 512 (drop (Z.to_nat (512 * (1 + 8))) (cfbOutput [1; 2; 3]))
    = (v ← fat; [uint8 v; uint8 (Z.shiftr v 8); uint8 (Z.shiftr v 16);
                 uint8 (Z.shiftr v 24)]) /\
    (forall i, 0 <= i < 8 - 1 -> fat !! Z.to_nat i = Some (i + 1)) /\
    fat !! Z.to_nat (8 - 1) = Some 0xFFFFFFFE /\
    fat !! Z.to_nat 8 = Some 0xFFFFFFFD /\
    fat !! Z.to_nat (8 + 1) = Some 0xFFFFFFFE /\
    (forall i, 8 + 2 <= i < 128 -> fat !! Z.to_nat i = Some 0xFFFFFFFF).
Proof.
  assert (len [1; 2; 3] <= 64512) as H by (vm_compute; discriminate).
  split; [exact H|].
  exact (WriteCFB_fat [1; 2; 3] H).
Defined.

(** C4 as stated fails: for a workbook of 64513 bytes the table cannot be
    built (entry [data_sectors + 1 = 128] does not exist), [WriteCFB] panics
    and no FAT sector is written: the output ends with the padded data. *)
Lemma WriteCFB_fat_large :
  dataSectorsOf (make 64513) = 127 /\
  buildFAT (dataSectorsOf (make 64513)) = None /\
  cfbOutcome (make 64513) = Panic /\
  drop (Z.to_nat (512 * (1 + dataSectorsOf (make 64513)))) (cfbOutput (make 64513)) = [].
Proof.
  assert (dataSectorsOf (make 64513) = 127) as Hds.
  { rewrite dataSectorsOf_max, len_make by lia. reflexivity. }
  destruct (WriteCFB_panics (make 64513))
    as (hdr & padded & Hh & Hp & Hpanic & Hout).
  { apply buildFAT_panics. lia. }
  split; [exact Hds|]. split; [apply buildFAT_panics; lia|].
  split; [exact Hpanic|].
  rewrite Hout. apply drop_ge. rewrite length_app.
  unfold len in Hh, Hp. lia.
Qed.

(** ** The BIFF8 stream *)

Ltac head_of t :=
  lazymatch t with
  | ?f _ => head_of f
  | _ => t
  end.

(** Follows the shape of a procedure: sequences and loops are split, a
    record writer is unfolded to its call of [writeRecord]. *)
Ltac appends_tac :=
  lazymatch goal with
  | |- appends (_ >>> _) => apply appends_andThen; appends_tac
  | |- appends (times _ _) => apply appends_times; appends_tac
  | |- appends skip => apply appends_skip
  | |- appends (Write _) => apply appends_Write
  | |- appends (writeRecord _ _) => apply appends_writeRecord
  | |- appends ?a =>
    let h := head_of a in
    unfold h; cbv zeta; exact (appends_writeRecord _ _)
  end.

Lemma appends_writeEOF : appends writeEOF.
Proof. appends_tac. Qed.

Lemma appends_writeBOF subType : appends (writeBOF subType).
Proof. appends_tac. Qed.

Lemma appends_writeGlobalsHead : appends writeGlobalsHead.
Proof. unfold writeGlobalsHead. appends_tac. Qed.

Lemma appends_writeCell row col v sst : appends (writeCell row col v sst).
Proof.
  destruct v; cbn [writeCell]; unfold writeLabelSST, writeNumber, writeBool;
    apply appends_writeRecord.
Qed.

Lemma appends_writeCells row sst :
  forall rowIndex colIndex, appends (writeCells rowIndex colIndex row sst).
Proof.
  induction row as [|cell row IH]; intros rowIndex colIndex; cbn [writeCells].
  - apply appends_skip.
  - apply appends_andThen; [apply appends_writeCell | apply IH].
Qed.

Lemma appends_writeRows rows sst :
  forall rowIndex, appends (writeRows rowIndex rows sst).
Proof.
  induction rows as [|row rows IH]; intros rowIndex; cbn [writeRows].
  - apply appends_skip.
  - apply appends_andThen; [apply appends_writeRecord|].
    apply appends_andThen; [apply appends_writeCells | apply IH].
Qed.

Lemma appends_writeRowsAndCells w sst : appends (writeRowsAndCells w sst).
Proof. apply appends_writeRows. Qed.

Ltac appends_rows_tac :=
  lazymatch goal with
  | |- appends (_ >>> _) => apply appends_andThen; appends_rows_tac
  | |- appends (writeRowsAndCells _ _) => apply appends_writeRowsAndCells
  | |- _ => appends_tac
  end.

Lemma appends_writeWorksheet w sst : appends (writeWorksheet w sst).
Proof. unfold writeWorksheet. appends_rows_tac. Qed.

Lemma encodeStringForSST_total s : is_Some (encodeStringForSST s).
Proof. unfold encodeStringForSST, utf16leEncoder_String. simpl. eauto. Qed.

Lemma appendStrings_total strs : forall data, is_Some (appendStrings data strs).
Proof.
  induction strs as [|str strs IH]; intros data; cbn [appendStrings]; [eauto|].
  destruct (encodeStringForSST_total str) as [strData ->]. simpl. apply IH.
Qed.

Lemma sstData_total sst : is_Some (sstData sst).
Proof. apply appendStrings_total. Qed.

Lemma appends_writeSST sst : appends (writeSST sst).
Proof.
  unfold writeSST. destruct (sstData_total sst) as [d ->].
  apply appends_writeRecord.
Qed.

Lemma len_output_writeGlobalsHead : len (output writeGlobalsHead) = 907.
Proof. vm_compute. reflexivity. Qed.

Lemma output_writeEOF : output writeEOF = [0x0A; 0; 0; 0].
Proof. reflexivity. Qed.

Lemma output_writeBOF_worksheet :
  output (writeBOF bofWorksheet)
  = [0x09; 0x08; 16; 0; 0x00; 0x06; 0x10; 0x00; 0xBB; 0x0D; 0xCC; 0x07;
     0; 0; 0; 0; 6; 0; 0; 0].
Proof. reflexivity. Qed.

(** The BOUNDSHEET payload in closed form. *)
Lemma boundSheetData_eq offset name :
  boundSheetData offset name
  = [uint8 offset; uint8 (Z.shiftr offset 8); uint8 (Z.shiftr offset 16);
     uint8 (Z.shiftr offset 24); 0; 0; uint8 (len (runes name)); 0x01]
    ++ stringToUTF16LE name.
Proof.
  unfold boundSheetData. cbv zeta.
  set (nameBytes := stringToUTF16LE name).
  assert (make (6 + 1 + 1 + len nameBytes)
          = [] ++ 0 :: 0 :: 0 :: 0 :: 0 :: 0 :: 0 :: 0 :: replicate (length nameBytes) 0)
    as ->.
  { unfold make, len.
    replace (Z.to_nat (6 + 1 + 1 + Z.of_nat (length nameBytes)))
      with (8 + length nameBytes)%nat by lia.
    reflexivity. }
  change 0%nat with (length (@nil Z)) at 1. rewrite PutUint32_app.
  unfold copy. simpl. rewrite length_replicate.
  replace (Nat.min (length nameBytes - 0) (length nameBytes))
    with (length nameBytes) by lia.
  rewrite firstn_all.
  rewrite drop_ge by (rewrite length_replicate; lia).
  by rewrite app_nil_r.
Qed.

Lemma andThen_appends a b w : appends a -> (a >>> b) w = b (w ++ output a).
Proof. intros Ha. unfold andThen. by rewrite (Ha w). Qed.

(** The stream of [writeBIFF8], piece by piece. *)
Lemma writeBIFF8_run w :
  writeBIFF8 w []
  = (output writeGlobalsHead
       ++ output (writeSST (buildSST (data w)))
       ++ output (writeBoundSheet
                    (uint32 (worksheetOffsetOf w
                               (len (output writeGlobalsHead))
                               (len (output (writeSST (buildSST (data w)))))))
                    (sheetName w))
       ++ output writeEOF
       ++ output (writeWorksheet w (buildSST (data w))), Ok).
Proof.
  unfold writeBIFF8. cbv zeta.
  rewrite andThen_appends by apply appends_writeGlobalsHead.
  rewrite app_nil_l.
  rewrite (appends_writeSST (buildSST (data w)) []), app_nil_l.
  set (globals := output writeGlobalsHead).
  set (sstBuf := output (writeSST (buildSST (data w)))).
  set (off := uint32 (worksheetOffsetOf w (len globals) (len sstBuf))).
  rewrite andThen_appends by apply appends_Write.
  rewrite andThen_appends by apply appends_writeRecord.
  rewrite andThen_appends by apply appends_writeEOF.
  rewrite (appends_writeWorksheet w (buildSST (data w)) _).
  by rewrite <- !app_assoc.
Qed.

Lemma len_output_writeBoundSheet offset name :
  len (output (writeBoundSheet offset name))
  = 4 + 6 + 1 + len (stringToUTF16LE name) + 1.
Proof.
  unfold writeBoundSheet.
  rewrite output_writeRecord, len_recordBytes, boundSheetData_eq, len_app.
  unfold len at 1. cbn [length]. lia.
Qed.

Lemma boundSheet_offset_field offset name :
  Uint32 (output (writeBoundSheet offset name)) 4 = offset mod 2 ^ 32.
Proof.
  unfold writeBoundSheet.
  rewrite output_writeRecord, boundSheetData_eq.
  unfold recordBytes, Uint32. simpl. apply le32_value.
Qed.

Lemma boundSheet_type offset name :
  Uint16 (output (writeBoundSheet offset name)) 0 = recTypeBOUNDSHEET.
Proof.
  unfold writeBoundSheet. by rewrite output_writeRecord, recordBytes_type.
Qed.

Lemma output_writeWorksheet_head w sst :
  exists rest,
    output (writeWorksheet w sst) = output (writeBOF bofWorksheet) ++ rest.
Proof.
  unfold writeWorksheet. eexists.
  rewrite output_andThen; [reflexivity|apply appends_writeBOF|].
  appends_rows_tac.
Qed.

Lemma Uint32_app_r (a b : list Z) (k : nat) :
  Uint32 (a ++ b) (length a + k) = Uint32 b k.
Proof.
  unfold Uint32.
  rewrite !lookup_total_app_r by lia.
  repeat f_equal; lia.
Qed.

Lemma Uint32_app_l (a b : list Z) (k : nat) :
  (k + 3 < length a)%nat -> Uint32 (a ++ b) k = Uint32 a k.
Proof.
  intros Hk. unfold Uint32. by rewrite !lookup_total_app_l by lia.
Qed.

Lemma output_writeBIFF8 w :
  output (writeBIFF8 w)
  = output writeGlobalsHead
      ++ output (writeSST (buildSST (data w)))
      ++ output (writeBoundSheet
                   (uint32 (worksheetOffsetOf w
                              (len (output writeGlobalsHead))
                              (len (output (writeSST (buildSST (data w)))))))
                   (sheetName w))
      ++ output writeEOF
      ++ output (writeWorksheet w (buildSST (data w))).
Proof. unfold output at 1. by rewrite writeBIFF8_run. Qed.

(** The offset the source computes is the length of everything written
    before the worksheet substream. *)
Lemma len_before_worksheet w offset :
  len (output writeGlobalsHead
         ++ output (writeSST (buildSST (data w)))
         ++ output (writeBoundSheet offset (sheetName w))
         ++ output writeEOF)
  = worksheetOffsetOf w (len (output writeGlobalsHead))
                      (len (output (writeSST (buildSST (data w))))).
Proof.
  rewrite !len_app, len_output_writeBoundSheet, output_writeEOF.
  unfold worksheetOffsetOf. change (len [10; 0; 0; 0]) with 4. lia.
Qed.

Lemma worksheetPosition_eq w :
  worksheetPosition w
  = worksheetOffsetOf w (len (output writeGlobalsHead))
                      (len (output (writeSST (buildSST (data w))))).
Proof.
  unfold worksheetPosition. rewrite output_writeBIFF8.
  rewrite !app_assoc, len_app, <- !app_assoc, len_before_worksheet. lia.
Qed.

Lemma boundSheetOffsetField_eq w :
  boundSheetOffsetField w
  = worksheetOffsetOf w (len (output writeGlobalsHead))
                      (len (output (writeSST (buildSST (data w)))))
    mod 2 ^ 32.
Proof.
  unfold boundSheetOffsetField, boundSheetPosition.
  rewrite output_writeBIFF8.
  set (globals := output writeGlobalsHead).
  set (sstBuf := output (writeSST (buildSST (data w)))).
  rewrite (app_assoc globals sstBuf).
  replace (Z.to_nat (len globals + len sstBuf)) with (length (globals ++ sstBuf))
    by (rewrite length_app; unfold len; lia).
  rewrite Uint32_app_r, Uint32_app_l.
  - rewrite boundSheet_offset_field. unfold uint32. apply Z.mod_mod. lia.
  - pose proof (len_output_writeBoundSheet
                  (uint32 (worksheetOffsetOf w (len globals) (len sstBuf)))
                  (sheetName w)) as Hbs.
    pose proof (len_nonneg (stringToUTF16LE (sheetName w))).
    unfold len in *. lia.
Qed.

(** C1, amended. For every table and sheet name the stream of [writeBIFF8]
    is: the head of the globals, the SST record, a BOUNDSHEET record, the EOF
    record of the globals, then the worksheet substream, which begins with the
    worksheet BOF record.  The byte position of that BOF record is
    [len(globals head) + len(SST record) + len(BOUNDSHEET record, header
    included) + 4], computed from the buffer that holds the head of the
    globals only, before the three records are appended, and the 32-bit
    offset field of BOUNDSHEET holds that position reduced modulo 2^32 (the
    source stores [uint32(worksheetOffset)]). *)
Theorem boundsheet_offset (w : Writer) :
  let sst := buildSST (data w) in
  let globals := output writeGlobalsHead in
  let sstBuf := output (writeSST sst) in
  let boundsheetSize := 4 + 6 + 1 + len (stringToUTF16LE (sheetName w)) + 1 in
  let worksheetOffset := len globals + len sstBuf + boundsheetSize + 4 in
  exists boundsheet worksheetRest,
    writeGlobalsHead [] = (globals, Ok) /\
    worksheetOffset = worksheetOffsetOf w (len globals) (len sstBuf) /\
    writeBIFF8 w []
    = (globals ++ sstBuf ++ boundsheet ++ output writeEOF
         ++ output (writeBOF bofWorksheet) ++ worksheetRest, Ok) /\
    boundsheet = output (writeBoundSheet (uint32 worksheetOffset) (sheetName w)) /\
    Uint16 boundsheet 0 = recTypeBOUNDSHEET /\
    len boundsheet = boundsheetSize /\
    len (output writeEOF) = 4 /\
    len (globals ++ sstBuf ++ boundsheet ++ output writeEOF) = worksheetOffset /\
    worksheetPosition w = worksheetOffset /\
    Uint32 boundsheet 4 = worksheetOffset mod 2 ^ 32 /\
    boundSheetOffsetField w = worksheetOffset mod 2 ^ 32.
Proof.
  intros sst globals sstBuf boundsheetSize worksheetOffset.
  destruct (output_writeWorksheet_head w sst) as [rest Hrest].
  exists (output (writeBoundSheet (uint32 worksheetOffset) (sheetName w))), rest.
  split; [apply (appends_writeGlobalsHead [])|].
  split; [reflexivity|].
  split.
  { rewrite writeBIFF8_run. fold sst globals sstBuf. by rewrite Hrest. }
  split; [reflexivity|].
  split; [apply boundSheet_type|].
  split; [apply len_output_writeBoundSheet|].
  split; [by rewrite output_writeEOF|].
  split; [apply len_before_worksheet|].
  split; [apply worksheetPosition_eq|].
  split.
  - rewrite boundSheet_offset_field. unfold uint32. apply Z.mod_mod. lia.
  - apply boundSheetOffsetField_eq.
Qed.

Lemma runes_ascii_cons c s :
  byte_of c < 0x80 -> runes (String c s) = byte_of c :: runes s.
Proof.
  intros H. apply Z.ltb_lt in H. cbn [runes]. cbv zeta. by rewrite H.
Qed.

Lemma runes_ascii_bytes (n : nat) :
  runes (string_of_bytes (replicate n 0x61)) = replicate n 0x61.
Proof.
  induction n as [|n IH]; [reflexivity|].
  cbn [replicate string_of_bytes foldr].
  rewrite runes_ascii_cons by (vm_compute; reflexivity).
  f_equal. exact IH.
Qed.

Lemma len_runes_asciiName n : 0 <= n -> len (runes (asciiName n)) = n.
Proof.
  intros Hn. unfold asciiName. rewrite runes_ascii_bytes.
  unfold len. rewrite length_replicate. lia.
Qed.

Lemma len_output_writeSST_empty : len (output (writeSST (buildSST []))) = 12.
Proof. vm_compute. reflexivity. Qed.

(** The empty table under a name of [n] letters. *)
Lemma ascii_sheet_offset n :
  0 <= n ->
  worksheetPosition {| data := []; sheetName := asciiName n |} = 935 + 2 * n /\
  boundSheetOffsetField {| data := []; sheetName := asciiName n |}
  = (935 + 2 * n) mod 2 ^ 32.
Proof.
  intros Hn.
  rewrite worksheetPosition_eq, boundSheetOffsetField_eq.
  unfold worksheetOffsetOf. cbn [data sheetName].
  rewrite len_output_writeGlobalsHead, len_output_writeSST_empty,
    len_stringToUTF16LE, len_runes_asciiName by lia.
  split; [lia|]. f_equal. lia.
Qed.

(** C1 as stated fails: with a sheet name of 2^31 letters the BOUNDSHEET
    record alone is longer than 2^32 bytes, the worksheet BOF record lies at
    byte 2^32 + 935 and the offset field holds 935. *)
Lemma boundsheet_offset_wraps :
  worksheetPosition {| data := []; sheetName := asciiName (2 ^ 31) |}
  = 2 ^ 32 + 935 /\
  boundSheetOffsetField {| data := []; sheetName := asciiName (2 ^ 31) |} = 935 /\
  boundSheetOffsetField {| data := []; sheetName := asciiName (2 ^ 31) |}
  <> worksheetPosition {| data := []; sheetName := asciiName (2 ^ 31) |}.
Proof.
  assert (0 <= 2 ^ 31) as Hn by (apply Z.pow_nonneg; lia).
  destruct (ascii_sheet_offset (2 ^ 31) Hn) as [Hpos Hfield].
  assert (2 * 2 ^ 31 = 1 * 2 ^ 32) as E by reflexivity.
  assert ((935 + 2 * 2 ^ 31) mod 2 ^ 32 = 935) as Hmod.
  { rewrite E, Z.mod_add by (apply Z.pow_nonzero; lia). reflexivity. }
  rewrite Hpos, Hfield, Hmod.
  split; [rewrite E; lia|]. split; [reflexivity|].
  rewrite E. change (2 ^ 32) with 4294967296. lia.
Qed.

(** ** Cells *)

Lemma buildSST_from sst0 data :
  foldl (fun sst row =>
           foldl (fun sst cell =>
                    match cell with
                    | VString str => addString str sst
                    | _ => sst
                    end) sst row) sst0 data
  = addStrings (textCells data) sst0.
Proof.
  revert sst0. induction data as [|row data IH]; intros sst0; [reflexivity|].
  cbn [foldl]. rewrite IH. unfold textCells. rewrite bind_cons, addStrings_app.
  f_equal. clear IH. revert sst0.
  induction row as [|cell row IHr]; intros sst0; [reflexivity|].
  cbn [foldl]. rewrite IHr, bind_cons, addStrings_app.
  by destruct cell.
Qed.

(** The pre-walk sees the text cells and nothing else. *)
Lemma buildSST_textCells data : buildSST data = addStrings (textCells data) newSST.
Proof. apply buildSST_from. Qed.

Lemma labelSSTData_eq row col value sst :
  labelSSTData row col value sst
  = [uint8 row; uint8 (Z.shiftr row 8); uint8 col; uint8 (Z.shiftr col 8); 0; 0;
     uint8 (uint32 (getIndex sst value));
     uint8 (Z.shiftr (uint32 (getIndex sst value)) 8);
     uint8 (Z.shiftr (uint32 (getIndex sst value)) 16);
     uint8 (Z.shiftr (uint32 (getIndex sst value)) 24)].
Proof. reflexivity. Qed.

Lemma numberData_eq row col bits :
  numberData row col bits
  = [uint8 row; uint8 (Z.shiftr row 8); uint8 col; uint8 (Z.shiftr col 8); 0; 0;
     uint8 bits; uint8 (Z.shiftr bits 8); uint8 (Z.shiftr bits 16);
     uint8 (Z.shiftr bits 24);
     uint8 (Z.shiftr bits 32); uint8 (Z.shiftr (Z.shiftr bits 32) 8);
     uint8 (Z.shiftr (Z.shiftr bits 32) 16);
     uint8 (Z.shiftr (Z.shiftr bits 32) 24)].
Proof. reflexivity. Qed.

Lemma boolData_eq row col value :
  boolData row col value
  = [uint8 row; uint8 (Z.shiftr row 8); uint8 col; uint8 (Z.shiftr col 8); 0; 0;
     if value then 1 else 0; 0].
Proof. by destruct value. Qed.

Lemma rowData_eq rowIndex colCount :
  rowData rowIndex colCount
  = [uint8 rowIndex; uint8 (Z.shiftr rowIndex 8); 0; 0;
     uint8 colCount; uint8 (Z.shiftr colCount 8); 0xFF; 0; 0; 0; 0; 0;
     0; 0; 0x0F; 0].
Proof. reflexivity. Qed.

Lemma labelSST_index_field row col value sst :
  Uint32 (labelSSTData row col value sst) 6 = getIndex sst value mod 2 ^ 32.
Proof.
  rewrite labelSSTData_eq. unfold Uint32. simpl. rewrite le32_value.
  unfold uint32. apply Z.mod_mod. lia.
Qed.

(** C7, amended. A cell that is neither text, nor of an integer or floating
    kind, nor boolean is emitted as a LABELSST record for its formatted text.
    The pre-walk adds only text cells to the SST, so the formatted text is
    not added; the index field of the record is the map lookup of the
    formatted text: 0 when no text cell of the table holds the same text,
    and otherwise the index of that text, the position of its first
    occurrence among the text cells. *)
Theorem other_cell_label (w : Writer) (row col : Z) (formatted : string)
    (buf : list Z) :
  let sst := buildSST (data w) in
  let payload := labelSSTData row col formatted sst in
  writeCell row col (VOther formatted) sst buf
  = (buf ++ recordBytes recTypeLABELSST payload, Ok) /\
  len payload = 10 /\
  Uint32 payload 6 = getIndex sst formatted mod 2 ^ 32 /\
  sst = addStrings (textCells (data w)) newSST /\
  strings sst = firstOccurrences (textCells (data w)) /\
  if decide (formatted ∈ textCells (data w))
  then exists n : nat,
         getIndex sst formatted = Z.of_nat n /\
         firstOccurrences (textCells (data w)) !! n = Some formatted
  else getIndex sst formatted = 0.
Proof.
  intros sst payload.
  assert (sst = addStrings (textCells (data w)) newSST) as Hsst
    by apply buildSST_textCells.
  split; [apply writeRecord_run|].
  split; [reflexivity|].
  split; [apply labelSST_index_field|].
  split; [exact Hsst|].
  split; [rewrite Hsst; apply strings_first_occurrences|].
  rewrite Hsst. destruct (decide (formatted ∈ textCells (data w))) as [Hin|Hnin].
  - apply getIndex_first_occurrence. by apply list_elem_of_In.
  - apply getIndex_absent. by rewrite <- list_elem_of_In.
Qed.

(** C7 as stated fails: in the row ["a", "<nil>", nil] the third cell is a
    nil interface value, which [fmt.Sprintf("%v", v)] formats as "<nil>";
    the second cell put that very text into the SST at index 1, and the
    LABELSST record of the third cell carries index 1, not 0. *)
Lemma other_cell_label_nonzero :
  writeCell (uint16 0) (uint16 2) (VOther "<nil>")
            (buildSST [[VString "a"; VString "<nil>"; VOther "<nil>"]]) []
  = ([0xFD; 0; 10; 0; 0; 0; 2; 0; 0; 0; 1; 0; 0; 0], Ok) /\
  Uint32 (labelSSTData (uint16 0) (uint16 2) "<nil>"
            (buildSST [[VString "a"; VString "<nil>"; VOther "<nil>"]])) 6 = 1 /\
  Uint32 (labelSSTData (uint16 0) (uint16 2) "<nil>"
            (buildSST [[VString "a"; VString "<nil>"; VOther "<nil>"]])) 6 <> 0.
Proof. vm_compute. split; [reflexivity|]. split; [reflexivity|discriminate]. Qed.

(** ** String encodings *)

Lemma two_bytes_low16 r :
  [uint8 r; uint8 (Z.shiftr r 8)]
  = [uint8 (uint16 r); uint8 (Z.shiftr (uint16 r) 8)].
Proof.
  unfold uint8, uint16. rewrite !Z.shiftr_div_pow2 by lia.
  change (2 ^ 8) with 256. change (2 ^ 16) with (256 * 256).
  rewrite Z.rem_mul_r by lia.
  f_equal; [|f_equal].
  - rewrite (Z.mul_comm 256), Z.mod_add by lia.
    symmetry. apply Z.mod_mod. lia.
  - rewrite (Z.mul_comm 256), Z.div_add by lia.
    rewrite (Z.div_small (r mod 256)) by (apply Z.mod_pos_bound; lia).
    rewrite Z.add_0_l. symmetry. apply Z.mod_mod. lia.
Qed.

(** What the transcoder gives: per code point, the same two bytes as
    [stringToUTF16LE] when it lies in the Basic Multilingual Plane, and the
    four bytes of a surrogate pair otherwise. *)
Lemma utf16leEncoder_String_eq s :
  utf16leEncoder_String s
  = Some (r ← runes s;
          if r <=? 0xFFFF
          then [uint8 (uint16 r); uint8 (Z.shiftr (uint16 r) 8)]
          else [uint8 (EncodeRune r).1; uint8 (Z.shiftr (EncodeRune r).1 8);
                uint8 (EncodeRune r).2; uint8 (Z.shiftr (EncodeRune r).2 8)]).
Proof.
  unfold utf16leEncoder_String. f_equal.
  induction (runes s) as [|r rs IH]; [reflexivity|].
  rewrite !bind_cons, IH. f_equal.
  destruct (r <=? 0xFFFF).
  - apply two_bytes_low16.
  - by destruct (EncodeRune r).
Qed.

Lemma encoded_header3 (a b c : Z) (utf16 : list Z) :
  copy (<[2%nat := c]> (<[1%nat := b]> (<[0%nat := a]> (make (3 + len utf16)))))
       3 (length (<[2%nat := c]> (<[1%nat := b]> (<[0%nat := a]> (make (3 + len utf16))))))
       utf16
  = [a; b; c] ++ utf16.
Proof.
  assert (make (3 + len utf16) = 0 :: 0 :: 0 :: replicate (length utf16) 0) as ->.
  { unfold make, len.
    replace (Z.to_nat (3 + Z.of_nat (length utf16))) with (3 + length utf16)%nat
      by lia.
    reflexivity. }
  unfold copy. simpl. rewrite length_replicate.
  replace (Nat.min (length utf16 - 0) (length utf16)) with (length utf16) by lia.
  rewrite firstn_all, drop_ge by (rewrite length_replicate; lia).
  by rewrite app_nil_r.
Qed.

Lemma encodeStringForSST_eq s utf16 :
  utf16leEncoder_String s = Some utf16 ->
  encodeStringForSST s
  = Some ([uint8 (uint16 (len (runes s)));
           uint8 (Z.shiftr (uint16 (len (runes s))) 8); 0x01] ++ utf16).
Proof.
  intros Henc. unfold encodeStringForSST. rewrite Henc.
  cbn [mbind option_bind]. cbv zeta. f_equal.
  exact (encoded_header3 _ _ _ utf16).
Qed.

Lemma encodeString_eq s utf16 :
  utf16leEncoder_String s = Some utf16 ->
  encodeString s = Some ([uint8 (len (runes s)); 0x01; 0x00] ++ utf16).
Proof.
  intros Henc. unfold encodeString. rewrite Henc.
  cbn [mbind option_bind]. cbv zeta. f_equal.
  exact (encoded_header3 _ _ _ utf16).
Qed.

Lemma directory_names dataSize :
  take 20 (directorySector dataSize) = stringToUTF16LE "Root Entry" /\
  take 16 (drop 128 (directorySector dataSize)) = stringToUTF16LE "Workbook".
Proof. split; reflexivity. Qed.

(** C9, amended. [stringToUTF16LE], the encoding of the sheet name in
    BOUNDSHEET and of the two directory names, walks the code points one by
    one and emits exactly two bytes for each, its low 16 bits, so a
    supplementary-plane character is truncated.  The SST strings take another
    path: [encodeStringForSST] (and [encodeString]) hand the string to the
    UTF-16 transcoder, which emits those same two bytes for a code point of
    the Basic Multilingual Plane and the four bytes of a surrogate pair for a
    supplementary one, under a character count that is the number of code
    points. *)
Theorem utf16_paths (s : string) :
  let n := len (runes s) in
  let truncated :=
    r ← runes s; [uint8 (uint16 r); uint8 (Z.shiftr (uint16 r) 8)] in
  let transcoded :=
    r ← runes s;
    if r <=? 0xFFFF
    then [uint8 (uint16 r); uint8 (Z.shiftr (uint16 r) 8)]
    else [uint8 (EncodeRune r).1; uint8 (Z.shiftr (EncodeRune r).1 8);
          uint8 (EncodeRune r).2; uint8 (Z.shiftr (EncodeRune r).2 8)] in
  stringToUTF16LE s = truncated /\
  len (stringToUTF16LE s) = 2 * n /\
  (forall offset,
      boundSheetData offset s
      = [uint8 offset; uint8 (Z.shiftr offset 8); uint8 (Z.shiftr offset 16);
         uint8 (Z.shiftr offset 24); 0; 0; uint8 n; 0x01] ++ truncated) /\
  (forall dataSize,
      take 20 (directorySector dataSize) = stringToUTF16LE "Root Entry" /\
      take 16 (drop 128 (directorySector dataSize)) = stringToUTF16LE "Workbook") /\
  encodeStringForSST s
  = Some ([uint8 (uint16 n); uint8 (Z.shiftr (uint16 n) 8); 0x01] ++ transcoded) /\
  encodeString s = Some ([uint8 n; 0x01; 0x00] ++ transcoded).
Proof.
  intros n truncated transcoded.
  split; [apply stringToUTF16LE_runes|].
  split; [apply len_stringToUTF16LE|].
  split.
  { intros offset. rewrite boundSheetData_eq. f_equal.
    apply stringToUTF16LE_runes. }
  split; [apply directory_names|].
  split.
  - apply encodeStringForSST_eq, utf16leEncoder_String_eq.
  - apply encodeString_eq, utf16leEncoder_String_eq.
Qed.

(** C9 as stated fails on the SST path: U+1F600 (UTF-8 F0 9F 98 80) is one
    code point; [stringToUTF16LE] gives the two bytes 00 F6, but
    [encodeStringForSST] gives the character count 1, the flag, and the four
    bytes 3D D8 00 DE of the surrogate pair D83D DE00. *)
Lemma sst_string_surrogate_pair :
  runes (string_of_bytes [0xF0; 0x9F; 0x98; 0x80]) = [0x1F600] /\
  stringToUTF16LE (string_of_bytes [0xF0; 0x9F; 0x98; 0x80]) = [0x00; 0xF6] /\
  encodeStringForSST (string_of_bytes [0xF0; 0x9F; 0x98; 0x80])
  = Some [1; 0; 1; 0x3D; 0xD8; 0x00; 0xDE] /\
  encodeStringForSST (string_of_bytes [0xF0; 0x9F; 0x98; 0x80])
  <> Some ([1; 0; 1] ++ stringToUTF16LE (string_of_bytes [0xF0; 0x9F; 0x98; 0x80])).
Proof.
  vm_compute. split; [reflexivity|]. split; [reflexivity|].
  split; [reflexivity|discriminate].
Qed.

(** The SST payload of a table with a single text cell. *)
Lemma sstData_single s strData :
  encodeStringForSST s = Some strData ->
  sstData (buildSST [[VString s]]) = Some ([1; 0; 0; 0; 1; 0; 0; 0] ++ strData).
Proof.
  intros Henc.
  change (buildSST [[VString s]]) with (addString s newSST).
  unfold addString. cbn [stringMap newSST]. rewrite lookup_empty.
  unfold sstData. cbn [strings totalCount uniqueCount newSST app appendStrings].
  rewrite Henc. reflexivity.
Qed.

Lemma len_transcoded_ascii (n : nat) :
  len (r ← replicate n 0x61;
       if r <=? 0xFFFF
       then [uint8 (uint16 r); uint8 (Z.shiftr (uint16 r) 8)]
       else [uint8 (EncodeRune r).1; uint8 (Z.shiftr (EncodeRune r).1 8);
             uint8 (EncodeRune r).2; uint8 (Z.shiftr (EncodeRune r).2 8)])
  = 2 * Z.of_nat n.
Proof.
  induction n as [|n IH]; [reflexivity|].
  cbn [replicate]. rewrite bind_cons, len_app, IH.
  change (0x61 <=? 0xFFFF) with true. cbv iota.
  unfold len at 1. cbn [length]. lia.
Qed.

(** The SST payload of a table whose only cell is a text of [n] letters. *)
Lemma sstData_ascii n :
  0 <= n ->
  exists payload,
    sstData (buildSST [[VString (asciiName n)]]) = Some payload /\
    len payload = 11 + 2 * n.
Proof.
  intros Hn. eexists. split.
  - apply sstData_single, encodeStringForSST_eq, utf16leEncoder_String_eq.
  - unfold asciiName. rewrite runes_ascii_bytes.
    rewrite !len_app, len_transcoded_ascii.
    unfold len. cbn [length]. lia.
Qed.

(** C6 as stated fails: a table whose only cell is a text of 32765 letters
    has an SST payload of 65541 bytes; [writeSST] hands it to [writeRecord],
    and the length field of the emitted record holds 5. *)
Lemma writeRecord_length_field_wraps :
  exists payload,
    sstData (buildSST [[VString (asciiName 32765)]]) = Some payload /\
    len payload = 65541 /\
    Uint16 (output (writeRecord recTypeSST payload)) 2 = 5 /\
    Uint16 (output (writeRecord recTypeSST payload)) 2 <> len payload.
Proof.
  destruct (sstData_ascii 32765) as (payload & Hdata & Hlen); [lia|].
  exists payload. split; [exact Hdata|]. split; [exact Hlen|].
  rewrite output_writeRecord, recordBytes_length, Hlen.
  split; [reflexivity|discriminate].
Qed.

(** ** Rows, cells and DIMENSIONS *)

Lemma output_skip : output skip = [].
Proof. reflexivity. Qed.

Lemma output_writeCells row sst :
  forall rowIndex colIndex,
    output (writeCells rowIndex colIndex row sst)
    = concat (imap (fun j cell =>
                      output (writeCell (uint16 rowIndex)
                                        (uint16 (colIndex + Z.of_nat j)) cell sst))
                   row).
Proof.
  induction row as [|cell row IH]; intros rowIndex colIndex; [reflexivity|].
  cbn [writeCells imap concat].
  rewrite output_andThen
    by (apply appends_writeCell || apply appends_writeCells).
  rewrite Z.add_0_r, IH. do 2 f_equal.
  apply imap_ext. intros j c _. cbn. do 3 f_equal. lia.
Qed.

Lemma output_writeRows rows sst :
  forall rowIndex,
    output (writeRows rowIndex rows sst)
    = concat (imap (fun i row =>
                      recordBytes recTypeROW
                        (rowData (uint16 (rowIndex + Z.of_nat i)) (uint16 (len row)))
                      ++ concat (imap (fun j cell =>
                                         output (writeCell
                                                   (uint16 (rowIndex + Z.of_nat i))
                                                   (uint16 (Z.of_nat j)) cell sst))
                                      row))
                   rows).
Proof.
  induction rows as [|row rows IH]; intros rowIndex; [reflexivity|].
  cbn [writeRows imap concat].
  rewrite output_andThen; [|apply appends_writeRecord|].
  2:{ apply appends_andThen; [apply appends_writeCells|apply appends_writeRows]. }
  rewrite output_andThen
    by (apply appends_writeCells || apply appends_writeRows).
  unfold writeRow. rewrite output_writeRecord, output_writeCells, IH, Z.add_0_r.
  rewrite <- app_assoc. do 3 f_equal.
  apply imap_ext. intros i r _. cbn.
  replace (rowIndex + 1 + Z.of_nat i) with (rowIndex + Z.of_nat (S i)) by lia.
  reflexivity.
Qed.

Lemma row_index_field rowIndex colCount :
  Uint16 (rowData rowIndex colCount) 0 = rowIndex mod 2 ^ 16.
Proof. rewrite rowData_eq. unfold Uint16. simpl. apply le16_value. Qed.

Lemma cell_fields row col v sst :
  exists recType payload,
    output (writeCell row col v sst) = recordBytes recType payload /\
    In recType [recTypeLABELSST; recTypeNUMBER; recTypeBOOLERR] /\
    Uint16 payload 0 = row mod 2 ^ 16 /\
    Uint16 payload 2 = col mod 2 ^ 16.
Proof.
  destruct v as [s|bits|b|formatted]; cbn [writeCell];
    unfold writeLabelSST, writeNumber, writeBool; eexists _, _;
    (split; [apply output_writeRecord|]);
    rewrite ?labelSSTData_eq, ?numberData_eq, ?boolData_eq;
    (split; [simpl; tauto|]);
    unfold Uint16; simpl; split; apply le16_value.
Qed.

Lemma dimensions_row_field w :
  Uint32 (dimensionsData w) 4 = len (data w) mod 2 ^ 32.
Proof.
  unfold dimensionsData. cbv zeta.
  set (colCount := foldl _ _ _). set (rowCount := uint32 (len (data w))).
  transitivity (rowCount mod 2 ^ 32).
  - unfold Uint32. simpl. apply le32_value.
  - unfold rowCount, uint32. apply Z.mod_mod. lia.
Qed.

Lemma uint16_mod x : uint16 x mod 2 ^ 16 = x mod 2 ^ 16.
Proof. unfold uint16. apply Z.mod_mod. lia. Qed.

Lemma output_writeCells_app sst (l k : list value) :
  forall rowIndex colIndex,
    output (writeCells rowIndex colIndex (l ++ k) sst)
    = output (writeCells rowIndex colIndex l sst)
      ++ output (writeCells rowIndex (colIndex + len l) k sst).
Proof.
  induction l as [|cell l IH]; intros rowIndex colIndex.
  - cbn [app writeCells]. rewrite output_skip.
    replace (colIndex + len []) with colIndex by (unfold len; simpl; lia).
    reflexivity.
  - cbn [app writeCells].
    rewrite !output_andThen
      by (apply appends_writeCell || apply appends_writeCells).
    rewrite IH, <- app_assoc.
    replace (colIndex + len (cell :: l)) with (colIndex + 1 + len l)
      by (unfold len; cbn [length]; lia).
    reflexivity.
Qed.

Lemma output_writeRows_app sst (l k : list (list value)) :
  forall rowIndex,
    output (writeRows rowIndex (l ++ k) sst)
    = output (writeRows rowIndex l sst)
      ++ output (writeRows (rowIndex + len l) k sst).
Proof.
  induction l as [|row l IH]; intros rowIndex.
  - cbn [app writeRows]. rewrite output_skip.
    replace (rowIndex + len []) with rowIndex by (unfold len; simpl; lia).
    reflexivity.
  - cbn [app writeRows].
    rewrite !(output_andThen (writeRow _ _))
      by (apply appends_writeRecord
          || (apply appends_andThen;
              [apply appends_writeCells | apply appends_writeRows])).
    rewrite !(output_andThen (writeCells _ _ _ _))
      by (apply appends_writeCells || apply appends_writeRows).
    rewrite IH, <- !app_assoc.
    replace (rowIndex + len (row :: l)) with (rowIndex + 1 + len l)
      by (unfold len; cbn [length]; lia).
    reflexivity.
Qed.

(** The records of row [i] and of its cells, where they lie and what row and
    column they carry. *)
Lemma row_records w sst (i : nat) (row : list value) :
  data w !! i = Some row ->
  exists rowPayload,
    rowRecordIn w sst i row rowPayload /\
    Uint16 rowPayload 0 = Z.of_nat i mod 2 ^ 16 /\
    forall (j : nat) (cell : value),
      row !! j = Some cell ->
      exists recType payload,
        cellRecordIn sst i row j recType payload /\
        In recType [recTypeLABELSST; recTypeNUMBER; recTypeBOOLERR] /\
        Uint16 payload 0 = Z.of_nat i mod 2 ^ 16 /\
        Uint16 payload 2 = Z.of_nat j mod 2 ^ 16.
Proof.
  intros Hrow.
  exists (rowData (uint16 (Z.of_nat i)) (uint16 (len row))).
  split; [|split].
  - unfold rowRecordIn, writeRowsAndCells.
    rewrite <- (take_drop_middle (data w) i row Hrow) at 1.
    rewrite output_writeRows_app. f_equal.
    pose proof (lookup_lt_Some _ _ _ Hrow) as Hlt.
    replace (0 + len (take i (data w))) with (Z.of_nat i)
      by (unfold len; rewrite length_take; lia).
    cbn [writeRows].
    rewrite output_andThen; [|apply appends_writeRecord|].
    2:{ apply appends_andThen; [apply appends_writeCells|apply appends_writeRows]. }
    rewrite output_andThen
      by (apply appends_writeCells || apply appends_writeRows).
    unfold writeRow. rewrite output_writeRecord.
    replace (Z.of_nat i + 1) with (Z.of_nat (S i)) by lia.
    reflexivity.
  - by rewrite row_index_field, uint16_mod.
  - intros j cell Hcell.
    destruct (cell_fields (uint16 (Z.of_nat i)) (uint16 (Z.of_nat j)) cell sst)
      as (recType & payload & Hout & Htype & Hr & Hc).
    rewrite uint16_mod in Hr, Hc.
    exists recType, payload. split; [|done].
    unfold cellRecordIn.
    rewrite <- (take_drop_middle row j cell Hcell) at 1.
    rewrite output_writeCells_app. f_equal.
    pose proof (lookup_lt_Some _ _ _ Hcell) as Hlt.
    replace (0 + len (take j row)) with (Z.of_nat j)
      by (unfold len; rewrite length_take; lia).
    cbn [writeCells].
    rewrite output_andThen
      by (apply appends_writeCell || apply appends_writeCells).
    rewrite Hout.
    replace (Z.of_nat j + 1) with (Z.of_nat (S j)) by lia.
    reflexivity.
Qed.

Lemma wrapped_below (i : Z) : 65536 <= i -> i mod 2 ^ 16 < i.
Proof. intros Hi. pose proof (Z.mod_pos_bound i (2 ^ 16) ltac:(lia)). lia. Qed.

(** C10, amended. For every table, each ROW record and each cell record
    stores its row position reduced modulo 2^16, each cell record stores its
    column position reduced modulo 2^16, and the DIMENSIONS record stores the
    row count reduced modulo 2^32 (the source stores [uint32(len(w.data))]).
    So the records of a row below position 65536 store the position itself,
    and those of a row at position 65536 or beyond store a smaller number;
    and in a table of more than 65536 and fewer than 2^32 rows, the ROW
    record and the cell records of row 65536, found in the output after the
    records of the 65536 rows before it, store the row index 0, while the
    DIMENSIONS row count is the number of rows. *)
Theorem row_and_column_indices (w : Writer) (sst : sharedStringTable) :
  output (writeRowsAndCells w sst)
  = concat (imap (fun i row =>
                    recordBytes recTypeROW
                      (rowData (uint16 (Z.of_nat i)) (uint16 (len row)))
                    ++ concat (imap (fun j cell =>
                                       output (writeCell (uint16 (Z.of_nat i))
                                                         (uint16 (Z.of_nat j))
                                                         cell sst))
                                    row))
                 (data w)) /\
  (forall i colCount, Uint16 (rowData (uint16 i) colCount) 0 = i mod 2 ^ 16) /\
  (forall i j v,
      exists recType payload,
        output (writeCell (uint16 i) (uint16 j) v sst) = recordBytes recType payload /\
        In recType [recTypeLABELSST; recTypeNUMBER; recTypeBOOLERR] /\
        Uint16 payload 0 = i mod 2 ^ 16 /\
        Uint16 payload 2 = j mod 2 ^ 16) /\
  Uint32 (dimensionsData w) 4 = len (data w) mod 2 ^ 32 /\
  (forall (i : nat) (row : list value),
      data w !! i = Some row ->
      exists rowPayload,
        rowRecordIn w sst i row rowPayload /\
        Uint16 rowPayload 0 = Z.of_nat i mod 2 ^ 16 /\
        (Z.of_nat i < 65536 -> Uint16 rowPayload 0 = Z.of_nat i) /\
        (65536 <= Z.of_nat i -> Uint16 rowPayload 0 < Z.of_nat i) /\
        forall (j : nat) (cell : value),
          row !! j = Some cell ->
          exists recType payload,
            cellRecordIn sst i row j recType payload /\
            In recType [recTypeLABELSST; recTypeNUMBER; recTypeBOOLERR] /\
            Uint16 payload 0 = Z.of_nat i mod 2 ^ 16 /\
            Uint16 payload 2 = Z.of_nat j mod 2 ^ 16 /\
            (Z.of_nat i < 65536 -> Uint16 payload 0 = Z.of_nat i) /\
            (65536 <= Z.of_nat i -> Uint16 payload 0 < Z.of_nat i)) /\
  (65536 < len (data w) < 2 ^ 32 ->
   Uint32 (dimensionsData w) 4 = len (data w) /\
   exists row rowPayload,
     data w !! Z.to_nat 65536 = Some row /\
     rowRecordIn w sst (Z.to_nat 65536) row rowPayload /\
     Uint16 rowPayload 0 = 0 /\
     forall (j : nat) (cell : value),
       row !! j = Some cell ->
       exists recType payload,
         cellRecordIn sst (Z.to_nat 65536) row j recType payload /\
         In recType [recTypeLABELSST; recTypeNUMBER; recTypeBOOLERR] /\
         Uint16 payload 0 = 0).
Proof.
  split.
  { unfold writeRowsAndCells. rewrite (output_writeRows (data w) sst 0).
    f_equal. }
  split.
  { intros i colCount. by rewrite row_index_field, uint16_mod. }
  split.
  { intros i j v.
    destruct (cell_fields (uint16 i) (uint16 j) v sst)
      as (recType & payload & Hout & Htype & Hrow & Hcol).
    rewrite uint16_mod in Hrow, Hcol. by exists recType, payload. }
  split; [apply dimensions_row_field|].
  split.
  { intros i row Hrow.
    destruct (row_records w sst i row Hrow) as (rowPayload & Hin & Hidx & Hcells).
    exists rowPayload. split; [exact Hin|]. split; [exact Hidx|].
    split; [intros Hi; rewrite Hidx; apply Z.mod_small; lia|].
    split; [intros Hi; rewrite Hidx; by apply wrapped_below|].
    intros j cell Hcell.
    destruct (Hcells j cell Hcell) as (recType & payload & Hc & Ht & Hr & Hj).
    exists recType, payload. split; [exact Hc|]. split; [exact Ht|].
    split; [exact Hr|]. split; [exact Hj|].
    split; intros Hi; rewrite Hr; [apply Z.mod_small; lia | by apply wrapped_below]. }
  intros Hrows. split.
  { rewrite dimensions_row_field. apply Z.mod_small. lia. }
  destruct (lookup_lt_is_Some_2 (data w) (Z.to_nat 65536)) as [row Hrow].
  { unfold len in Hrows. lia. }
  destruct (row_records w sst (Z.to_nat 65536) row Hrow)
    as (rowPayload & Hin & Hidx & Hcells).
  exists row, rowPayload. split; [exact Hrow|]. split; [exact Hin|].
  rewrite Z2Nat.id in Hidx by lia.
  split; [exact Hidx|].
  intros j cell Hcell.
  destruct (Hcells j cell Hcell) as (recType & payload & Hc & Ht & Hr & _).
  rewrite Z2Nat.id in Hr by lia.
  exists recType, payload. split; [exact Hc|]. split; [exact Ht | exact Hr].
Qed.

Lemma len_replicate {A} (n : Z) (x : A) :
  0 <= n -> len (replicate (Z.to_nat n) x) = n.
Proof. intros Hn. unfold len. rewrite length_replicate. lia. Qed.

(** A table of [n] empty rows. *)
Lemma empty_rows_dimensions n name :
  0 <= n ->
  Uint32 (dimensionsData {| data := replicate (Z.to_nat n) []; sheetName := name |}) 4
  = n mod 2 ^ 32.
Proof.
  intros Hn. rewrite dimensions_row_field. cbn [data].
  by rewrite len_replicate.
Qed.

Lemma row_and_column_indices_witness :
  let w := {| data := replicate (Z.to_nat 65537) [VBool true];
              sheetName := "Sheet1" |} in
  let sst := buildSST (data w) in
  65536 < len (data w) < 2 ^ 32 /\
  data w !! Z.to_nat 65536 = Some [VBool true] /\
  Uint32 (dimensionsData w) 4 = len (data w) /\
  exists row rowPayload,
    data w !! Z.to_nat 65536 = Some row /\
    rowRecordIn w sst (Z.to_nat 65536) row rowPayload /\
    Uint16 rowPayload 0 = 0 /\
    forall (j : nat) (cell : value),
      row !! j = Some cell ->
      exists recType payload,
        cellRecordIn sst (Z.to_nat 65536) row j recType payload /\
        In recType [recTypeLABELSST; recTypeNUMBER; recTypeBOOLERR] /\
        Uint16 payload 0 = 0.
Proof.
  intros w sst.
  assert (65536 < len (data w) < 2 ^ 32) as H.
  { unfold w. cbn [data]. rewrite len_replicate by lia.
    split; [lia | reflexivity]. }
  split; [exact H|].
  split; [unfold w; cbn [data]; apply lookup_replicate_2; lia|].
  exact (proj2 (proj2 (proj2 (proj2 (proj2 (row_and_column_indices w sst))))) H).
Defined.

(** C10 as stated fails twice.  A table of exactly 65536 rows has 65536 or
    more rows, and no row index wraps around: the ROW record and the cell
    record of every row store the position of the row.  And a table of 2^32
    (empty) rows has 65536 or more rows, and its DIMENSIONS record stores the
    row count 0: the 32-bit row count wraps around as well. *)
Lemma row_indices_claim_fails :
  let w := {| data := replicate (Z.to_nat 65536) [VBool true];
              sheetName := "Sheet1" |} in
  let sst := buildSST (data w) in
  let big := {| data := replicate (Z.to_nat (2 ^ 32)) []; sheetName := "Sheet1" |} in
  len (data w) = 65536 /\
  (forall (i : nat) (row : list value),
      data w !! i = Some row ->
      exists rowPayload,
        rowRecordIn w sst i row rowPayload /\
        Uint16 rowPayload 0 = Z.of_nat i /\
        forall (j : nat) (cell : value),
          row !! j = Some cell ->
          exists recType payload,
            cellRecordIn sst i row j recType payload /\
            Uint16 payload 0 = Z.of_nat i) /\
  len (data big) = 2 ^ 32 /\
  Uint32 (dimensionsData big) 4 = 0 /\
  Uint32 (dimensionsData big) 4 <> len (data big).
Proof.
  intros w sst big.
  split.
  { unfold w. cbn [data]. by rewrite len_replicate. }
  split.
  { intros i row Hrow.
    assert (Z.of_nat i < 65536) as Hi.
    { apply lookup_lt_Some in Hrow. unfold w in Hrow. cbn [data] in Hrow.
      rewrite length_replicate in Hrow. lia. }
    destruct (row_records w sst i row Hrow) as (rowPayload & Hin & Hidx & Hcells).
    rewrite Z.mod_small in Hidx by lia.
    exists rowPayload. split; [exact Hin|]. split; [exact Hidx|].
    intros j cell Hcell.
    destruct (Hcells j cell Hcell) as (recType & payload & Hc & _ & Hr & _).
    rewrite Z.mod_small in Hr by lia.
    exists recType, payload. split; [exact Hc | exact Hr]. }
  assert (0 <= 2 ^ 32) as Hn by (apply Z.pow_nonneg; lia).
  unfold big. rewrite (empty_rows_dimensions (2 ^ 32) "Sheet1" Hn).
  cbn [data]. rewrite (len_replicate (2 ^ 32) [] Hn).
  rewrite Z.mod_same by (apply Z.pow_nonzero; lia).
  split; [reflexivity|]. split; [reflexivity|]. discriminate.
Qed.

(** ** The empty table *)

(** C8. For the empty table, under any sheet name, [writeBIFF8] returns
    [nil].  Its stream is the records of the globals up to the SST, the
    BOUNDSHEET record, then the EOF of the globals and the worksheet records.
    The SST record holds total_count 0 and unique_count 0 and no string; the
    DIMENSIONS record holds last-row 0 and last-col 0 (fourteen zero bytes);
    the row-and-cell block is empty, and no record of the stream has the type
    of a ROW or of a cell record. *)
Theorem empty_table (name : string) :
  let w := {| data := []; sheetName := name |} in
  let sst := buildSST (data w) in
  let before := output writeGlobalsHead ++ output (writeSST sst) in
  let after := output writeEOF ++ output (writeWorksheet w sst) in
  let boundsheet :=
    boundSheetData
      (uint32 (worksheetOffsetOf w (len (output writeGlobalsHead))
                                 (len (output (writeSST sst))))) name in
  writeBIFF8 w [] = (before ++ recordBytes recTypeBOUNDSHEET boundsheet ++ after, Ok) /\
  totalCount sst = 0 /\
  uniqueCount sst = 0 /\
  sstData sst = Some [0; 0; 0; 0; 0; 0; 0; 0] /\
  dimensionsData w = [0; 0; 0; 0; 0; 0; 0; 0; 0; 0; 0; 0; 0; 0] /\
  Uint32 (dimensionsData w) 4 = 0 /\
  Uint16 (dimensionsData w) 10 = 0 /\
  output (writeRowsAndCells w sst) = [] /\
  exists globalsRecords worksheetRecords,
    records before = Some globalsRecords /\
    records after = Some worksheetRecords /\
    last globalsRecords = Some (recTypeSST, [0; 0; 0; 0; 0; 0; 0; 0]) /\
    In (recTypeDIMENSIONS, [0; 0; 0; 0; 0; 0; 0; 0; 0; 0; 0; 0; 0; 0])
       worksheetRecords /\
    Forall (fun r => r.1 ∉ rowAndCellTypes)
           (globalsRecords ++ [(recTypeBOUNDSHEET, boundsheet)] ++ worksheetRecords).
Proof.
  intros w sst before after boundsheet.
  split.
  { rewrite (writeBIFF8_run w). unfold writeBoundSheet.
    rewrite output_writeRecord. fold sst boundsheet.
    unfold before, after. by rewrite <- !app_assoc. }
  split; [reflexivity|]. split; [reflexivity|]. split; [reflexivity|].
  split; [reflexivity|]. split; [reflexivity|]. split; [reflexivity|].
  split; [reflexivity|].
  clearbody boundsheet.
  eexists _, _.
  split; [vm_compute; reflexivity|].
  split; [vm_compute; reflexivity|].
  split; [reflexivity|].
  split; [cbn; tauto|].
  apply (bool_decide_unpack _). vm_compute. exact I.
Qed.

(** The record types of the stream for the empty table under the default
    sheet name, walked by type, length and skip: no 0x0208 (ROW), 0x00FD,
    0x0203 or 0x0205 among them. *)
Example empty_default_records :
  map fst <$> records (output (writeBIFF8 New))
  = Some [0x0809; 0x00E1; 0x00C1; 0x00E2; 0x005C; 0x0042; 0x0161; 0x013D;
          0x009C; 0x0019; 0x0012; 0x0063; 0x0013; 0x01AF; 0x01BC; 0x0040;
          0x008D; 0x003D; 0x0022; 0x000E; 0x01B7; 0x00DA;
          0x0031; 0x0031; 0x0031; 0x0031; 0x0031; 0x0031; 0x0031;
          0x041E;
          0x00E0; 0x00E0; 0x00E0; 0x00E0; 0x00E0; 0x00E0; 0x00E0; 0x00E0;
          0x00E0; 0x00E0; 0x00E0; 0x00E0; 0x00E0; 0x00E0; 0x00E0; 0x00E0;
          0x00E0; 0x00E0;
          0x0293; 0x0160; 0x00FC; 0x0085; 0x000A;
          0x0809; 0x000D; 0x000C; 0x000F; 0x0011; 0x0010; 0x005F; 0x0080;
          0x0225; 0x0081; 0x0200; 0x002A; 0x002B; 0x0082; 0x001B; 0x001A;
          0x0014; 0x0015; 0x0083; 0x0084; 0x0026; 0x0027; 0x0028; 0x0029;
          0x00A1; 0x0012; 0x00DD; 0x0019; 0x0063; 0x0013; 0x023E; 0x000A].
Proof. vm_compute. reflexivity. Qed.

(** ** Scenarios of the specification *)

(** A sheet name given through the option: the BOUNDSHEET payload carries
    the character count 12, the Unicode flag 1 and 24 bytes of UTF-16LE. *)
Example boundsheet_product_list :
  (boundSheetData 0 "Product List") !! 6%nat = Some 12 /\
  (boundSheetData 0 "Product List") !! 7%nat = Some 1 /\
  length (drop 8 (boundSheetData 0 "Product List")) = 24%nat.
Proof. vm_compute. done. Qed.

(** A row of mixed types: one LABELSST, then NUMBER, NUMBER, BOOLERR,
    NUMBER, BOOLERR after its ROW record, all with row index 0. *)
Example mixed_row_records :
  option_map (map (fun r : Z * list Z => (r.1, Uint16 r.2 0, Uint16 r.2 2)))
    (records (output (writeRowsAndCells
                  {| data := [[VString "text"; VNumber 0x4045000000000000;
                               VNumber 0x40091EB851EB851F; VBool true;
                               VNumber 0xC024000000000000; VBool false]];
                     sheetName := "Sheet1" |}
                  (buildSST [[VString "text"]]))))
  = Some [(recTypeROW, 0, 0); (recTypeLABELSST, 0, 0); (recTypeNUMBER, 0, 1);
          (recTypeNUMBER, 0, 2); (recTypeBOOLERR, 0, 3); (recTypeNUMBER, 0, 4);
          (recTypeBOOLERR, 0, 5)].
Proof. vm_compute. reflexivity. Qed.

(** The default writer: the BOUNDSHEET offset field and the position of the
    worksheet BOF record are both 947. *)
Example boundsheet_offset_default :
  boundSheetOffsetField New = 947 /\ worksheetPosition New = 947 /\
  take 4 (drop 947 (output (writeBIFF8 New))) = [0x09; 0x08; 16; 0].
Proof. vm_compute. done. Qed.

(** The whole file for a small table: the signature first, 5632 bytes. *)
Example save_small_table :
  let out := SaveAs {| data := [[VString "Name"; VString "Age"];
                                [VString "Alice"; VNumber 0x403E000000000000]];
                       sheetName := "Sheet1" |} [] in
  out.2 = Ok /\ len out.1 = 5632 /\
  take 8 out.1 = [0xD0; 0xCF; 0x11; 0xE0; 0xA1; 0xB1; 0x1A; 0xE1].
Proof. vm_compute. done. Qed.

(* ================================================================== *)
(** * Further properties of the container *)

Lemma copy_into_zeroes (n : nat) (src : list Z) :
  (length src <= n)%nat ->
  copy (replicate n 0) 0 n src = src ++ replicate (n - length src) 0.
Proof.
  intros Hle. unfold copy.
  rewrite Nat.sub_0_r, Nat.min_r by lia.
  rewrite take_0, firstn_all, drop_replicate. reflexivity.
Qed.

Lemma uint32_mod x : uint32 x mod 2 ^ 32 = x mod 2 ^ 32.
Proof. unfold uint32. apply Z.mod_mod. lia. Qed.

Lemma dataSectorsOf_covers workbookData :
  len workbookData <= dataSizeOf workbookData
  /\ dataSizeOf workbookData <= dataSectorsOf workbookData * 512.
Proof.
  unfold dataSectorsOf, dataSizeOf, cfbSectorSize.
  destruct (Z.ltb_spec (len workbookData) 4096); split; try lia.
  - apply (Z.le_trans _ (512 * ((4096 + 512 - 1) / 512))); [done|lia].
  - pose proof (Z.mod_pos_bound (len workbookData + 512 - 1) 512 ltac:(lia)).
    pose proof (Z.div_mod (len workbookData + 512 - 1) 512 ltac:(lia)). lia.
Qed.

Lemma Uint32_app_r' (a b : list Z) :
  Uint32 (a ++ b) (length a) = Uint32 b 0.
Proof. rewrite <- (Uint32_app_r a b 0). f_equal. lia. Qed.

Lemma fits_mod bits v : 0 <= bits -> fits bits v = true -> v mod 2 ^ bits = v.
Proof.
  intros Hb H. unfold fits in H. apply andb_true_iff in H as [H0 H1].
  apply Z.leb_le in H0. apply Z.ltb_lt in H1. by apply Z.mod_small.
Qed.

Lemma le64_value v :
  (uint8 v + 2 ^ 8 * uint8 (Z.shiftr v 8) + 2 ^ 16 * uint8 (Z.shiftr v 16)
   + 2 ^ 24 * uint8 (Z.shiftr v 24))
  + 2 ^ 32 * (uint8 (Z.shiftr v 32) + 2 ^ 8 * uint8 (Z.shiftr (Z.shiftr v 32) 8)
              + 2 ^ 16 * uint8 (Z.shiftr (Z.shiftr v 32) 16)
              + 2 ^ 24 * uint8 (Z.shiftr (Z.shiftr v 32) 24))
  = v mod 2 ^ 64.
Proof.
  rewrite !le32_value, Z.shiftr_div_pow2 by lia.
  change (2 ^ 64) with (2 ^ 32 * 2 ^ 32).
  rewrite Z.rem_mul_r by lia. reflexivity.
Qed.

(** Reading back a table of 32-bit values stored one after the other. *)
Lemma Uint32s_image vs :
  forall pre,
    Uint32s (pre ++ (v ← vs; [uint8 v; uint8 (Z.shiftr v 8);
                                uint8 (Z.shiftr v 16); uint8 (Z.shiftr v 24)]))
            (length pre) (length vs)
    = (fun v => v mod 2 ^ 32) <$> vs.
Proof.
  unfold Uint32s.
  induction vs as [|v vs IH]; intros pre; [done|].
  cbn [length seq fmap list_fmap]. rewrite bind_cons. f_equal.
  - rewrite Nat.mul_0_r, Nat.add_0_r, Uint32_app_r'. apply le32_value.
  - rewrite <- seq_shift, <- list_fmap_compose.
    rewrite app_assoc.
    specialize (IH (pre ++ [uint8 v; uint8 (Z.shiftr v 8);
                             uint8 (Z.shiftr v 16); uint8 (Z.shiftr v 24)])).
    rewrite <- IH. apply list_fmap_ext. intros _ i _. simpl.
    f_equal. rewrite length_app. simpl. lia.
Qed.

Ltac split_typed H :=
  repeat (apply andb_true_iff in H;
          let H' := fresh "Hf" in destruct H as [H H']);
  repeat match goal with
         | H' : bool_decide _ = true |- _ => apply bool_decide_eq_true in H'
         end.

Ltac fixed_length l :=
  repeat (destruct l as [|? l]; [discriminate|]);
  destruct l; [|discriminate].

Ltac read_field :=
  lazymatch goal with
  | |- Uint16 _ _ = ?v =>
    transitivity (v mod 2 ^ 16);
    [rewrite <- le16_value; reflexivity | by apply fits_mod]
  | |- Uint32 _ _ = ?v =>
    transitivity (v mod 2 ^ 32);
    [rewrite <- le32_value; reflexivity | by apply fits_mod]
  end.

Lemma forallb_fits_mod (vs : list Z) :
  forallb (fits 32) vs = true -> (fun v => v mod 2 ^ 32) <$> vs = vs.
Proof.
  induction vs as [|v vs IH]; [done|].
  cbn [forallb]. intros H. apply andb_true_iff in H as [Hv Hvs].
  rewrite fmap_cons, IH by done. by rewrite (fits_mod 32) by (done || lia).
Qed.

(** X1. Writing a header and reading it back.  For every header whose
    fields have the sizes and ranges of their Go types, [CFBHeader.WriteTo]
    writes exactly 512 bytes, and reading these bytes field by field, at the
    offsets of the format, gives the header back: no field overwrites
    another one and the 109 DIFAT entries fill the sector to its end. *)
Theorem CFBHeader_round_trip (h : CFBHeader.t) (Htyped : headerTyped h = true) :
  length (CFBHeader.buffer h) = 512%nat /\
  readCFBHeader (CFBHeader.buffer h) = h.
Proof.
  split; [apply length_header_buffer|].
  destruct h as [sig clsid minor major order shift mini reserved total fats
                 fdir tsig cutoff fmini nmini fdifat ndifat difat].
  unfold headerTyped in Htyped. cbn [CFBHeader.Signature CFBHeader.CLSID
    CFBHeader.MinorVersion CFBHeader.MajorVersion CFBHeader.ByteOrder
    CFBHeader.SectorShift CFBHeader.MiniSectorShift CFBHeader.Reserved
    CFBHeader.TotalSectors CFBHeader.FATSectors CFBHeader.FirstDirSector
    CFBHeader.TransactionSig CFBHeader.MiniStreamCutoff
    CFBHeader.FirstMiniFATSector CFBHeader.MiniFATSectors
    CFBHeader.FirstDIFATSector CFBHeader.DIFATSectors CFBHeader.DIFAT] in Htyped.
  split_typed Htyped.
  fixed_length sig. fixed_length clsid. fixed_length reserved.
  unfold CFBHeader.buffer. cbn [CFBHeader.Signature CFBHeader.CLSID
    CFBHeader.MinorVersion CFBHeader.MajorVersion CFBHeader.ByteOrder
    CFBHeader.SectorShift CFBHeader.MiniSectorShift CFBHeader.Reserved
    CFBHeader.TotalSectors CFBHeader.FATSectors CFBHeader.FirstDirSector
    CFBHeader.TransactionSig CFBHeader.MiniStreamCutoff
    CFBHeader.FirstMiniFATSector CFBHeader.MiniFATSectors
    CFBHeader.FirstDIFATSector CFBHeader.DIFATSectors CFBHeader.DIFAT].
  cbv zeta.
  match goal with |- context [PutUint32s ?b 76 difat] => set (buf := b) end.
  set (pre := take 76 buf).
  assert (PutUint32s buf 76 difat
          = pre ++ (v ← difat; [uint8 v; uint8 (Z.shiftr v 8);
                                uint8 (Z.shiftr v 16); uint8 (Z.shiftr v 24)]))
    as ->.
  { rewrite <- (PutUint32s_zeroes difat pre). f_equal.
    match goal with H : length difat = _ |- _ => rewrite H end. reflexivity. }
  unfold readCFBHeader. f_equal; try reflexivity.
  all: try read_field.
  rewrite <- (forallb_fits_mod difat) at 2 by done.
  rewrite <- (Uint32s_image difat pre).
  match goal with H : length difat = _ |- _ => rewrite H end. reflexivity.
Qed.

Lemma CFBHeader_round_trip_witness :
  headerTyped NewCFBHeader = true /\
  readCFBHeader (CFBHeader.buffer NewCFBHeader) = NewCFBHeader.
Proof.
  assert (headerTyped NewCFBHeader = true) as H by reflexivity.
  split; [exact H|].
  apply (CFBHeader_round_trip NewCFBHeader H).
Defined.

Ltac read_field64 :=
  lazymatch goal with
  | |- Uint64 _ _ = ?v =>
    transitivity (v mod 2 ^ 64);
    [rewrite <- le64_value; reflexivity | by apply fits_mod]
  end.

(** X2. Writing a directory entry and reading it back.  For every entry
    whose fields have the sizes and ranges of their Go types,
    [CFBDirectoryEntry.WriteTo] fills exactly 128 bytes, and reading them
    field by field gives the entry back. *)
Theorem CFBDirectoryEntry_round_trip (e : CFBDirectoryEntry.t)
    (Htyped : entryTyped e = true) :
  length (CFBDirectoryEntry.buffer e) = 128%nat /\
  readCFBDirectoryEntry (CFBDirectoryEntry.buffer e) = e.
Proof.
  split; [apply length_entry_buffer|].
  destruct e as [name nlen otype color left right child clsid state ctime
                 mtime start size].
  unfold entryTyped in Htyped. cbn [CFBDirectoryEntry.Name
    CFBDirectoryEntry.NameLength CFBDirectoryEntry.ObjectType
    CFBDirectoryEntry.ColorFlag CFBDirectoryEntry.LeftSiblingDID
    CFBDirectoryEntry.RightSiblingDID CFBDirectoryEntry.ChildDID
    CFBDirectoryEntry.CLSID CFBDirectoryEntry.StateBits
    CFBDirectoryEntry.CreationTime CFBDirectoryEntry.ModifiedTime
    CFBDirectoryEntry.StartSector CFBDirectoryEntry.StreamSize] in Htyped.
  split_typed Htyped.
  fixed_length name. fixed_length clsid.
  unfold readCFBDirectoryEntry. f_equal; try reflexivity.
  all: first [read_field | read_field64].
Qed.

Lemma CFBDirectoryEntry_round_trip_witness :
  let e :=
    {| CFBDirectoryEntry.Name := entryName (stringToUTF16LE "Workbook");
       CFBDirectoryEntry.NameLength := 18;
       CFBDirectoryEntry.ObjectType := 2;
       CFBDirectoryEntry.ColorFlag := 1;
       CFBDirectoryEntry.LeftSiblingDID := cfbFreeSector;
       CFBDirectoryEntry.RightSiblingDID := cfbFreeSector;
       CFBDirectoryEntry.ChildDID := cfbFreeSector;
       CFBDirectoryEntry.CLSID := make 16;
       CFBDirectoryEntry.StateBits := 0;
       CFBDirectoryEntry.CreationTime := 0;
       CFBDirectoryEntry.ModifiedTime := 0;
       CFBDirectoryEntry.StartSector := 0;
       CFBDirectoryEntry.StreamSize := 4096 |} in
  entryTyped e = true /\
  readCFBDirectoryEntry (CFBDirectoryEntry.buffer e) = e.
Proof.
  intros e.
  assert (entryTyped e = true) as H by reflexivity.
  split; [exact H|].
  apply (CFBDirectoryEntry_round_trip e H).
Defined.

Lemma Uint32s_cons b off n :
  Uint32s b off (S n) = Uint32 b off :: Uint32s b (off + 4) n.
Proof.
  unfold Uint32s. cbn [seq fmap list_fmap]. f_equal; [f_equal; lia|].
  rewrite <- seq_shift, <- list_fmap_compose. apply list_fmap_ext.
  intros _ i _. simpl. f_equal. lia.
Qed.

(** The header [WriteCFB] writes, read back. *)
Lemma WriteCFB_header_read dataSectors :
  readCFBHeader
    (CFBHeader.buffer
       (CFBHeader.mk
          (CFBHeader.Signature NewCFBHeader) (CFBHeader.CLSID NewCFBHeader)
          (CFBHeader.MinorVersion NewCFBHeader) (CFBHeader.MajorVersion NewCFBHeader)
          (CFBHeader.ByteOrder NewCFBHeader) (CFBHeader.SectorShift NewCFBHeader)
          (CFBHeader.MiniSectorShift NewCFBHeader) (CFBHeader.Reserved NewCFBHeader)
          (CFBHeader.TotalSectors NewCFBHeader)
          1
          (uint32 (dataSectors + 1))
          (CFBHeader.TransactionSig NewCFBHeader)
          (CFBHeader.MiniStreamCutoff NewCFBHeader)
          (CFBHeader.FirstMiniFATSector NewCFBHeader)
          (CFBHeader.MiniFATSectors NewCFBHeader)
          (CFBHeader.FirstDIFATSector NewCFBHeader)
          (CFBHeader.DIFATSectors NewCFBHeader)
          (<[0%nat := uint32 dataSectors]> (CFBHeader.DIFAT NewCFBHeader))))
  = containerHeader dataSectors.
Proof.
  match goal with |- readCFBHeader ?b = _ =>
    let v := eval cbv -[uint8 uint32 Z.shiftr Z.add] in b in change b with v
  end.
  unfold readCFBHeader, containerHeader. f_equal; try reflexivity.
  - transitivity (uint32 (dataSectors + 1) mod 2 ^ 32);
      [rewrite <- le32_value; reflexivity | apply uint32_mod].
  - rewrite Uint32s_cons. f_equal; try reflexivity.
    transitivity (uint32 dataSectors mod 2 ^ 32);
      [rewrite <- le32_value; reflexivity | apply uint32_mod].
Qed.

(** What [WriteCFB] appends, in both of the ways it ends: a header that reads
    back as [containerHeader], the workbook filled up with zeros to whole
    sectors, and, unless filling the FAT panics, the FAT sector and the
    directory sector. *)
Lemma WriteCFB_anatomy workbookData :
  exists hdr,
    len hdr = 512 /\
    readCFBHeader hdr = containerHeader (dataSectorsOf workbookData) /\
    forall w,
      WriteCFB workbookData w
      = match buildFAT (dataSectorsOf workbookData) with
        | Some fat =>
          (w ++ hdr
             ++ (workbookData
                   ++ replicate (Z.to_nat (dataSectorsOf workbookData * 512
                                           - len workbookData)) 0)
             ++ PutUint32s (make cfbSectorSize) 0 fat
             ++ directorySector (dataSizeOf workbookData), Ok)
        | None =>
          (w ++ hdr
             ++ (workbookData
                   ++ replicate (Z.to_nat (dataSectorsOf workbookData * 512
                                           - len workbookData)) 0), Panic)
        end.
Proof.
  unfold WriteCFB. cbv zeta.
  match goal with |- context [CFBHeader.WriteTo ?h] => set (header := h) end.
  exists (CFBHeader.buffer header).
  split; [unfold len; by rewrite length_header_buffer|].
  split; [apply WriteCFB_header_read|].
  assert (copy (make (dataSectorsOf workbookData * cfbSectorSize)) 0
            (length (make (dataSectorsOf workbookData * cfbSectorSize)))
            workbookData
          = workbookData
              ++ replicate (Z.to_nat (dataSectorsOf workbookData * 512
                                      - len workbookData)) 0) as ->.
  { rewrite length_make. unfold make.
    pose proof (dataSectorsOf_covers workbookData) as Hc.
    unfold cfbSectorSize, len in *.
    rewrite copy_into_zeroes by lia. do 2 f_equal. lia. }
  intros w. unfold andThen, CFBHeader.WriteTo, Write, raise.
  destruct (buildFAT (dataSectorsOf workbookData)) as [fat|].
  - by rewrite <- !app_assoc.
  - by rewrite <- !app_assoc.
Qed.



(** The four entries of the directory sector, read back. *)
Lemma directorySector_read dataSize :
  0 <= dataSize < 2 ^ 64 ->
  readCFBDirectoryEntry (take 128 (directorySector dataSize)) = rootEntry /\
  readCFBDirectoryEntry (take 128 (drop 128 (directorySector dataSize)))
  = workbookEntry dataSize /\
  readCFBDirectoryEntry (take 128 (drop 256 (directorySector dataSize)))
  = unusedEntry /\
  readCFBDirectoryEntry (take 128 (drop 384 (directorySector dataSize)))
  = unusedEntry.
Proof.
  intros Hsize.
  split; [reflexivity|]. split; [|split; reflexivity].
  unfold readCFBDirectoryEntry, workbookEntry. f_equal; try reflexivity.
  transitivity (uint64 dataSize mod 2 ^ 64).
  - rewrite <- le64_value. reflexivity.
  - unfold uint64. rewrite Z.mod_mod by lia. apply Z.mod_small. lia.
Qed.

(** The sectors of a file laid out as header, data, FAT, directory. *)
Lemma sectorOf_data hdr (padded rest : list Z) (i : nat) :
  length hdr = 512%nat -> (512 * (i + 1) <= length padded)%nat ->
  sectorOf (hdr ++ padded ++ rest) (Z.of_nat i) = take 512 (drop (512 * i) padded).
Proof.
  intros Hh Hp. unfold sectorOf, cfbHeaderSize, cfbSectorSize.
  replace (Z.to_nat (512 + Z.of_nat i * 512)) with (length hdr + 512 * i)%nat by lia.
  rewrite drop_app_add', drop_app_le by lia.
  rewrite take_app_le by (rewrite length_drop; lia). reflexivity.
Qed.

Lemma sectorOf_after hdr (padded sector rest : list Z) (n : Z) :
  length hdr = 512%nat -> Z.of_nat (length padded) = n * 512 ->
  length sector = 512%nat ->
  sectorOf (hdr ++ padded ++ sector ++ rest) n = sector.
Proof.
  intros Hh Hp Hs. unfold sectorOf, cfbHeaderSize, cfbSectorSize.
  replace (Z.to_nat (512 + n * 512)) with (length hdr + length padded)%nat by lia.
  rewrite drop_app_add', drop_app_length by lia.
  by rewrite take_app_length'.
Qed.

(** Cutting a list of whole sectors into its sectors and joining them again. *)
Lemma sectors_join hdr rest (n : nat) :
  forall (padded : list Z) (k : nat),
    length hdr = 512%nat ->
    (length padded = 512 * (k + n))%nat ->
    (Z.of_nat <$> seq k n) ≫= sectorOf (hdr ++ padded ++ rest)
    = drop (512 * k) padded.
Proof.
  induction n as [|n IH]; intros padded k Hh Hp.
  - simpl. symmetry. apply drop_ge. lia.
  - cbn [seq fmap list_fmap]. rewrite bind_cons.
    rewrite sectorOf_data by lia.
    rewrite IH by lia.
    rewrite <- (take_drop 512 (drop (512 * k) padded)) at 2.
    f_equal. rewrite drop_drop. f_equal. lia.
Qed.

(** The chain of the data sectors in the table [WriteCFB] builds. *)
Lemma chainOf_data fat dataSectors :
  dataSectors <= 126 ->
  (forall i, 0 <= i < dataSectors - 1 -> fat !! Z.to_nat i = Some (i + 1)) ->
  fat !! Z.to_nat (dataSectors - 1) = Some cfbEndOfChain ->
  forall (n k fuel : nat),
    Z.of_nat (k + n) = dataSectors - 1 -> (n + 2 <= fuel)%nat ->
    chainOf fuel fat (Z.of_nat k) = Some (Z.of_nat <$> seq k (S n)).
Proof.
  intros Hds Hnext Hlast.
  induction n as [|n IH]; intros k fuel Hk Hfuel.
  - destruct fuel as [|[|fuel]]; [lia|lia|].
    cbn [chainOf]. rewrite decide_False by (unfold cfbEndOfChain; lia).
    replace (Z.to_nat (Z.of_nat k)) with (Z.to_nat (dataSectors - 1)) by lia.
    rewrite Hlast. reflexivity.
  - destruct fuel as [|fuel]; [lia|].
    cbn [chainOf]. rewrite decide_False by (unfold cfbEndOfChain; lia).
    rewrite Hnext by lia. simpl.
    replace (Z.of_nat k + 1) with (Z.of_nat (S k)) by lia.
    rewrite (IH (S k) fuel) by lia. reflexivity.
Qed.

(** Every entry of that table is a 32-bit value, so the FAT sector reads back
    as the table. *)
Lemma buildFAT_fits dataSectors fat :
  1 <= dataSectors <= 126 -> buildFAT dataSectors = Some fat ->
  length fat = 128%nat /\ forallb (fits 32) fat = true.
Proof.
  intros Hds Hfat.
  destruct (buildFAT_spec dataSectors Hds)
    as (fat' & Hfat' & Hl & H1 & H2 & H3 & H4 & H5).
  assert (fat' = fat) as -> by congruence.
  split; [exact Hl|].
  apply forallb_forall. intros v Hv.
  apply list_elem_of_In, list_elem_of_lookup in Hv as [k Hk].
  assert (k < 128)%nat as Hlt by (apply lookup_lt_Some in Hk; lia).
  assert (v = Z.of_nat k + 1 /\ Z.of_nat k < dataSectors - 1
          \/ v = cfbEndOfChain \/ v = cfbFATSector \/ v = cfbFreeSector) as Hcase.
  { destruct (decide (Z.of_nat k < dataSectors - 1)).
    { left. specialize (H1 (Z.of_nat k)). rewrite Nat2Z.id in H1.
      rewrite H1 in Hk by lia. split; [congruence|lia]. }
    destruct (decide (Z.of_nat k = dataSectors - 1)).
    { right. left. replace (Z.to_nat (dataSectors - 1)) with k in H2 by lia.
      congruence. }
    destruct (decide (Z.of_nat k = dataSectors)).
    { right. right. left. replace (Z.to_nat dataSectors) with k in H3 by lia.
      congruence. }
    destruct (decide (Z.of_nat k = dataSectors + 1)).
    { right. left. replace (Z.to_nat (dataSectors + 1)) with k in H4 by lia.
      congruence. }
    right. right. right. specialize (H5 (Z.of_nat k)). rewrite Nat2Z.id in H5.
    rewrite H5 in Hk by lia. congruence. }
  unfold fits. apply andb_true_iff.
  destruct Hcase as [ [ -> ? ] | [ -> | [ -> | -> ] ] ];
    (split; [apply Z.leb_le | apply Z.ltb_lt]);
    unfold cfbEndOfChain, cfbFATSector, cfbFreeSector; lia.
Qed.

Lemma fatBuf_read fat :
  length fat = 128%nat -> forallb (fits 32) fat = true ->
  Uint32s (PutUint32s (make cfbSectorSize) 0 fat) 0 128 = fat.
Proof.
  intros Hl Hfits. rewrite fatBuf_image by done.
  rewrite <- (forallb_fits_mod fat) at 2 by done.
  rewrite <- (Uint32s_image fat []). by rewrite Hl.
Qed.

(** The file [WriteCFB] leaves for a workbook that fits, and for one that
    does not. *)
Lemma cfbOutput_fits workbookData :
  len workbookData <= 64512 ->
  exists hdr fat,
    length hdr = 512%nat /\
    readCFBHeader hdr = containerHeader (dataSectorsOf workbookData) /\
    buildFAT (dataSectorsOf workbookData) = Some fat /\
    cfbOutcome workbookData = Ok /\
    cfbOutput workbookData
    = hdr ++ (workbookData
                ++ replicate (Z.to_nat (dataSectorsOf workbookData * 512
                                        - len workbookData)) 0)
          ++ PutUint32s (make cfbSectorSize) 0 fat
          ++ directorySector (dataSizeOf workbookData).
Proof.
  intros Hfits.
  pose proof (dataSectorsOf_ge workbookData) as Hge.
  pose proof (dataSectorsOf_fits workbookData Hfits) as Hle.
  destruct (buildFAT_spec (dataSectorsOf workbookData)) as (fat & Hfat & _);
    [lia|].
  destruct (WriteCFB_anatomy workbookData) as (hdr & Hh & Hread & Hrun).
  exists hdr, fat. split; [unfold len in Hh; lia|]. split; [exact Hread|].
  split; [exact Hfat|].
  unfold cfbOutcome, cfbOutput. rewrite (Hrun []), Hfat.
  split; [reflexivity | apply app_nil_l].
Qed.

Lemma cfbOutput_large workbookData :
  64512 < len workbookData ->
  exists hdr,
    length hdr = 512%nat /\
    readCFBHeader hdr = containerHeader (dataSectorsOf workbookData) /\
    cfbOutcome workbookData = Panic /\
    cfbOutput workbookData
    = hdr ++ (workbookData
                ++ replicate (Z.to_nat (dataSectorsOf workbookData * 512
                                        - len workbookData)) 0).
Proof.
  intros Hlarge.
  pose proof (buildFAT_panics _ (dataSectorsOf_large workbookData Hlarge)) as Hfat.
  destruct (WriteCFB_anatomy workbookData) as (hdr & Hh & Hread & Hrun).
  exists hdr. split; [unfold len in Hh; lia|]. split; [exact Hread|].
  unfold cfbOutcome, cfbOutput. rewrite (Hrun []), Hfat.
  split; [reflexivity | apply app_nil_l].
Qed.

Lemma length_padded workbookData :
  length (workbookData
            ++ replicate (Z.to_nat (dataSectorsOf workbookData * 512
                                    - len workbookData)) 0)
  = Z.to_nat (512 * dataSectorsOf workbookData).
Proof.
  pose proof (dataSectorsOf_covers workbookData) as Hc.
  rewrite length_app, length_replicate. unfold len in *. lia.
Qed.

(** X3. [WriteCFB] returns [nil] exactly for the workbooks of at most 64512
    bytes; for every longer one it panics, after the header and the padded
    data have been written and before any FAT or directory sector.  It never
    returns an error. *)
Theorem WriteCFB_outcome (workbookData : list Z) :
  let dataSectors := (Z.max (len workbookData) 4096 + 511) / 512 in
  cfbOutcome workbookData
  = (if decide (len workbookData <= 64512) then Ok else Panic) /\
  len (cfbOutput workbookData)
  = 512 * (dataSectors + (if decide (len workbookData <= 64512) then 3 else 1)).
Proof.
  intros dataSectors. unfold dataSectors. rewrite <- dataSectorsOf_max.
  pose proof (dataSectorsOf_ge workbookData) as Hge.
  destruct (decide (len workbookData <= 64512)) as [Hfits|Hlarge].
  - destruct (cfbOutput_fits workbookData Hfits)
      as (hdr & fat & Hh & _ & _ & Hok & Hout).
    split; [exact Hok|]. rewrite Hout.
    rewrite (len_app hdr), (len_app (_ ++ _)), (len_app (PutUint32s _ _ _)).
    rewrite len_fatBuf, len_directorySector.
    unfold len. rewrite Hh, length_padded. lia.
  - destruct (cfbOutput_large workbookData ltac:(lia))
      as (hdr & Hh & _ & Hpanic & Hout).
    split; [exact Hpanic|]. rewrite Hout. unfold len.
    rewrite length_app, Hh, length_padded. lia.
Qed.

(** X4. The first 512 bytes of the output of [WriteCFB], read back as a
    header, are the constants of [NewCFBHeader] with one FAT sector, the FAT
    in sector [data_sectors] (first DIFAT entry, the other 108 free) and the
    directory in sector [data_sectors + 1]; this holds for every workbook,
    also when [WriteCFB] panics later. *)
Theorem WriteCFB_header (workbookData : list Z) :
  let dataSectors := (Z.max (len workbookData) 4096 + 511) / 512 in
  readCFBHeader (take 512 (cfbOutput workbookData)) = containerHeader dataSectors.
Proof.
  intros dataSectors. unfold dataSectors. rewrite <- dataSectorsOf_max.
  destruct (decide (len workbookData <= 64512)) as [Hfits|Hlarge].
  - destruct (cfbOutput_fits workbookData Hfits)
      as (hdr & fat & Hh & Hread & _ & _ & Hout).
    rewrite Hout, take_app_length' by done. exact Hread.
  - destruct (cfbOutput_large workbookData ltac:(lia))
      as (hdr & Hh & Hread & _ & Hout).
    rewrite Hout, take_app_length' by done. exact Hread.
Qed.

(** X5. The data sectors, the [512 * data_sectors] bytes after the header,
    hold the workbook followed by zero bytes only: [WriteCFB] pads, it never
    truncates or alters the stream. *)
Theorem WriteCFB_data (workbookData : list Z) :
  let dataSectors := (Z.max (len workbookData) 4096 + 511) / 512 in
  take (Z.to_nat (512 * dataSectors)) (drop 512 (cfbOutput workbookData))
  = workbookData
      ++ replicate (Z.to_nat (512 * dataSectors - len workbookData)) 0.
Proof.
  intros dataSectors. unfold dataSectors. rewrite <- dataSectorsOf_max.
  replace (512 * dataSectorsOf workbookData - len workbookData)
    with (dataSectorsOf workbookData * 512 - len workbookData) by lia.
  destruct (decide (len workbookData <= 64512)) as [Hfits|Hlarge].
  - destruct (cfbOutput_fits workbookData Hfits)
      as (hdr & fat & Hh & _ & _ & _ & Hout).
    rewrite Hout, drop_app_length' by done.
    by rewrite take_app_length' by (symmetry; apply length_padded).
  - destruct (cfbOutput_large workbookData ltac:(lia))
      as (hdr & Hh & _ & _ & Hout).
    rewrite Hout, drop_app_length' by done.
    apply take_ge. rewrite length_padded. lia.
Qed.

(** X6. For a workbook of at most 64512 bytes the last sector of the file,
    sector [data_sectors + 1], is the directory: four entries of 128 bytes,
    the root storage "Root Entry" whose child is entry 1, the stream
    "Workbook" that starts in sector 0 and whose size is
    [max(len, 4096)], and two unused entries. *)
Theorem WriteCFB_directory (workbookData : list Z)
    (Hfits : len workbookData <= 64512) :
  let dataSectors := (Z.max (len workbookData) 4096 + 511) / 512 in
  let dir := sectorOf (cfbOutput workbookData) (dataSectors + 1) in
  dir = drop (Z.to_nat (512 * (dataSectors + 2))) (cfbOutput workbookData) /\
  length dir = 512%nat /\
  readCFBDirectoryEntry (take 128 dir) = rootEntry /\
  readCFBDirectoryEntry (take 128 (drop 128 dir))
  = workbookEntry (Z.max (len workbookData) 4096) /\
  readCFBDirectoryEntry (take 128 (drop 256 dir)) = unusedEntry /\
  readCFBDirectoryEntry (take 128 (drop 384 dir)) = unusedEntry.
Proof.
  intros dataSectors dir. unfold dir, dataSectors. clear dir dataSectors.
  rewrite <- dataSectorsOf_max.
  pose proof (dataSectorsOf_ge workbookData) as Hge.
  destruct (cfbOutput_fits workbookData Hfits)
    as (hdr & fat & Hh & _ & _ & _ & Hout).
  pose proof (length_padded workbookData) as Hp.
  assert (dataSizeOf workbookData = Z.max (len workbookData) 4096) as Hsize.
  { unfold dataSizeOf. destruct (Z.ltb_spec (len workbookData) 4096); lia. }
  assert (sectorOf (cfbOutput workbookData) (dataSectorsOf workbookData + 1)
          = directorySector (dataSizeOf workbookData)) as ->.
  { rewrite Hout. rewrite (app_assoc _ (PutUint32s _ _ _)).
    rewrite <- (app_nil_r (directorySector _)) at 1.
    apply sectorOf_after; [done| |apply length_directorySector].
    rewrite length_app, length_fatBuf, Hp. lia. }
  split.
  { rewrite Hout, !app_assoc. symmetry. apply drop_app_length'.
    rewrite length_app in Hp.
    rewrite !length_app, Hh, length_fatBuf. lia. }
  split; [apply length_directorySector|].
  rewrite <- Hsize. apply directorySector_read.
  pose proof (len_nonneg workbookData). lia.
Qed.

Lemma WriteCFB_directory_witness :
  len [1; 2; 3] <= 64512 /\
  readCFBDirectoryEntry
    (take 128 (drop 128 (sectorOf (cfbOutput [1; 2; 3]) (8 + 1))))
  = workbookEntry 4096.
Proof.
  assert (len [1; 2; 3] <= 64512) as H by (vm_compute; discriminate).
  split; [exact H|].
  apply (WriteCFB_directory [1; 2; 3] H).
Defined.

(** Reading the file back the way a reader of the format does. *)
Lemma readStream_fits (workbookData : list Z) :
  len workbookData <= 64512 ->
  readStream (cfbOutput workbookData) "Workbook"
  = Some (workbookData
            ++ replicate (Z.to_nat (Z.max (len workbookData) 4096
                                    - len workbookData)) 0).
Proof.
  intros Hfits.
  pose proof (dataSectorsOf_ge workbookData) as Hge.
  pose proof (dataSectorsOf_fits workbookData Hfits) as Hle.
  pose proof (dataSectorsOf_covers workbookData) as [Hc1 Hc2].
  pose proof (len_nonneg workbookData) as Hnn.
  destruct (cfbOutput_fits workbookData Hfits)
    as (hdr & fat & Hh & Hread & Hfat & _ & Hout).
  pose proof (length_padded workbookData) as Hp.
  destruct (buildFAT_fits (dataSectorsOf workbookData) fat ltac:(lia) Hfat)
    as [Hl Hfits32].
  destruct (buildFAT_spec (dataSectorsOf workbookData) ltac:(lia))
    as (fat' & Hfat' & _ & Hnext & Hlast & _).
  assert (fat' = fat) as -> by congruence.
  assert (dataSizeOf workbookData = Z.max (len workbookData) 4096) as Hsize.
  { unfold dataSizeOf. destruct (Z.ltb_spec (len workbookData) 4096); lia. }
  set (padded := workbookData
                   ++ replicate (Z.to_nat (dataSectorsOf workbookData * 512
                                           - len workbookData)) 0) in *.
  set (fatBuf := PutUint32s (make cfbSectorSize) 0 fat) in *.
  set (dir := directorySector (dataSizeOf workbookData)) in *.
  assert (sectorOf (cfbOutput workbookData) (dataSectorsOf workbookData) = fatBuf)
    as Hsfat.
  { rewrite Hout. apply sectorOf_after; [done|lia|apply length_fatBuf]. }
  assert (sectorOf (cfbOutput workbookData) (dataSectorsOf workbookData + 1) = dir)
    as Hsdir.
  { rewrite Hout. rewrite (app_assoc padded fatBuf).
    rewrite <- (app_nil_r dir) at 1.
    apply sectorOf_after; [done| |apply length_directorySector].
    rewrite length_app. unfold fatBuf. rewrite length_fatBuf. lia. }
  destruct (directorySector_read (dataSizeOf workbookData) ltac:(lia))
    as (Hroot & Hwb & _).
  fold dir in Hroot, Hwb.
  assert (readCFBHeader (take 512 (cfbOutput workbookData))
          = containerHeader (dataSectorsOf workbookData)) as Hhdr.
  { rewrite Hout, take_app_length' by done. exact Hread. }
  unfold readStream. rewrite Hhdr.
  cbn [CFBHeader.DIFAT CFBHeader.FirstDirSector containerHeader lookup
       list_lookup mbind option_bind].
  rewrite !Z.mod_small by lia.
  rewrite Hsfat, Hsdir. unfold fatBuf. rewrite fatBuf_read by done.
  rewrite Hroot.
  change (Z.to_nat (CFBDirectoryEntry.ChildDID rootEntry)) with 1%nat.
  change (128 * 1)%nat with 128%nat. rewrite Hwb.
  rewrite decide_True by reflexivity.
  cbn [CFBDirectoryEntry.StartSector CFBDirectoryEntry.StreamSize workbookEntry].
  pose proof (chainOf_data fat (dataSectorsOf workbookData) Hle Hnext Hlast
                (Z.to_nat (dataSectorsOf workbookData - 1)) 0 129
                ltac:(lia) ltac:(lia)) as Hchain.
  change (Z.of_nat 0) with 0 in Hchain. rewrite Hchain.
  cbn [mbind option_bind]. f_equal.
  rewrite Hout, (sectors_join hdr _ _ padded 0) by lia.
  rewrite Nat.mul_0_r, drop_0. unfold padded. rewrite <- Hsize.
  unfold len in *.
  rewrite take_app_ge by lia. f_equal.
  rewrite take_replicate. f_equal. lia.
Qed.

(** X7. Reading the file back.  For a workbook of at most 64512 bytes, a
    reader that goes from the header to the FAT sector and the directory,
    from the root entry to its child "Workbook", and along the FAT chain of
    that stream, gets the workbook back, filled up with zero bytes to 4096
    bytes when it was shorter, so unchanged when it has 4096 bytes or
    more. *)
Theorem readStream_WriteCFB (workbookData : list Z)
    (Hfits : len workbookData <= 64512) :
  readStream (cfbOutput workbookData) "Workbook"
  = Some (workbookData
            ++ replicate (Z.to_nat (Z.max (len workbookData) 4096
                                    - len workbookData)) 0) /\
  (4096 <= len workbookData ->
   readStream (cfbOutput workbookData) "Workbook" = Some workbookData).
Proof.
  split; [by apply readStream_fits|].
  intros Hlong. rewrite readStream_fits by done.
  replace (Z.max (len workbookData) 4096 - len workbookData) with 0 by lia.
  by rewrite app_nil_r.
Qed.

Lemma readStream_WriteCFB_witness :
  len [1; 2; 3] <= 64512 /\
  readStream (cfbOutput [1; 2; 3]) "Workbook" = Some ([1; 2; 3] ++ replicate 4093 0).
Proof.
  assert (len [1; 2; 3] <= 64512) as H by (vm_compute; discriminate).
  split; [exact H|].
  apply (readStream_WriteCFB [1; 2; 3] H).
Defined.

(* ================================================================== *)
(** * Further properties of the stream *)

Lemma Uint16_app_l (a b : list Z) (k : nat) :
  (k + 1 < length a)%nat -> Uint16 (a ++ b) k = Uint16 a k.
Proof.
  intros Hk. unfold Uint16. by rewrite !lookup_total_app_l by lia.
Qed.

Lemma length_recordBytes recType data :
  length (recordBytes recType data) = (4 + length data)%nat.
Proof. reflexivity. Qed.

Lemma framedRecord_spec t d :
  framedRecord (t, d) = true -> t mod 2 ^ 16 = t /\ len d mod 2 ^ 16 = len d.
Proof.
  unfold framedRecord. cbn [fst snd]. intros H.
  apply andb_true_iff in H as [Ht Hd]. apply Z.ltb_lt in Hd.
  split; [by apply fits_mod|].
  apply Z.mod_small. pose proof (len_nonneg d). lia.
Qed.

(** Walking the bytes of well-framed records gives the records back. *)
Lemma walkRecords_recordsBytes recs :
  forallb framedRecord recs = true ->
  forall fuel, (length (recordsBytes recs) <= fuel)%nat ->
    walkRecords fuel (recordsBytes recs) = Some recs.
Proof.
  induction recs as [|[t d] recs IH]; intros Hframed fuel Hfuel; [by destruct fuel|].
  cbn [forallb] in Hframed. apply andb_true_iff in Hframed as [Hr Hrecs].
  destruct (framedRecord_spec t d Hr) as [Ht Hd].
  unfold recordsBytes in *. rewrite bind_cons in *. cbn [fst snd] in *.
  rewrite length_app, length_recordBytes in Hfuel.
  destruct fuel as [|fuel]; [lia|].
  set (b := recordBytes t d ++ (recs ≫= λ r, recordBytes r.1 r.2)).
  assert (walkRecords (S fuel) b
          = let n := Z.to_nat (Uint16 b 2) in
            if decide (4 + n <= length b)%nat then
              rest ← walkRecords fuel (drop (4 + n) b);
              Some ((Uint16 b 0, take n (drop 4 b)) :: rest)
            else None) as -> by reflexivity.
  cbv zeta.
  assert (Uint16 b 2 = len d) as ->.
  { unfold b. rewrite Uint16_app_l by (rewrite (length_recordBytes t d); lia).
    by rewrite recordBytes_length. }
  assert (Uint16 b 0 = t) as ->.
  { unfold b. rewrite Uint16_app_l by (rewrite (length_recordBytes t d); lia).
    by rewrite recordBytes_type. }
  unfold len. rewrite Nat2Z.id.
  rewrite decide_True
    by (unfold b; rewrite length_app, (length_recordBytes t d); lia).
  assert (drop (4 + length d) b = recs ≫= λ r, recordBytes r.1 r.2) as ->.
  { unfold b. by rewrite drop_app_length' by apply (length_recordBytes t d). }
  assert (take (length d) (drop 4 b) = d) as ->.
  { unfold b, recordBytes. rewrite <- app_assoc.
    rewrite drop_app_length' by reflexivity. by rewrite take_app_length. }
  rewrite IH by (done || lia). reflexivity.
Qed.

Lemma records_recordsBytes recs :
  forallb framedRecord recs = true -> records (recordsBytes recs) = Some recs.
Proof. intros H. by apply walkRecords_recordsBytes. Qed.

Lemma writeRecords_run recs :
  forall w, writeRecords recs w = (w ++ recordsBytes recs, Ok).
Proof.
  induction recs as [|[t d] recs IH]; intros w.
  - unfold writeRecords, recordsBytes, skip. simpl. by rewrite app_nil_r.
  - unfold writeRecords. cbn [foldr fst snd].
    rewrite andThen_appends by apply appends_writeRecord.
    fold (writeRecords recs). rewrite IH, output_writeRecord.
    unfold recordsBytes. rewrite bind_cons. by rewrite <- app_assoc.
Qed.

(** X8. A sequence of [writeRecord] calls can be read back.  For every list
    of records whose types and payload lengths fit their 16-bit fields,
    writing them one after the other returns [nil], and walking the bytes
    record by record (type, length, payload, next header) gives exactly the
    records that were written, types and payloads, with nothing left over. *)
Theorem records_round_trip (recs : list (Z * list Z))
    (Hframed : forallb framedRecord recs = true) :
  writeRecords recs [] = (recordsBytes recs, Ok) /\
  records (recordsBytes recs) = Some recs.
Proof.
  split.
  - rewrite writeRecords_run. f_equal.
  - by apply records_recordsBytes.
Qed.

Lemma records_round_trip_witness :
  forallb framedRecord [(recTypeBOF, [0; 6; 5; 0]); (recTypeEOF, [])] = true /\
  records (recordsBytes [(recTypeBOF, [0; 6; 5; 0]); (recTypeEOF, [])])
  = Some [(recTypeBOF, [0; 6; 5; 0]); (recTypeEOF, [])].
Proof.
  assert (forallb framedRecord [(recTypeBOF, [0; 6; 5; 0]); (recTypeEOF, [])] = true)
    as H by reflexivity.
  split; [exact H|].
  apply (records_round_trip _ H).
Defined.

(** ** The records of the stream *)

Lemma recordsBytes_app l k : recordsBytes (l ++ k) = recordsBytes l ++ recordsBytes k.
Proof. unfold recordsBytes. apply bind_app. Qed.

Lemma holds_nil : holds [] [].
Proof. by exists []. Qed.

Lemma holds_app a b ta tb : holds a ta -> holds b tb -> holds (a ++ b) (ta ++ tb).
Proof.
  intros (ra & -> & <- & Ha) (rb & -> & <- & Hb). exists (ra ++ rb).
  split; [by rewrite recordsBytes_app|]. split; [by rewrite fmap_app|].
  rewrite forallb_app. by rewrite Ha, Hb.
Qed.

Lemma holds_record t d :
  framedRecord (t, d) = true -> holds (recordBytes t d) [t].
Proof.
  intros H. exists [(t, d)]. split.
  - unfold recordsBytes. rewrite bind_cons. simpl. by rewrite app_nil_r.
  - split; [done|]. simpl. by rewrite H.
Qed.

Lemma emits_skip : emits skip [].
Proof. split; [apply appends_skip | apply holds_nil]. Qed.

Lemma emits_andThen a b ta tb :
  emits a ta -> emits b tb -> emits (a >>> b) (ta ++ tb).
Proof.
  intros [Ha Hta] [Hb Htb]. split; [by apply appends_andThen|].
  rewrite output_andThen by done. by apply holds_app.
Qed.

Lemma emits_writeRecord t d :
  framedRecord (t, d) = true -> emits (writeRecord t d) [t].
Proof.
  intros H. split; [apply appends_writeRecord|].
  rewrite output_writeRecord. by apply holds_record.
Qed.

Lemma emits_times n a ta :
  emits a ta -> emits (times n a) (concat (replicate n ta)).
Proof.
  intros Ha. induction n as [|n IH]; simpl.
  - apply emits_skip.
  - by apply emits_andThen.
Qed.

Lemma emits_types a ta tb : emits a ta -> ta = tb -> emits a tb.
Proof. by intros H <-. Qed.

(** Follows the shape of a procedure made of fixed records. *)
Ltac emits_tac :=
  lazymatch goal with
  | |- emits (_ >>> _) _ => eapply emits_andThen; emits_tac
  | |- emits (times _ _) _ => eapply emits_times; emits_tac
  | |- emits skip _ => apply emits_skip
  | |- emits (writeRecord _ _) _ => apply emits_writeRecord; vm_compute; reflexivity
  | |- emits ?a _ =>
    let h := head_of a in
    unfold h; cbv zeta; apply emits_writeRecord; vm_compute; reflexivity
  end.

Lemma emits_writeGlobalsHead :
  emits writeGlobalsHead (take 50 globalsTypes).
Proof.
  eapply emits_types; [unfold writeGlobalsHead; emits_tac | reflexivity].
Qed.

Lemma emits_writeEOF : emits writeEOF [recTypeEOF].
Proof. emits_tac. Qed.

Lemma framed_small t d (n : Z) :
  fits 16 t = true -> len d = n -> n < 65536 -> framedRecord (t, d) = true.
Proof.
  intros Ht Hd Hn. unfold framedRecord. cbn [fst snd]. rewrite Ht, Hd.
  by apply Z.ltb_lt.
Qed.

Lemma emits_writeCell row col v sst :
  emits (writeCell row col v sst) [cellType v].
Proof.
  destruct v as [s|bits|b|formatted]; cbn [writeCell cellType];
    unfold writeLabelSST, writeNumber, writeBool; apply emits_writeRecord.
  - by eapply framed_small; [|apply (f_equal len (labelSSTData_eq _ _ _ _))|].
  - by eapply framed_small; [|apply (f_equal len (numberData_eq _ _ _))|].
  - by eapply framed_small; [|apply (f_equal len (boolData_eq _ _ _))|].
  - by eapply framed_small; [|apply (f_equal len (labelSSTData_eq _ _ _ _))|].
Qed.

Lemma emits_writeCells row sst :
  forall rowIndex colIndex,
    emits (writeCells rowIndex colIndex row sst) (cellType <$> row).
Proof.
  induction row as [|cell row IH]; intros rowIndex colIndex; cbn [writeCells].
  - apply emits_skip.
  - apply (emits_andThen _ _ [cellType cell]); [apply emits_writeCell | apply IH].
Qed.

Lemma emits_writeRows rows sst :
  forall rowIndex,
    emits (writeRows rowIndex rows sst)
          (row ← rows; recTypeROW :: (cellType <$> row)).
Proof.
  induction rows as [|row rows IH]; intros rowIndex; cbn [writeRows].
  - apply emits_skip.
  - rewrite bind_cons.
    change (recTypeROW :: (cellType <$> row))
      with ([recTypeROW] ++ (cellType <$> row)).
    rewrite <- app_assoc.
    apply emits_andThen.
    { unfold writeRow. apply emits_writeRecord.
      by eapply framed_small; [|apply (f_equal len (rowData_eq _ _))|]. }
    apply emits_andThen; [apply emits_writeCells | apply IH].
Qed.

Lemma emits_writeDimensions w : emits (writeDimensions w) [recTypeDIMENSIONS].
Proof.
  unfold writeDimensions. apply emits_writeRecord.
  eapply (framed_small _ _ 14); [done| |done].
  unfold len, dimensionsData. cbv zeta. buf_length. reflexivity.
Qed.

Ltac emits_sheet_tac :=
  lazymatch goal with
  | |- emits (_ >>> _) _ => eapply emits_andThen; emits_sheet_tac
  | |- emits (writeRowsAndCells _ _) _ => apply emits_writeRows
  | |- emits (writeDimensions _) _ => apply emits_writeDimensions
  | |- _ => emits_tac
  end.

Lemma emits_writeWorksheet w sst :
  emits (writeWorksheet w sst) (worksheetTypes (data w)).
Proof.
  eapply emits_types; [unfold writeWorksheet; emits_sheet_tac | reflexivity].
Qed.

Lemma emits_writeSST sst payload :
  sstData sst = Some payload -> len payload < 65536 ->
  emits (writeSST sst) [recTypeSST].
Proof.
  intros Hdata Hlen. unfold writeSST. rewrite Hdata.
  apply emits_writeRecord. by eapply framed_small.
Qed.

Lemma emits_writeBoundSheet offset name :
  len (runes name) < 32764 ->
  emits (writeBoundSheet offset name) [recTypeBOUNDSHEET].
Proof.
  intros Hname. unfold writeBoundSheet. apply emits_writeRecord.
  eapply (framed_small _ _ (8 + 2 * len (runes name))); [done| |lia].
  rewrite boundSheetData_eq, len_app, len_stringToUTF16LE. reflexivity.
Qed.

Lemma holds_writeBIFF8 w payload :
  sstData (buildSST (data w)) = Some payload -> len payload < 65536 ->
  len (runes (sheetName w)) < 32764 ->
  holds (output (writeBIFF8 w)) (globalsTypes ++ worksheetTypes (data w)).
Proof.
  intros Hdata Hlen Hname. rewrite output_writeBIFF8.
  change globalsTypes
    with (take 50 globalsTypes
            ++ [recTypeSST] ++ [recTypeBOUNDSHEET] ++ [recTypeEOF]).
  rewrite <- !app_assoc.
  apply holds_app; [apply emits_writeGlobalsHead|].
  apply holds_app; [by apply (emits_writeSST _ payload)|].
  apply holds_app; [by apply emits_writeBoundSheet|].
  apply holds_app; [apply emits_writeEOF | apply emits_writeWorksheet].
Qed.

(** X9. The stream of [writeBIFF8] is a sequence of records in the order of
    the calls.  For every table whose SST payload is shorter than 65536
    bytes, under every sheet name of fewer than 32764 code points, walking
    the stream record by record consumes it exactly, and the record types
    met are those of the workbook globals (with seven FONT, eighteen XF, one
    SST and one BOUNDSHEET record) up to their EOF, then those of the
    worksheet: its settings with DIMENSIONS, one ROW record per row, each
    followed by one record per cell of that row (LABELSST for a text or any
    other value, NUMBER, BOOLERR), then WINDOW2 and EOF. *)
Theorem writeBIFF8_records (w : Writer) (payload : list Z)
    (Hsst : sstData (buildSST (data w)) = Some payload)
    (Hpayload : len payload < 65536)
    (Hname : len (runes (sheetName w)) < 32764) :
  exists recs,
    records (output (writeBIFF8 w)) = Some recs /\
    recordsBytes recs = output (writeBIFF8 w) /\
    recs.*1 = globalsTypes ++ worksheetTypes (data w) /\
    last recs.*1 = Some recTypeEOF.
Proof.
  destruct (holds_writeBIFF8 w payload Hsst Hpayload Hname)
    as (recs & Hbytes & Htypes & Hframed).
  exists recs. rewrite Hbytes.
  split; [by apply records_recordsBytes|]. split; [done|]. split; [done|].
  rewrite Htypes. unfold worksheetTypes.
  change [recTypeWINDOW2; recTypeEOF] with ([recTypeWINDOW2] ++ [recTypeEOF]).
  rewrite !app_assoc. apply last_snoc.
Qed.

Lemma writeBIFF8_records_witness :
  let w := {| data := [[VString "a"; VNumber Float64bits_1_0]; [VBool true]];
              sheetName := "Sheet1" |} in
  let payload := [1; 0; 0; 0; 1; 0; 0; 0; 1; 0; 1; 0x61; 0] in
  sstData (buildSST (data w)) = Some payload /\
  len payload < 65536 /\
  len (runes (sheetName w)) < 32764 /\
  exists recs,
    records (output (writeBIFF8 w)) = Some recs /\
    recordsBytes recs = output (writeBIFF8 w) /\
    recs.*1 = globalsTypes ++ worksheetTypes (data w) /\
    last recs.*1 = Some recTypeEOF.
Proof.
  intros w payload.
  assert (sstData (buildSST (data w)) = Some payload) as Hsst by reflexivity.
  assert (len payload < 65536) as Hlen by reflexivity.
  assert (len (runes (sheetName w)) < 32764) as Hname by reflexivity.
  split; [exact Hsst|]. split; [exact Hlen|]. split; [exact Hname|].
  exact (writeBIFF8_records w payload Hsst Hlen Hname).
Defined.

(** ** DIMENSIONS and the widths of the rows *)

Lemma columns_loop (rows : list (list value)) :
  forall c, 0 <= c ->
    foldl (fun colCount row =>
             if colCount <? uint16 (len row) then uint16 (len row) else colCount)
          c rows
    = Z.max c (foldr Z.max 0 ((fun row => len row mod 2 ^ 16) <$> rows)).
Proof.
  induction rows as [|row rows IH]; intros c Hc; cbn [foldl fmap list_fmap foldr].
  - lia.
  - unfold uint16.
    destruct (Z.ltb_spec c (len row mod 2 ^ 16)); rewrite IH by lia; lia.
Qed.

Lemma widths_bound (rows : list (list value)) :
  0 <= foldr Z.max 0 ((fun row => len row mod 2 ^ 16) <$> rows) < 2 ^ 16.
Proof.
  induction rows as [|row rows IH]; cbn [fmap list_fmap foldr]; [lia|].
  pose proof (Z.mod_pos_bound (len row) (2 ^ 16) ltac:(lia)). lia.
Qed.

Lemma dimensionsData_eq w :
  dimensionsData w
  = let rowCount := uint32 (len (data w)) in
    let colCount := foldr Z.max 0 ((fun row => len row mod 2 ^ 16) <$> data w) in
    [0; 0; 0; 0;
     uint8 rowCount; uint8 (Z.shiftr rowCount 8); uint8 (Z.shiftr rowCount 16);
     uint8 (Z.shiftr rowCount 24);
     0; 0; uint8 colCount; uint8 (Z.shiftr colCount 8); 0; 0].
Proof.
  unfold dimensionsData. cbv zeta. change (uint16 0) with 0.
  rewrite columns_loop by done.
  rewrite Z.max_r by (pose proof (widths_bound (data w)); lia).
  reflexivity.
Qed.

Lemma widths_max (rows : list (list value)) :
  let widths := (fun row => len row mod 2 ^ 16) <$> rows in
  Forall (fun c => c <= foldr Z.max 0 widths) widths /\
  foldr Z.max 0 widths ∈ 0 :: widths.
Proof.
  cbv zeta.
  induction rows as [|row rows [IH1 IH2]]; cbn [fmap list_fmap foldr].
  - split; [apply Forall_nil_2 | apply list_elem_of_here].
  - split.
    + constructor; [lia|]. eapply Forall_impl; [exact IH1|].
      cbn beta. intros c Hc. lia.
    + destruct (Z.max_spec (len row mod 2 ^ 16)
                  (foldr Z.max 0 ((fun row => len row mod 2 ^ 16) <$> rows)))
        as [[_ ->]|[_ ->]].
      * apply elem_of_cons in IH2 as [->|Hin].
        -- apply list_elem_of_here.
        -- by do 2 apply list_elem_of_further.
      * apply list_elem_of_further, list_elem_of_here.
Qed.

(** X10. The DIMENSIONS record and the ROW records agree on the widths.  For
    every table, the payload of DIMENSIONS has 14 bytes, its first row and
    first column are 0, and its column bound is the largest of the row
    lengths, each taken modulo 2^16 (0 for a table without rows); the column
    field of each ROW record is the length of that row modulo 2^16, so it
    never exceeds the bound of DIMENSIONS, and the bound is reached by a row
    unless it is 0. *)
Theorem dimensions_columns (w : Writer) :
  let widths := (fun row => len row mod 2 ^ 16) <$> data w in
  len (dimensionsData w) = 14 /\
  Uint32 (dimensionsData w) 0 = 0 /\
  Uint16 (dimensionsData w) 8 = 0 /\
  Uint16 (dimensionsData w) 10 = foldr Z.max 0 widths /\
  Uint16 (dimensionsData w) 12 = 0 /\
  (forall rowIndex (row : list value),
      Uint16 (rowData rowIndex (uint16 (len row))) 2 = 0 /\
      Uint16 (rowData rowIndex (uint16 (len row))) 4 = len row mod 2 ^ 16) /\
  Forall (fun c => c <= Uint16 (dimensionsData w) 10) widths /\
  Uint16 (dimensionsData w) 10 ∈ 0 :: widths.
Proof.
  intros widths.
  assert (Uint16 (dimensionsData w) 10 = foldr Z.max 0 widths) as Hcol.
  { rewrite dimensionsData_eq. cbv zeta. unfold Uint16. simpl.
    rewrite le16_value. apply Z.mod_small, widths_bound. }
  rewrite Hcol.
  split; [by rewrite dimensionsData_eq|].
  split; [by rewrite dimensionsData_eq|].
  split; [by rewrite dimensionsData_eq|].
  split; [reflexivity|].
  split; [by rewrite dimensionsData_eq|].
  split.
  { intros rowIndex row. rewrite rowData_eq. split; [reflexivity|].
    unfold Uint16. simpl. rewrite le16_value. apply uint16_mod. }
  apply widths_max.
Qed.

(** ** The SST of a table *)

Lemma elem_of_first_fold (calls : list string) (x : string) :
  forall acc : list string,
    x ∈ foldl (fun acc s => if decide (s ∈ acc) then acc else acc ++ [s]) acc calls
    <-> x ∈ acc \/ x ∈ calls.
Proof.
  induction calls as [|t calls IH]; intros acc; cbn [foldl].
  - rewrite elem_of_nil. tauto.
  - rewrite IH, elem_of_cons. destruct (decide (t ∈ acc)) as [Hin|Hnin].
    + split; [tauto|]. intros [?|[->|?]]; tauto.
    + rewrite elem_of_app, list_elem_of_singleton. tauto.
Qed.

Lemma elem_of_firstOccurrences (calls : list string) (x : string) :
  x ∈ firstOccurrences calls <-> x ∈ calls.
Proof.
  unfold firstOccurrences. rewrite elem_of_first_fold, elem_of_nil. tauto.
Qed.

Lemma NoDup_firstOccurrences (calls : list string) : NoDup (firstOccurrences calls).
Proof.
  rewrite <- strings_first_occurrences.
  apply (wf_nodup _ (sst_wf_adds calls newSST sst_wf_new)).
Qed.

Lemma length_firstOccurrences (calls : list string) :
  length (firstOccurrences calls) = length (remove_dups calls).
Proof.
  apply Permutation_length, NoDup_Permutation.
  - apply NoDup_firstOccurrences.
  - apply NoDup_remove_dups.
  - intros x. by rewrite elem_of_firstOccurrences, elem_of_remove_dups.
Qed.

(** The loop of [writeSST] appends the encoded strings in order. *)
Lemma appendStrings_concat strs :
  forall data,
    exists encoded,
      Forall2 (fun s e => encodeStringForSST s = Some e) strs encoded /\
      appendStrings data strs = Some (data ++ concat encoded).
Proof.
  induction strs as [|s strs IH]; intros data; cbn [appendStrings].
  - exists []. split; [constructor|]. by rewrite app_nil_r.
  - destruct (encodeStringForSST_total s) as [e He]. rewrite He. simpl.
    destruct (IH (data ++ e)) as (encoded & Hall & ->).
    exists (e :: encoded). split; [by constructor|].
    by rewrite <- app_assoc.
Qed.

Lemma sstData_layout sst :
  exists payload encoded,
    sstData sst = Some payload /\
    Uint32 payload 0 = totalCount sst mod 2 ^ 32 /\
    Uint32 payload 4 = uniqueCount sst mod 2 ^ 32 /\
    drop 8 payload = concat encoded /\
    Forall2 (fun s e => encodeStringForSST s = Some e) (strings sst) encoded.
Proof.
  unfold sstData. cbv zeta.
  match goal with |- context [appendStrings ?d _] => set (head := d) end.
  destruct (appendStrings_concat (strings sst) head) as (encoded & Hall & ->).
  exists (head ++ concat encoded), encoded. split; [done|].
  assert (length head = 8%nat) as Hl by reflexivity.
  split.
  { rewrite Uint32_app_l by (rewrite Hl; lia).
    unfold head, Uint32. simpl. rewrite le32_value. apply uint32_mod. }
  split.
  { rewrite Uint32_app_l by (rewrite Hl; lia).
    unfold head, Uint32. simpl. rewrite le32_value. apply uint32_mod. }
  split; [|done].
  by rewrite drop_app_length' by done.
Qed.

(** X11. The SST record and the LABELSST records of one stream agree.  For
    every table, the table built by the pre-walk of [writeBIFF8] counts the
    text cells ([totalCount]) and the distinct texts ([uniqueCount]) and
    holds exactly the texts of the table; the SST payload is the two counts,
    each modulo 2^32, followed by the encoded strings in the order of the
    table; and the index stored in the LABELSST record of a text cell,
    wherever the cell lies, is the position in that table of the cell's own
    text (modulo 2^32). *)
Theorem sst_of_table (w : Writer) :
  let sst := buildSST (data w) in
  let texts := textCells (data w) in
  totalCount sst = len texts /\
  uniqueCount sst = len (remove_dups texts) /\
  NoDup (strings sst) /\
  (forall s, s ∈ strings sst <-> s ∈ texts) /\
  (exists payload encoded,
      sstData sst = Some payload /\
      Uint32 payload 0 = len texts mod 2 ^ 32 /\
      Uint32 payload 4 = len (remove_dups texts) mod 2 ^ 32 /\
      drop 8 payload = concat encoded /\
      Forall2 (fun s e => encodeStringForSST s = Some e) (strings sst) encoded) /\
  (forall s, s ∈ texts ->
     exists n : nat,
       strings sst !! n = Some s /\
       forall row col,
         Uint32 (labelSSTData row col s sst) 6 = Z.of_nat n mod 2 ^ 32).
Proof.
  intros sst texts.
  assert (sst = addStrings texts newSST) as Hsst by apply buildSST_textCells.
  pose proof (sst_wf_adds texts newSST sst_wf_new) as Hwf. rewrite <- Hsst in Hwf.
  assert (strings sst = firstOccurrences texts) as Hstr
    by (rewrite Hsst; apply strings_first_occurrences).
  assert (totalCount sst = len texts) as Htot
    by (rewrite Hsst, totalCount_adds; reflexivity).
  assert (uniqueCount sst = len (remove_dups texts)) as Huniq.
  { rewrite <- (wf_length _ Hwf), Hstr. unfold len.
    by rewrite length_firstOccurrences. }
  split; [exact Htot|]. split; [exact Huniq|].
  split; [apply (wf_nodup _ Hwf)|].
  split; [intros s; rewrite Hstr; apply elem_of_firstOccurrences|].
  split.
  { destruct (sstData_layout sst) as (payload & encoded & H1 & H2 & H3 & H4 & H5).
    exists payload, encoded. by rewrite <- Htot, <- Huniq. }
  intros s Hs. apply list_elem_of_In in Hs.
  destruct (getIndex_first_occurrence texts s Hs) as (n & Hidx & Hn).
  exists n. split; [by rewrite Hstr|].
  intros row col. by rewrite labelSST_index_field, Hsst, Hidx.
Qed.

(** ** Cell records *)

(** X12. The record of a cell.  For every position and every value,
    [writeCell] appends one record and returns [nil]: a NUMBER record of 14
    payload bytes whose last eight bytes are the 64 bits of the number,
    little-endian, for a numeric value; a BOOLERR record of 8 payload bytes
    with the value byte 1 or 0 and the error flag 0 for a boolean; a LABELSST
    record of 10 payload bytes with the 32-bit SST index for a text and for
    any other value.  The format index of all three is 0. *)
Theorem cell_records (row col : Z) (v : value) (sst : sharedStringTable)
    (buf : list Z) :
  exists payload,
    writeCell row col v sst buf = (buf ++ recordBytes (cellType v) payload, Ok) /\
    Uint16 payload 4 = 0 /\
    match v with
    | VNumber bits => len payload = 14 /\ Uint64 payload 6 = bits mod 2 ^ 64
    | VBool b =>
      len payload = 8 /\
      payload !! 6%nat = Some (if b then 1 else 0) /\ payload !! 7%nat = Some 0
    | VString s | VOther s =>
      len payload = 10 /\ Uint32 payload 6 = getIndex sst s mod 2 ^ 32
    end.
Proof.
  destruct v as [s|bits|b|s]; cbn [writeCell cellType];
    unfold writeLabelSST, writeNumber, writeBool; eexists;
    (split; [apply writeRecord_run|]).
  - split; [reflexivity|]. split; [reflexivity | apply labelSST_index_field].
  - split; [reflexivity|]. split; [reflexivity|].
    rewrite numberData_eq. unfold Uint64, Uint32. simpl. apply le64_value.
  - rewrite boolData_eq. by destruct b.
  - split; [reflexivity|]. split; [reflexivity | apply labelSST_index_field].
Qed.

(** ** The size of the stream *)

Lemma len_output_andThen a b :
  appends a -> appends b -> len (output (a >>> b)) = len (output a) + len (output b).
Proof. intros Ha Hb. by rewrite output_andThen, len_app. Qed.

Lemma sumZ_cons x l : sumZ (x :: l) = x + sumZ l.
Proof. reflexivity. Qed.

Lemma len_output_writeCell row col v sst :
  len (output (writeCell row col v sst)) = cellSize v.
Proof.
  destruct v; cbn [writeCell cellSize];
    unfold writeLabelSST, writeNumber, writeBool;
    rewrite output_writeRecord, len_recordBytes, ?boolData_eq; reflexivity.
Qed.

Lemma len_output_writeCells row sst :
  forall rowIndex colIndex,
    len (output (writeCells rowIndex colIndex row sst)) = sumZ (cellSize <$> row).
Proof.
  induction row as [|cell row IH]; intros rowIndex colIndex; [reflexivity|].
  cbn [writeCells]. rewrite fmap_cons, sumZ_cons.
  rewrite len_output_andThen
    by (apply appends_writeCell || apply appends_writeCells).
  by rewrite len_output_writeCell, IH.
Qed.

Lemma len_output_writeRows rows sst :
  forall rowIndex,
    len (output (writeRows rowIndex rows sst)) = sumZ (rowSize <$> rows).
Proof.
  induction rows as [|row rows IH]; intros rowIndex; [reflexivity|].
  cbn [writeRows]. rewrite fmap_cons, sumZ_cons.
  rewrite len_output_andThen; [|apply appends_writeRecord|].
  2:{ apply appends_andThen; [apply appends_writeCells|apply appends_writeRows]. }
  rewrite len_output_andThen
    by (apply appends_writeCells || apply appends_writeRows).
  unfold writeRow. rewrite output_writeRecord, len_recordBytes.
  rewrite len_output_writeCells, IH. unfold rowSize.
  replace (len (rowData (uint16 rowIndex) (uint16 (len row)))) with 16
    by reflexivity.
  lia.
Qed.

Lemma len_output_writeDimensions w : len (output (writeDimensions w)) = 18.
Proof.
  unfold writeDimensions. rewrite output_writeRecord, len_recordBytes.
  by rewrite dimensionsData_eq.
Qed.

(** Splits the length of a sequence into the lengths of its steps. *)
Ltac len_steps :=
  repeat (rewrite len_output_andThen;
          [|solve [appends_rows_tac]|solve [appends_rows_tac]]).

Lemma len_output_writeWorksheet w sst :
  len (output (writeWorksheet w sst)) = 308 + sumZ (rowSize <$> data w).
Proof.
  unfold writeWorksheet. len_steps.
  rewrite len_output_writeDimensions.
  unfold writeRowsAndCells. rewrite len_output_writeRows.
  repeat match goal with
         | |- context [len (output ?a)] =>
           let v := eval vm_compute in (len (output a)) in
           change (len (output a)) with v
         end.
  lia.
Qed.

Lemma len_transcoded (rs : list Z) :
  len (r ← rs;
       if r <=? 0xFFFF
       then [uint8 (uint16 r); uint8 (Z.shiftr (uint16 r) 8)]
       else [uint8 (EncodeRune r).1; uint8 (Z.shiftr (EncodeRune r).1 8);
             uint8 (EncodeRune r).2; uint8 (Z.shiftr (EncodeRune r).2 8)])
  = 2 * len rs + 2 * len (filter (fun r => 0xFFFF < r) rs).
Proof.
  induction rs as [|r rs IH]; [reflexivity|].
  rewrite bind_cons, filter_cons. unfold len in *.
  rewrite length_app, Nat2Z.inj_add, IH.
  destruct (Z.leb_spec r 0xFFFF).
  - rewrite decide_False by lia. cbn [length]. lia.
  - rewrite decide_True by lia. cbn [length]. lia.
Qed.

Lemma len_encodeStringForSST s e :
  encodeStringForSST s = Some e -> len e = sstStringSize s.
Proof.
  rewrite (encodeStringForSST_eq s _ (utf16leEncoder_String_eq s)).
  intros H. apply (inj Some) in H. rewrite <- H.
  rewrite len_app, len_transcoded. unfold sstStringSize, len.
  cbn [length]. lia.
Qed.

Lemma len_concat_encoded strs encoded :
  Forall2 (fun s e => encodeStringForSST s = Some e) strs encoded ->
  len (concat encoded) = sumZ (sstStringSize <$> strs).
Proof.
  induction 1 as [|s e strs encoded He _ IH]; [reflexivity|].
  cbn [concat]. rewrite fmap_cons, sumZ_cons, len_app, IH.
  by rewrite (len_encodeStringForSST s e He).
Qed.

Lemma len_output_writeSST sst :
  len (output (writeSST sst)) = 12 + sumZ (sstStringSize <$> strings sst).
Proof.
  unfold writeSST, sstData. cbv zeta.
  match goal with |- context [appendStrings ?d _] => set (head := d) end.
  destruct (appendStrings_concat (strings sst) head) as (encoded & Hall & ->).
  rewrite output_writeRecord, len_recordBytes, len_app.
  rewrite (len_concat_encoded _ _ Hall).
  replace (len head) with 8 by reflexivity. lia.
Qed.

Lemma len_output_writeBIFF8 w : len (output (writeBIFF8 w)) = streamSize w.
Proof.
  rewrite output_writeBIFF8, !len_app.
  rewrite len_output_writeGlobalsHead, len_output_writeSST.
  rewrite len_output_writeBoundSheet, len_stringToUTF16LE.
  rewrite output_writeEOF, len_output_writeWorksheet.
  rewrite buildSST_textCells, strings_first_occurrences.
  unfold streamSize, len at 2. cbn [length]. lia.
Qed.

(** X13. The size of the stream.  For every table and sheet name the stream
    of [writeBIFF8] has [1243 + 2 n + S + R] bytes, where [n] is the number
    of code points of the sheet name, [S] adds, for every distinct text of
    the table, 3 bytes, 2 bytes per code point and 2 more per code point
    above U+FFFF, and [R] adds 20 bytes per row, 18 per numeric cell, 12 per
    boolean cell and 14 per cell of a text or of any other value.  So the
    empty table gives 1243 bytes and twice the length of the name. *)
Theorem writeBIFF8_size (w : Writer) :
  writeBIFF8 w [] = (output (writeBIFF8 w), Ok) /\
  len (output (writeBIFF8 w)) = streamSize w /\
  len (output (writeSST (buildSST (data w))))
  = 12 + sumZ (sstStringSize <$> firstOccurrences (textCells (data w))) /\
  len (output (writeWorksheet w (buildSST (data w))))
  = 308 + sumZ (rowSize <$> data w) /\
  1243 <= streamSize w.
Proof.
  split.
  { rewrite writeBIFF8_run. by rewrite <- output_writeBIFF8. }
  split; [apply len_output_writeBIFF8|].
  split.
  { by rewrite len_output_writeSST, buildSST_textCells, strings_first_occurrences. }
  split; [apply len_output_writeWorksheet|].
  unfold streamSize.
  assert (forall l : list string, 0 <= sumZ (sstStringSize <$> l)) as Hs.
  { induction l as [|s l IH]; [done|]. rewrite fmap_cons, sumZ_cons.
    unfold sstStringSize at 1.
    pose proof (len_nonneg (runes s)).
    pose proof (len_nonneg (filter (fun r => 0xFFFF < r) (runes s))). lia. }
  assert (forall row : list value, 0 <= sumZ (cellSize <$> row)) as Hc.
  { induction row as [|v row IH]; [done|]. rewrite fmap_cons, sumZ_cons.
    destruct v; cbn [cellSize]; lia. }
  assert (forall rows : list (list value), 0 <= sumZ (rowSize <$> rows)) as Hr.
  { induction rows as [|row rows IH]; [done|]. rewrite fmap_cons, sumZ_cons.
    unfold rowSize at 1. specialize (Hc row). lia. }
  pose proof (len_nonneg (runes (sheetName w))).
  specialize (Hs (firstOccurrences (textCells (data w)))).
  specialize (Hr (data w)). lia.
Qed.

(** ** From the table to the file *)

Lemma SaveAs_result w :
  SaveAs w []
  = (cfbOutput (output (writeBIFF8 w)), cfbOutcome (output (writeBIFF8 w))).
Proof.
  unfold SaveAs. rewrite writeBIFF8_run, <- output_writeBIFF8.
  unfold cfbOutput, cfbOutcome. apply surjective_pairing.
Qed.

Lemma cfbOutcome_cases workbookData :
  cfbOutcome workbookData
  = if decide (len workbookData <= 64512) then Ok else Panic.
Proof.
  destruct (decide (len workbookData <= 64512)) as [Hfits|Hlarge].
  - by destruct (cfbOutput_fits workbookData Hfits) as (? & ? & _ & _ & _ & -> & _).
  - by destruct (cfbOutput_large workbookData ltac:(lia)) as (? & _ & _ & -> & _).
Qed.

Lemma cfbOutput_data workbookData :
  take (length workbookData) (drop 512 (cfbOutput workbookData)) = workbookData.
Proof.
  destruct (decide (len workbookData <= 64512)) as [Hfits|Hlarge].
  - destruct (cfbOutput_fits workbookData Hfits) as (hdr & fat & Hh & _ & _ & _ & ->).
    rewrite drop_app_length' by done. rewrite <- app_assoc.
    by rewrite take_app_length.
  - destruct (cfbOutput_large workbookData ltac:(lia)) as (hdr & Hh & _ & _ & ->).
    rewrite drop_app_length' by done. by rewrite take_app_length.
Qed.

(** X14. [SaveAs] puts the stream of [writeBIFF8] into the container.  For
    every table and sheet name, the bytes [SaveAs] writes are those
    [WriteCFB] writes for the stream; it returns [nil] when the stream, whose
    size is given by [streamSize], has at most 64512 bytes and panics
    otherwise; the bytes after the 512-byte header begin with the stream; and
    when it returns [nil], reading the stream "Workbook" back from the file
    gives the stream, filled up with zero bytes to 4096 bytes when it is
    shorter. *)
Theorem SaveAs_container (w : Writer) :
  let stream := output (writeBIFF8 w) in
  len stream = streamSize w /\
  SaveAs w []
  = (cfbOutput stream, if decide (streamSize w <= 64512) then Ok else Panic) /\
  take (length stream) (drop 512 (cfbOutput stream)) = stream /\
  (streamSize w <= 64512 ->
   readStream (SaveAs w []).1 "Workbook"
   = Some (stream
             ++ replicate (Z.to_nat (Z.max (streamSize w) 4096 - streamSize w)) 0)).
Proof.
  cbv zeta. rewrite SaveAs_result.
  pose proof (len_output_writeBIFF8 w) as Hlen.
  revert Hlen. generalize (output (writeBIFF8 w)). intros stream Hlen.
  rewrite <- Hlen. split; [reflexivity|].
  split; [by rewrite cfbOutcome_cases|].
  split; [apply cfbOutput_data|].
  apply readStream_fits.
Qed.

Lemma SaveAs_container_witness :
  let w := {| data := [[VString "a"; VNumber Float64bits_1_0]]; sheetName := "Sheet1" |} in
  streamSize w <= 64512 /\
  readStream (SaveAs w []).1 "Workbook"
  = Some (output (writeBIFF8 w)
            ++ replicate (Z.to_nat (Z.max (streamSize w) 4096 - streamSize w)) 0).
Proof.
  intros w.
  assert (streamSize w <= 64512) as H by (vm_compute; discriminate).
  split; [exact H|].
  exact (proj2 (proj2 (proj2 (SaveAs_container w))) H).
Defined.

(** Three hundred rows of ten numbers still fit the container; four hundred
    do not, and [SaveAs] panics. *)
Example SaveAs_rows_of_numbers :
  let w (n : nat) :=
    {| data := replicate n (replicate 10 (VNumber Float64bits_1_0));
       sheetName := "Sheet1" |} in
  streamSize (w 300%nat) = 61255 /\ (SaveAs (w 300%nat) []).2 = Ok /\
  streamSize (w 400%nat) = 81255 /\ (SaveAs (w 400%nat) []).2 = Panic.
Proof.
  intros w. rewrite !SaveAs_result. cbn [snd].
  rewrite !cfbOutcome_cases, !len_output_writeBIFF8.
  assert (streamSize (w 300%nat) = 61255) as -> by (vm_compute; reflexivity).
  assert (streamSize (w 400%nat) = 81255) as -> by (vm_compute; reflexivity).
  by repeat split.
Qed.

(** X15. The two ways to write a file agree.  For every table and every list
    of options, [WriteToFile] is [SaveAs] on a writer that holds the table
    given, whatever the options did to the table, under the sheet name the
    options leave, "Sheet1" without options; a [WithSheetName] given last
    decides the name; and [New], [SetSheetName], [Write], [SaveAs] in a row,
    with [SetSheetName] before or after [Write], do what [WriteToFile] does
    with the one option [WithSheetName].  [Write] and [Close] return
    [nil]. *)
Theorem WriteToFile_options (d : list (list value)) (opts : list Option)
    (name : string) :
  WriteToFile d opts
  = SaveAs {| data := d;
              sheetName := sheetName (foldl (fun w opt => opt w) New opts) |} /\
  WriteToFile d [] = SaveAs {| data := d; sheetName := "Sheet1" |} /\
  WriteToFile d (opts ++ [WithSheetName name])
  = SaveAs {| data := d; sheetName := name |} /\
  SaveAs (Writer_Write d (SetSheetName name New)).1
  = WriteToFile d [WithSheetName name] /\
  SaveAs (SetSheetName name (Writer_Write d New).1)
  = WriteToFile d [WithSheetName name] /\
  (forall w, (Writer_Write d w).2 = Ok /\ Close w = (w, Ok)).
Proof.
  split; [reflexivity|]. split; [reflexivity|]. split.
  { unfold WriteToFile. cbv zeta. by rewrite foldl_app. }
  split; [reflexivity|]. split; [reflexivity|]. done.
Qed.

(** ** The two encodings of a string *)

Lemma filter_above_nil (rs : list Z) :
  filter (fun r => 0xFFFF < r) rs = [] <-> Forall (fun r => r <= 0xFFFF) rs.
Proof.
  induction rs as [|r rs IH]; [by split; [constructor|]|].
  rewrite filter_cons, Forall_cons.
  destruct (decide (0xFFFF < r)) as [Hhigh|Hlow].
  - split; [done|]. intros [? _]. lia.
  - rewrite IH. split; [intros ?; split; [lia|done] | by intros [_ ?]].
Qed.

(** X16. Where the two encodings of a string agree.  The encoding of the
    sheet name and of the directory names ([stringToUTF16LE]) and the
    encoding of the SST strings (the transcoder called by
    [encodeStringForSST] and [encodeString]) give the same bytes exactly for
    the strings all of whose code points lie in the Basic Multilingual
    Plane; for every other string the first is shorter, by two bytes for
    each code point above U+FFFF. *)
Theorem utf16_paths_agree (s : string) :
  (utf16leEncoder_String s = Some (stringToUTF16LE s)
   <-> Forall (fun r => r <= 0xFFFF) (runes s)) /\
  exists transcoded,
    utf16leEncoder_String s = Some transcoded /\
    len transcoded
    = len (stringToUTF16LE s) + 2 * len (filter (fun r => 0xFFFF < r) (runes s)).
Proof.
  assert (exists transcoded,
             utf16leEncoder_String s = Some transcoded /\
             len transcoded
             = len (stringToUTF16LE s)
               + 2 * len (filter (fun r => 0xFFFF < r) (runes s))) as Hlen.
  { eexists. split; [apply utf16leEncoder_String_eq|].
    by rewrite len_transcoded, len_stringToUTF16LE. }
  split; [|exact Hlen].
  destruct Hlen as (transcoded & Henc & Hlen). rewrite Henc. split.
  - intros [= ->]. apply filter_above_nil.
    destruct (filter _ (runes s)) as [|r l]; [done|].
    unfold len in Hlen. cbn [length] in Hlen. lia.
  - intros Hbmp. rewrite <- Henc, utf16leEncoder_String_eq, stringToUTF16LE_runes.
    f_equal. clear Henc Hlen. induction Hbmp as [|r rs Hr _ IH]; [done|].
    rewrite !bind_cons, IH. f_equal.
    by rewrite (proj2 (Z.leb_le r 0xFFFF) Hr).
Qed.
